(** * polyadicQML: the manyQ circuit builder and the quantum classifier

    A shallow embedding of [polyadicqml/manyq/mqBuilder.py] and
    [polyadicqml/quantumClassifier.py].

    Python objects are records, attribute mutation is explicit state
    passing, and a raised exception is an outcome that keeps the state
    reached so far, the way a Python exception leaves every mutation made
    before it in place.  The floats of parameters, probabilities and
    losses are modelled as exact rationals ([Q]); rounding, NaN and
    overflow are outside the model there.  The one float that is turned
    into an integer, the multiplicative [nbshots_increment], is an IEEE 754
    binary64 value with its rounding. *)

From Stdlib Require Import ZArith QArith Qround String Ascii List Lia Bool.
From Stdlib Require Import Sorted SpecFloat.
From stdpp Require Import gmap strings pretty.
Import ListNotations.

Local Open Scope string_scope.
Local Open Scope Z_scope.

(** ** Exceptions and the state-and-exception monad *)

Inductive exn : Type :=
| TypeError
| ValueError
| IndexError
| AttributeError
| ZeroDivisionError
| OverflowError
| OutOfRangeError.

Inductive outcome (A : Type) : Type :=
| Ok (a : A)
| Raised (e : exn).
Arguments Ok {A} a.
Arguments Raised {A} e.

(** A computation over a mutable store [S]: it returns or raises, and in
    both cases hands back the store as it left it. *)
Definition M (S A : Type) : Type := S -> outcome A * S.

Definition ret {S A} (a : A) : M S A := fun s => (Ok a, s).

Definition raise {S A} (e : exn) : M S A := fun s => (Raised e, s).

Definition bind {S A B} (m : M S A) (f : A -> M S B) : M S B :=
  fun s =>
    match m s with
    | (Ok a, s') => f a s'
    | (Raised e, s') => (Raised e, s')
    end.

Definition get {S} : M S S := fun s => (Ok s, s).

Definition modify {S} (f : S -> S) : M S unit := fun s => (Ok tt, f s).

Definition lift {S A} (r : outcome A) : M S A := fun s => (r, s).

Declare Scope monad_scope.
Delimit Scope monad_scope with monad.
Notation "'let*' x ':=' m 'in' k" := (bind m (fun x => k))
  (at level 10, x name, m at level 100, k at level 200, only parsing)
  : monad_scope.
Notation "m ;;; k" := (bind m (fun _ => k))
  (at level 100, k at level 200, only parsing) : monad_scope.
Local Open Scope monad_scope.

(** [for x in xs: body x] *)
Fixpoint for_each {S A} (xs : list A) (body : A -> M S unit) : M S unit :=
  match xs with
  | [] => ret tt
  | x :: rest => body x ;;; for_each rest body
  end.

(** Python truthiness of an [int]-or-[None] value. *)
Definition truthy (v : option Z) : bool :=
  match v with
  | Some z => negb (z =? 0)
  | None => false
  end.

(** ** mqBuilder (polyadicqml/manyq/mqBuilder.py) *)

Module Builder.

(** Calls into the manyQ register ([mq.SX], [mq.RZ], ...), kept as a log in
    call order. *)
Inductive mq_call : Type :=
| SX (idx : Z)
| RZ (idx : Z) (theta : Q)
| CZ (a b : Z)
| fSIM (a b : Z) (theta phi : Q)
| measureAll.

Record mqBuilder : Type := {
  nbqbits : Z;
  txt : string;
  mq : list mq_call
}.

Definition add_txt (s : string) (b : mqBuilder) : mqBuilder :=
  {| nbqbits := nbqbits b; txt := txt b +:+ s; mq := mq b |}.

Definition mq_do (c : mq_call) : M mqBuilder unit :=
  modify (fun b => {| nbqbits := nbqbits b; txt := txt b; mq := mq b ++ [c] |}).

(** Modelled from the spec: [circuitBuilder.__verify_index__] of the parent
    class, which is not among the sources.  "Every placement validates
    indices in [0, nbqbits) and fails with an out-of-range condition
    otherwise." *)
Definition __verify_index__ (idx : Z) : M mqBuilder unit :=
  fun b =>
    if (0 <=? idx) && (idx <? nbqbits b)
    then (Ok tt, b)
    else (Raised OutOfRangeError, b).

Section Gates.

(** [str] of a float, as the f-strings render an angle. *)
Variable str_float : Q -> string.

Definition single_input_txt (idx : Z) (theta : Q) : string :=
  "SX(" +:+ pretty idx +:+ ")RZ(" +:+ pretty idx +:+ "," +:+ str_float theta
    +:+ ")SX(" +:+ pretty idx +:+ ")".

(** [mqBuilder.__single_input], lines 50-56. *)
Definition __single_input (idx : Z) (theta : Q) : M mqBuilder unit :=
  __verify_index__ idx ;;;
  mq_do (SX idx) ;;;
  mq_do (RZ idx theta) ;;;
  mq_do (SX idx) ;;;
  modify (add_txt (single_input_txt idx theta)).

(** [theta[p]] for a position [p] produced by [enumerate] or [range]. *)
Definition getitem {S} (theta : list Q) (p : nat) : M S Q :=
  match nth_error theta p with
  | Some t => ret t
  | None => raise IndexError
  end.

(** The two shapes of argument [input] dispatches on (line 59). *)
Inductive input_arg : Type :=
| Scalar (idx : Z) (theta : Q)
| Listed (idx : list Z) (theta : list Q).

Fixpoint input_loop (p : nat) (idx : list Z) (theta : list Q)
  : M mqBuilder unit :=
  match idx with
  | [] => ret tt
  | i :: rest =>
      let* t := getitem theta p in
      __single_input i t ;;;
      input_loop (S p) rest theta
  end.

(** [mqBuilder.input], lines 58-65. *)
Definition input (a : input_arg) : M mqBuilder unit :=
  match a with
  | Listed idx theta => input_loop 0 idx theta
  | Scalar idx theta => __single_input idx theta
  end.

(** [mqBuilder.allin], lines 67-71. *)
Definition allin (theta : list Q) : M mqBuilder unit :=
  let* b := get in
  for_each (seq 0 (Z.to_nat (nbqbits b)))
    (fun i => let* t := getitem theta i in __single_input (Z.of_nat i) t).

(** [mqBuilder.cz], lines 73-81. *)
Definition cz (a b : Z) : M mqBuilder unit :=
  __verify_index__ a ;;;
  __verify_index__ b ;;;
  mq_do (CZ a b) ;;;
  modify (add_txt ("CZ(" +:+ pretty a +:+ "," +:+ pretty b +:+ ")")).

(** [mqBuilder.fsim], lines 84-92. *)
Definition fsim (a b : Z) (theta phi : Q) : M mqBuilder unit :=
  __verify_index__ a ;;;
  __verify_index__ b ;;;
  mq_do (fSIM a b theta phi) ;;;
  modify (add_txt ("fSIM(" +:+ pretty a +:+ "," +:+ pretty b +:+ ")")).

(** [mqBuilder.measure_all], lines 43-48. *)
Definition measure_all : M mqBuilder unit :=
  mq_do measureAll ;;;
  modify (add_txt "measure_all()").

End Gates.

Definition in_range (b : mqBuilder) (idx : Z) : Prop :=
  0 <= idx < nbqbits b.

(** [mqBuilder.circuit], line 38: the builder itself. *)
Definition circuit : M mqBuilder mqBuilder := get.

(** [mqBuilder.__str__], line 26. *)
Definition __str__ (b : mqBuilder) : string := txt b.

(** [mqBuilder.__repr__], line 29. *)
Definition __repr__ (b : mqBuilder) : string :=
  "mqBuilder(" +:+ __str__ b +:+ ")".

End Builder.

(** ** Python and NumPy helpers *)

Definition truthy_str (v : option string) : bool :=
  match v with
  | Some s => negb (String.eqb s "")
  | None => false
  end.

(** [str.lower] on the ASCII letters. *)
Definition lower_ascii (c : ascii) : ascii :=
  let n := nat_of_ascii c in
  if ((65 <=? n) && (n <=? 90))%nat then ascii_of_nat (n + 32) else c.

Fixpoint lower (s : string) : string :=
  match s with
  | EmptyString => EmptyString
  | String c r => String (lower_ascii c) (lower r)
  end.

(** [needle in hay] for two strings: a substring test. *)
Fixpoint contains (hay needle : string) : bool :=
  String.prefix needle hay ||
  match hay with
  | EmptyString => false
  | String _ r => contains r needle
  end.

(** Whitespace that [int(str, base)] skips on both ends: the ASCII
    blanks, codes 9 to 13 and 32, and, of the characters from 128 to 255,
    the two that Unicode counts as spaces, NEL (133) and the no-break
    space (160).  The codes 28 to 31, blanks for [str.isspace], are not
    skipped. *)
Definition is_space (c : ascii) : bool :=
  let n := nat_of_ascii c in
  (((9 <=? n) && (n <=? 13)) || (n =? 32) || (n =? 133) || (n =? 160))%nat.

Fixpoint lstrip (l : list ascii) : list ascii :=
  match l with
  | c :: r => if is_space c then lstrip r else l
  | [] => []
  end.

Definition strip (l : list ascii) : list ascii :=
  rev (lstrip (rev (lstrip l))).

(** The digits of a base-2 literal: [0], [1] and single underscores between
    two digits.  [prev] is the character just read. *)
Fixpoint scan_bits (l : list ascii) (acc : Z) (prev : option ascii)
  : option Z :=
  match l with
  | [] =>
      match prev with
      | Some "_"%char | None => None
      | Some _ => Some acc
      end
  | c :: r =>
      if Ascii.eqb c "0" then scan_bits r (2 * acc) (Some c)
      else if Ascii.eqb c "1" then scan_bits r (2 * acc + 1) (Some c)
      else if Ascii.eqb c "_" then
        match prev with
        | Some "_"%char | None => None
        | Some _ => scan_bits r acc (Some c)
        end
      else None
  end.

(** [int(s, 2)]: surrounding whitespace, an optional sign, an optional
    [0b] prefix (which may be followed by one underscore), then the digits.
    Anything else is a [ValueError]. *)
Definition int_base2 (s : string) : outcome Z :=
  let l := strip (list_ascii_of_string s) in
  let '(sign, l) :=
    match l with
    | "+"%char :: r => (1, r)
    | "-"%char :: r => (-1, r)
    | _ => (1, l)
    end in
  let l :=
    match l with
    | "0"%char :: "b"%char :: "_"%char :: r => r
    | "0"%char :: "B"%char :: "_"%char :: r => r
    | "0"%char :: "b"%char :: r => r
    | "0"%char :: "B"%char :: r => r
    | _ => l
    end in
  match scan_bits l 0 None with
  | Some v => Ok (sign * v)
  | None => Raised ValueError
  end.

Fixpoint pos_bits (p : positive) : string :=
  match p with
  | xH => "1"
  | xO q => pos_bits q +:+ "0"
  | xI q => pos_bits q +:+ "1"
  end.

(** [bin(z)] *)
Definition bin (z : Z) : string :=
  match z with
  | Z0 => "0b0"
  | Zpos p => "0b" +:+ pos_bits p
  | Zneg p => "-0b" +:+ pos_bits p
  end.

(** [l[idx]] with an index array: every index must be in range. *)
Fixpoint getitems {A} (l : list A) (idx : list nat) : outcome (list A) :=
  match idx with
  | [] => Ok []
  | i :: rest =>
      match nth_error l i, getitems l rest with
      | Some a, Ok r => Ok (a :: r)
      | None, _ => Raised IndexError
      | _, Raised e => Raised e
      end
  end.

Fixpoint insert_unique (z : Z) (l : list Z) : list Z :=
  match l with
  | [] => [z]
  | h :: t =>
      if z <? h then z :: l
      else if z =? h then l
      else h :: insert_unique z t
  end.

(** [np.unique]: the distinct values, ascending. *)
Definition unique (l : list Z) : list Z := fold_right insert_unique [] l.

Fixpoint insert_by_key (p : nat * nat) (l : list (nat * nat))
  : list (nat * nat) :=
  match l with
  | [] => [p]
  | h :: t => if (fst p <=? fst h)%nat then p :: l else h :: insert_by_key p t
  end.

(** [np.argsort] of an index array: the positions, by ascending value. *)
Definition argsort (l : list nat) : list nat :=
  map snd (fold_right insert_by_key [] (combine l (seq 0 (length l)))).

Definition vector : Type := list Q.

(** A two-dimensional array: its second dimension and its rows. *)
Record matrix : Type := {
  ncols : nat;
  rows : list (list Q)
}.

(** A float that may be [np.inf]. *)
Inductive xfloat : Type :=
| Fin (q : Q)
| Inf.

Definition Qltb (a b : Q) : bool :=
  Qnum a * QDen b <? Qnum b * QDen a.

(** [a < b] on floats. *)
Definition xlt (a b : xfloat) : bool :=
  match a, b with
  | Fin x, Fin y => Qltb x y
  | Fin _, Inf => true
  | Inf, _ => false
  end.

(** *** Floats that end up as integers: IEEE 754 binary64

    A value of [spec_float] with 53 bits of precision and exponents up to
    1024; the Python floats are the values that [valid_binary prec emax]
    accepts. *)
Definition float : Type := spec_float.
Definition prec : Z := 53.
Definition emax : Z := 1024.

(** The float nearest to an integer, ties to even; infinite when the
    integer is out of range. *)
Definition nearest_float (z : Z) : float :=
  binary_normalize prec emax z 0 false.

(** The conversion of the [int] operand of [float * int]: an integer too
    large for a float is an [OverflowError]. *)
Definition float_of_int (z : Z) : outcome float :=
  match nearest_float z with
  | S754_infinity _ => Raised OverflowError
  | f => Ok f
  end.

(** [a * b] on floats, rounded to nearest, ties to even. *)
Definition float_mul (a b : float) : float := SFmul prec emax a b.

(** [int(f)]: truncation toward zero; an infinity is an [OverflowError]
    and a NaN a [ValueError]. *)
Definition int_of_float (f : float) : outcome Z :=
  match f with
  | S754_zero _ => Ok 0
  | S754_finite s m e =>
      let magnitude :=
        if 0 <=? e then Zpos m * 2 ^ e else Zpos m / 2 ^ (- e) in
      Ok (if s then - magnitude else magnitude)
  | S754_infinity _ => Raised OverflowError
  | S754_nan => Raised ValueError
  end.

(** [int(f * k)] for a float [f] and an integer [k]. *)
Definition int_of_product (f : float) (k : Z) : outcome Z :=
  match float_of_int k with
  | Ok x => int_of_float (float_mul f x)
  | Raised e => Raised e
  end.

(** [m[idx]] on the rows of a matrix. *)
Definition take_rows (m : matrix) (idx : list nat) : outcome matrix :=
  match getitems (rows m) idx with
  | Ok r => Ok {| ncols := ncols m; rows := r |}
  | Raised e => Raised e
  end.

(** One column index of [out[:, cols]]: negative indices count from the
    end, anything outside [-ncols, ncols) is an [IndexError]. *)
Definition column_index (n : nat) (j : Z) : outcome nat :=
  if (0 <=? j) && (j <? Z.of_nat n) then Ok (Z.to_nat j)
  else if (- Z.of_nat n <=? j) && (j <? 0) then Ok (Z.to_nat (j + Z.of_nat n))
  else Raised IndexError.

Fixpoint column_indices (n : nat) (cols : list Z) : outcome (list nat) :=
  match cols with
  | [] => Ok []
  | j :: rest =>
      match column_index n j, column_indices n rest with
      | Ok i, Ok r => Ok (i :: r)
      | Raised e, _ => Raised e
      | _, Raised e => Raised e
      end
  end.

(** [out[:, cols]] *)
Definition take_columns (m : matrix) (cols : list Z) : outcome matrix :=
  match column_indices (ncols m) cols with
  | Ok js =>
      Ok {| ncols := length cols;
            rows := map (fun r => map (fun j => nth j r 0%Q) js) (rows m) |}
  | Raised e => Raised e
  end.

(** [out / float(n)] *)
Definition mat_div (m : matrix) (n : Z) : matrix :=
  {| ncols := ncols m;
     rows := map (map (fun q => (q / inject_Z n)%Q)) (rows m) |}.

Fixpoint argmax_from (best : Q) (besti i : nat) (l : list Q) : nat :=
  match l with
  | [] => besti
  | x :: r =>
      if Qltb best x then argmax_from x i (S i) r
      else argmax_from best besti (S i) r
  end.

(** [np.argmax] of one row: the first position of the largest entry. *)
Definition argmax (row : list Q) : nat :=
  match row with
  | [] => O
  | x :: r => argmax_from x 0 1 r
  end.

(** ** The classifier (polyadicqml/quantumClassifier.py) *)

Module QC.

Section Model.

(** Everything the classifier calls into and does not own: NumPy's global
    random generator and whatever the backend keeps between runs. *)
Context {Outside : Type}.

(** Modelled from the spec: [circuitML], which is not among the sources.
    "A circuit type exposing execution(X, params, shots, job_size) ->
    outcome matrix, and a parameter-initialization method; comparable by
    underlying recipe identity." *)
Record circuitML : Type := {
  make_circuit : nat;
  circuit_str : string;
  run : matrix -> vector -> option Z -> option Z -> M Outside matrix;
  random_params : M Outside vector
}.

(** [c1 != c2] on circuits. *)
Definition circuit_neq (c1 c2 : circuitML) : bool :=
  negb (make_circuit c1 =? make_circuit c2)%nat.

(** The Python values that reach the constructor through [bitstr] and the
    keyword arguments. *)
Inductive pyval : Type :=
| PyNone
| PyInt (z : Z)
| PyFloat (f : float)
| PyStr (s : string)
| PyFun (f : option Z -> Z -> xfloat -> option Z).

(** The closure stored in [self.nbshots_increment], one constructor per
    branch of lines 102-111. *)
Inductive shots_policy : Type :=
| KeepShots
| ScaleShots (factor : float)
| AddShots (step : Z)
| UserPolicy (v : pyval).

(** [loss(y_true, y_pred, labels=...)] *)
Definition loss_fn : Type := list Z -> matrix -> list Z -> xfloat.

(** [self.__info__].  The two [str(...)] renderings are kept as the values
    they render; [job_size] is [None] for the string ["FULL"]; [nfev] and
    [n_iter] are the keys that [fit] adds. *)
Record info : Type := {
  info_circuit : string;
  info_nbshots : option Z;
  info_nbshots_increment : pyval;
  info_nbshots_incr_delay : pyval;
  info_bitstr : list string;
  info_job_size : option Z;
  info_nfev : option Z;
  info_n_iter : option Z
}.

(** The progress bar: [tqdm(total=...)] and its counter. *)
Record tqdm : Type := {
  total : Z;
  n : Z
}.

Record Classifier : Type := {
  circuit : circuitML;
  bitstr : list Z;
  params : vector;
  nbshots : option Z;
  nbshots_incr_delay : Z;
  nbshots_increment : shots_policy;
  __budget__ : Z;
  job_size : option Z;
  __loss__ : loss_fn;
  __min_loss__ : xfloat;
  __last_loss_value__ : option xfloat;
  __last_output__ : option matrix;
  __last_params__ : option vector;
  __loss_progress__ : list (option xfloat);
  __output_progress__ : list (list (list Q));
  __params_progress__ : list vector;
  __name__ : option string;
  __save_path__ : option string;
  __info__ : info;
  nfev : Z;
  __n_iter__ : option Z;
  pbar : option tqdm
}.

(** Attribute assignment: one updater for each attribute that a method
    writes after construction. *)
Definition with_circuit (v : circuitML) (c : Classifier) : Classifier :=
  {| circuit := v; bitstr := bitstr c; params := params c; nbshots :=
     nbshots c; nbshots_incr_delay := nbshots_incr_delay c;
     nbshots_increment := nbshots_increment c; __budget__ := __budget__ c;
     job_size := job_size c; __loss__ := __loss__ c; __min_loss__ :=
     __min_loss__ c; __last_loss_value__ := __last_loss_value__ c;
     __last_output__ := __last_output__ c; __last_params__ :=
     __last_params__ c; __loss_progress__ := __loss_progress__ c;
     __output_progress__ := __output_progress__ c; __params_progress__ :=
     __params_progress__ c; __name__ := __name__ c; __save_path__ :=
     __save_path__ c; __info__ := __info__ c; nfev := nfev c; __n_iter__
     := __n_iter__ c; pbar := pbar c |}.

Definition with_params (v : vector) (c : Classifier) : Classifier :=
  {| circuit := circuit c; bitstr := bitstr c; params := v; nbshots :=
     nbshots c; nbshots_incr_delay := nbshots_incr_delay c;
     nbshots_increment := nbshots_increment c; __budget__ := __budget__ c;
     job_size := job_size c; __loss__ := __loss__ c; __min_loss__ :=
     __min_loss__ c; __last_loss_value__ := __last_loss_value__ c;
     __last_output__ := __last_output__ c; __last_params__ :=
     __last_params__ c; __loss_progress__ := __loss_progress__ c;
     __output_progress__ := __output_progress__ c; __params_progress__ :=
     __params_progress__ c; __name__ := __name__ c; __save_path__ :=
     __save_path__ c; __info__ := __info__ c; nfev := nfev c; __n_iter__
     := __n_iter__ c; pbar := pbar c |}.

Definition with_nbshots (v : option Z) (c : Classifier) : Classifier :=
  {| circuit := circuit c; bitstr := bitstr c; params := params c; nbshots
     := v; nbshots_incr_delay := nbshots_incr_delay c; nbshots_increment
     := nbshots_increment c; __budget__ := __budget__ c; job_size :=
     job_size c; __loss__ := __loss__ c; __min_loss__ := __min_loss__ c;
     __last_loss_value__ := __last_loss_value__ c; __last_output__ :=
     __last_output__ c; __last_params__ := __last_params__ c;
     __loss_progress__ := __loss_progress__ c; __output_progress__ :=
     __output_progress__ c; __params_progress__ := __params_progress__ c;
     __name__ := __name__ c; __save_path__ := __save_path__ c; __info__ :=
     __info__ c; nfev := nfev c; __n_iter__ := __n_iter__ c; pbar := pbar
     c |}.

Definition with_loss (v : loss_fn) (c : Classifier) : Classifier :=
  {| circuit := circuit c; bitstr := bitstr c; params := params c; nbshots
     := nbshots c; nbshots_incr_delay := nbshots_incr_delay c;
     nbshots_increment := nbshots_increment c; __budget__ := __budget__ c;
     job_size := job_size c; __loss__ := v; __min_loss__ := __min_loss__
     c; __last_loss_value__ := __last_loss_value__ c; __last_output__ :=
     __last_output__ c; __last_params__ := __last_params__ c;
     __loss_progress__ := __loss_progress__ c; __output_progress__ :=
     __output_progress__ c; __params_progress__ := __params_progress__ c;
     __name__ := __name__ c; __save_path__ := __save_path__ c; __info__ :=
     __info__ c; nfev := nfev c; __n_iter__ := __n_iter__ c; pbar := pbar
     c |}.

Definition with_min_loss (v : xfloat) (c : Classifier) : Classifier :=
  {| circuit := circuit c; bitstr := bitstr c; params := params c; nbshots
     := nbshots c; nbshots_incr_delay := nbshots_incr_delay c;
     nbshots_increment := nbshots_increment c; __budget__ := __budget__ c;
     job_size := job_size c; __loss__ := __loss__ c; __min_loss__ := v;
     __last_loss_value__ := __last_loss_value__ c; __last_output__ :=
     __last_output__ c; __last_params__ := __last_params__ c;
     __loss_progress__ := __loss_progress__ c; __output_progress__ :=
     __output_progress__ c; __params_progress__ := __params_progress__ c;
     __name__ := __name__ c; __save_path__ := __save_path__ c; __info__ :=
     __info__ c; nfev := nfev c; __n_iter__ := __n_iter__ c; pbar := pbar
     c |}.

Definition with_last_loss_value (v : option xfloat)
  (c : Classifier) : Classifier :=
  {| circuit := circuit c; bitstr := bitstr c; params := params c; nbshots
     := nbshots c; nbshots_incr_delay := nbshots_incr_delay c;
     nbshots_increment := nbshots_increment c; __budget__ := __budget__ c;
     job_size := job_size c; __loss__ := __loss__ c; __min_loss__ :=
     __min_loss__ c; __last_loss_value__ := v; __last_output__ :=
     __last_output__ c; __last_params__ := __last_params__ c;
     __loss_progress__ := __loss_progress__ c; __output_progress__ :=
     __output_progress__ c; __params_progress__ := __params_progress__ c;
     __name__ := __name__ c; __save_path__ := __save_path__ c; __info__ :=
     __info__ c; nfev := nfev c; __n_iter__ := __n_iter__ c; pbar := pbar
     c |}.

Definition with_last_output (v : option matrix) (c : Classifier) : Classifier :=
  {| circuit := circuit c; bitstr := bitstr c; params := params c; nbshots
     := nbshots c; nbshots_incr_delay := nbshots_incr_delay c;
     nbshots_increment := nbshots_increment c; __budget__ := __budget__ c;
     job_size := job_size c; __loss__ := __loss__ c; __min_loss__ :=
     __min_loss__ c; __last_loss_value__ := __last_loss_value__ c;
     __last_output__ := v; __last_params__ := __last_params__ c;
     __loss_progress__ := __loss_progress__ c; __output_progress__ :=
     __output_progress__ c; __params_progress__ := __params_progress__ c;
     __name__ := __name__ c; __save_path__ := __save_path__ c; __info__ :=
     __info__ c; nfev := nfev c; __n_iter__ := __n_iter__ c; pbar := pbar
     c |}.

Definition with_loss_progress (v : list (option xfloat))
  (c : Classifier) : Classifier :=
  {| circuit := circuit c; bitstr := bitstr c; params := params c; nbshots
     := nbshots c; nbshots_incr_delay := nbshots_incr_delay c;
     nbshots_increment := nbshots_increment c; __budget__ := __budget__ c;
     job_size := job_size c; __loss__ := __loss__ c; __min_loss__ :=
     __min_loss__ c; __last_loss_value__ := __last_loss_value__ c;
     __last_output__ := __last_output__ c; __last_params__ :=
     __last_params__ c; __loss_progress__ := v; __output_progress__ :=
     __output_progress__ c; __params_progress__ := __params_progress__ c;
     __name__ := __name__ c; __save_path__ := __save_path__ c; __info__ :=
     __info__ c; nfev := nfev c; __n_iter__ := __n_iter__ c; pbar := pbar
     c |}.

Definition with_output_progress (v : list (list (list Q)))
  (c : Classifier) : Classifier :=
  {| circuit := circuit c; bitstr := bitstr c; params := params c; nbshots
     := nbshots c; nbshots_incr_delay := nbshots_incr_delay c;
     nbshots_increment := nbshots_increment c; __budget__ := __budget__ c;
     job_size := job_size c; __loss__ := __loss__ c; __min_loss__ :=
     __min_loss__ c; __last_loss_value__ := __last_loss_value__ c;
     __last_output__ := __last_output__ c; __last_params__ :=
     __last_params__ c; __loss_progress__ := __loss_progress__ c;
     __output_progress__ := v; __params_progress__ := __params_progress__
     c; __name__ := __name__ c; __save_path__ := __save_path__ c; __info__
     := __info__ c; nfev := nfev c; __n_iter__ := __n_iter__ c; pbar :=
     pbar c |}.

Definition with_params_progress (v : list vector)
  (c : Classifier) : Classifier :=
  {| circuit := circuit c; bitstr := bitstr c; params := params c; nbshots
     := nbshots c; nbshots_incr_delay := nbshots_incr_delay c;
     nbshots_increment := nbshots_increment c; __budget__ := __budget__ c;
     job_size := job_size c; __loss__ := __loss__ c; __min_loss__ :=
     __min_loss__ c; __last_loss_value__ := __last_loss_value__ c;
     __last_output__ := __last_output__ c; __last_params__ :=
     __last_params__ c; __loss_progress__ := __loss_progress__ c;
     __output_progress__ := __output_progress__ c; __params_progress__ :=
     v; __name__ := __name__ c; __save_path__ := __save_path__ c; __info__
     := __info__ c; nfev := nfev c; __n_iter__ := __n_iter__ c; pbar :=
     pbar c |}.

Definition with_info (v : info) (c : Classifier) : Classifier :=
  {| circuit := circuit c; bitstr := bitstr c; params := params c; nbshots
     := nbshots c; nbshots_incr_delay := nbshots_incr_delay c;
     nbshots_increment := nbshots_increment c; __budget__ := __budget__ c;
     job_size := job_size c; __loss__ := __loss__ c; __min_loss__ :=
     __min_loss__ c; __last_loss_value__ := __last_loss_value__ c;
     __last_output__ := __last_output__ c; __last_params__ :=
     __last_params__ c; __loss_progress__ := __loss_progress__ c;
     __output_progress__ := __output_progress__ c; __params_progress__ :=
     __params_progress__ c; __name__ := __name__ c; __save_path__ :=
     __save_path__ c; __info__ := v; nfev := nfev c; __n_iter__ :=
     __n_iter__ c; pbar := pbar c |}.

Definition with_nfev (v : Z) (c : Classifier) : Classifier :=
  {| circuit := circuit c; bitstr := bitstr c; params := params c; nbshots
     := nbshots c; nbshots_incr_delay := nbshots_incr_delay c;
     nbshots_increment := nbshots_increment c; __budget__ := __budget__ c;
     job_size := job_size c; __loss__ := __loss__ c; __min_loss__ :=
     __min_loss__ c; __last_loss_value__ := __last_loss_value__ c;
     __last_output__ := __last_output__ c; __last_params__ :=
     __last_params__ c; __loss_progress__ := __loss_progress__ c;
     __output_progress__ := __output_progress__ c; __params_progress__ :=
     __params_progress__ c; __name__ := __name__ c; __save_path__ :=
     __save_path__ c; __info__ := __info__ c; nfev := v; __n_iter__ :=
     __n_iter__ c; pbar := pbar c |}.

Definition with_n_iter (v : option Z) (c : Classifier) : Classifier :=
  {| circuit := circuit c; bitstr := bitstr c; params := params c; nbshots
     := nbshots c; nbshots_incr_delay := nbshots_incr_delay c;
     nbshots_increment := nbshots_increment c; __budget__ := __budget__ c;
     job_size := job_size c; __loss__ := __loss__ c; __min_loss__ :=
     __min_loss__ c; __last_loss_value__ := __last_loss_value__ c;
     __last_output__ := __last_output__ c; __last_params__ :=
     __last_params__ c; __loss_progress__ := __loss_progress__ c;
     __output_progress__ := __output_progress__ c; __params_progress__ :=
     __params_progress__ c; __name__ := __name__ c; __save_path__ :=
     __save_path__ c; __info__ := __info__ c; nfev := nfev c; __n_iter__
     := v; pbar := pbar c |}.

Definition with_pbar (v : option tqdm) (c : Classifier) : Classifier :=
  {| circuit := circuit c; bitstr := bitstr c; params := params c; nbshots
     := nbshots c; nbshots_incr_delay := nbshots_incr_delay c;
     nbshots_increment := nbshots_increment c; __budget__ := __budget__ c;
     job_size := job_size c; __loss__ := __loss__ c; __min_loss__ :=
     __min_loss__ c; __last_loss_value__ := __last_loss_value__ c;
     __last_output__ := __last_output__ c; __last_params__ :=
     __last_params__ c; __loss_progress__ := __loss_progress__ c;
     __output_progress__ := __output_progress__ c; __params_progress__ :=
     __params_progress__ c; __name__ := __name__ c; __save_path__ :=
     __save_path__ c; __info__ := __info__ c; nfev := nfev c; __n_iter__
     := __n_iter__ c; pbar := v |}.

(** What [save] pickles. *)
Record model_info : Type := {
  mi_parameters : vector;
  mi_loss_progress : option (list (option xfloat));
  mi_info : info
}.

(** What [fit] dumps as JSON when [save_output_progress] is given. *)
Record trace : Type := {
  tr_output : list (list (list Q));
  tr_labels : list Z;
  tr_loss_value : list (option xfloat);
  tr_params : list vector
}.

Inductive artifact : Type :=
| Pickle (m : model_info)
| Json (t : trace).

(** The store the methods run over: the classifier object, the outside,
    and the files written so far. *)
Record World : Type := {
  self : Classifier;
  outside : Outside;
  files : gmap string artifact
}.

Definition get_self : M World Classifier :=
  fun w => (Ok (self w), w).

Definition update_self (f : Classifier -> Classifier) : M World unit :=
  fun w =>
    (Ok tt, {| self := f (self w); outside := outside w; files := files w |}).

Definition call_outside {A} (m : M Outside A) : M World A :=
  fun w =>
    let '(r, o) := m (outside w) in
    (r, {| self := self w; outside := o; files := files w |}).

(** [open(path, "w")] followed by a dump; opening and writing always
    succeed here. *)
Definition write_file (path : string) (a : artifact) : M World unit :=
  fun w =>
    (Ok tt,
     {| self := self w; outside := outside w;
        files := <[path := a]> (files w) |}).

(** *** Construction *)

(** [Classifier.__verify_circuit__], lines 155-159.  [current] is
    [self.circuit] when the attribute exists; [new_circuit] is [None] for
    an argument that is not a [circuitML]. *)
Definition __verify_circuit__ (current : option circuitML)
  (new_circuit : option circuitML) : outcome circuitML :=
  match new_circuit with
  | None => Raised TypeError
  | Some c =>
      match current with
      | Some old => if circuit_neq old c then Raised ValueError else Ok c
      | None => Ok c
      end
  end.

(** [Classifier.set_circuit], lines 176-177, on an existing classifier. *)
Definition set_circuit (new_circuit : option circuitML) : M World unit :=
  let* c := get_self in
  let* new := lift (__verify_circuit__ (Some (circuit c)) new_circuit) in
  update_self (with_circuit new).

Definition is_int (v : pyval) : bool :=
  match v with PyInt _ => true | _ => false end.

Definition is_str (v : pyval) : bool :=
  match v with PyStr _ => true | _ => false end.

Fixpoint ints_of (l : list pyval) : list Z :=
  match l with
  | PyInt z :: r => z :: ints_of r
  | _ :: r => ints_of r
  | [] => []
  end.

(** [[int(bit, 2) for bit in bitstr]] *)
Fixpoint parse_bits (l : list pyval) : outcome (list Z) :=
  match l with
  | [] => Ok []
  | PyStr s :: r =>
      match int_base2 s with
      | Ok z =>
          match parse_bits r with
          | Ok zs => Ok (z :: zs)
          | Raised e => Raised e
          end
      | Raised e => Raised e
      end
  | _ :: _ => Raised TypeError
  end.

(** The bitstring test of lines 74-85. *)
Definition check_bitstr (bits : list pyval) : outcome (list Z) :=
  match bits with
  | [] => Raised IndexError
  | PyInt _ :: _ =>
      if forallb is_int bits then Ok (ints_of bits) else Raised TypeError
  | PyStr _ :: _ =>
      if forallb is_str bits then parse_bits bits else Raised TypeError
  | _ :: _ => Raised TypeError
  end.

(** The keyword arguments of the constructor.  [kw_loss] and [kw_budget]
    are [None] when the key is absent, the two keys that have a default
    other than [None]. *)
Record init_kwargs : Type := {
  kw_params : option vector;
  kw_nbshots : pyval;
  kw_nbshots_increment : pyval;
  kw_nbshots_incr_delay : pyval;
  kw_loss : option loss_fn;
  kw_job_size : option Z;
  kw_budget : option pyval;
  kw_name : option string;
  kw_save_path : option string
}.

(** Lines 92-96. *)
Definition check_nbshots (v : pyval) : outcome (option Z) :=
  match v with
  | PyInt z => Ok (if z <? 1 then None else Some z)
  | PyNone => Ok None
  | _ => Raised TypeError
  end.

(** Lines 98-100. *)
Definition check_incr_delay (v : pyval) : outcome Z :=
  match v with
  | PyInt z => Ok z
  | PyNone => Ok 20
  | _ => Raised TypeError
  end.

(** Lines 102-111. *)
Definition make_policy (v : pyval) : shots_policy :=
  match v with
  | PyNone => KeepShots
  | PyFloat f => ScaleShots f
  | PyInt i => AddShots i
  | other => UserPolicy other
  end.

(** Lines 113-115. *)
Definition check_budget (v : option pyval) : outcome Z :=
  match v with
  | None => Ok 100
  | Some (PyInt z) => Ok z
  | Some _ => Raised TypeError
  end.

Section Construction.

(** [polyadicqml.utility.CE_loss], the default loss. *)
Variable CE_loss : loss_fn.

(** [Classifier.__init__], lines 56-138. *)
Definition __init__ (circuit_arg : option circuitML)
  (bitstr_arg : list pyval) (kw : init_kwargs) : M Outside Classifier :=
  let* circ := lift (__verify_circuit__ None circuit_arg) in
  let* bits := lift (check_bitstr bitstr_arg) in
  let* prms :=
    match kw_params kw with
    | None => random_params circ
    | Some p => ret p
    end in
  let* shots := lift (check_nbshots (kw_nbshots kw)) in
  let* delay := lift (check_incr_delay (kw_nbshots_incr_delay kw)) in
  let* budget := lift (check_budget (kw_budget kw)) in
  ret {| circuit := circ;
         bitstr := bits;
         params := prms;
         nbshots := shots;
         nbshots_incr_delay := delay;
         nbshots_increment := make_policy (kw_nbshots_increment kw);
         __budget__ := budget;
         job_size := kw_job_size kw;
         __loss__ := match kw_loss kw with Some f => f | None => CE_loss end;
         __min_loss__ := Inf;
         __last_loss_value__ := None;
         __last_output__ := None;
         __last_params__ := None;
         __loss_progress__ := [];
         __output_progress__ := [];
         __params_progress__ := [];
         __name__ := kw_name kw;
         __save_path__ := kw_save_path kw;
         __info__ :=
           {| info_circuit := circuit_str circ;
              info_nbshots := shots;
              info_nbshots_increment := kw_nbshots_increment kw;
              info_nbshots_incr_delay := kw_nbshots_incr_delay kw;
              info_bitstr := map bin bits;
              info_job_size :=
                if truthy (kw_job_size kw) then kw_job_size kw else None;
              info_nfev := None;
              info_n_iter := None |};
         nfev := 0;
         __n_iter__ := None;
         pbar := None |}.

End Construction.

(** *** Prediction *)

(** [Classifier.set_params], line 187. *)
Definition set_params (p : vector) : M World unit :=
  update_self (with_params p).

(** [Classifier.run_circuit], lines 204-210. *)
Definition run_circuit (X : matrix) (params_arg : option vector)
  : M World matrix :=
  let* c := get_self in
  let p := match params_arg with None => params c | Some p => p end in
  update_self (with_nfev (nfev c + 1)) ;;;
  call_outside (run (circuit c) X p (nbshots c) (job_size c)).

(** [Classifier.predict_proba], lines 227-232. *)
Definition predict_proba (X : matrix) (params_arg : option vector)
  : M World matrix :=
  let* out := run_circuit X params_arg in
  let* c := get_self in
  let out :=
    match nbshots c with
    | Some k => if truthy (Some k) then mat_div out k else out
    | None => out
    end in
  lift (take_columns out (bitstr c)).

(** [Classifier.proba_to_label], line 247. *)
Definition proba_to_label (proba : matrix) : outcome (list nat) :=
  if (ncols proba =? 0)%nat then Raised ValueError
  else Ok (map argmax (rows proba)).

(** [Classifier.predict], line 262. *)
Definition predict (X : matrix) : M World (list nat) :=
  let* proba := predict_proba X None in
  lift (proba_to_label proba).

(** [Classifier.__call__], line 280. *)
Definition __call__ (X : matrix) : M World (list nat) := predict X.

(** [Classifier.set_loss], lines 291-292. *)
Definition set_loss (loss : option loss_fn) : M World unit :=
  match loss with
  | Some f => update_self (with_loss f)
  | None => ret tt
  end.

(** *** Training *)

(** [Classifier.save], lines 460-470. *)
Definition save (path : option string) : M World unit :=
  let* c := get_self in
  let path := match path with None => __save_path__ c | Some p => Some p end in
  let model_info :=
    {| mi_parameters := params c;
       mi_loss_progress :=
         match __loss_progress__ c with
         | [] => None
         | l => Some l
         end;
       mi_info := __info__ c |} in
  match path with
  | Some p => write_file p (Pickle model_info)
  | None => raise TypeError
  end.

(** [Classifier.info_dict], lines 444-457: the dictionary with its one key
    and the value under it. *)
Definition info_dict : M World (string * model_info) :=
  let* c := get_self in
  let model_info :=
    {| mi_parameters := params c;
       mi_loss_progress :=
         match __loss_progress__ c with
         | [] => None
         | l => Some l
         end;
       mi_info := __info__ c |} in
  let name :=
    match __name__ c with
    | Some s => s
    | None => "quantumClassifier"
    end in
  ret (name, model_info).

(** [Classifier.__callback__], lines 306-316.  [loss] and [output] are the
    truth values of the two arguments. *)
Definition __callback__ (params_arg : vector) (loss output : bool)
  : M World unit :=
  (if loss || output
   then update_self (fun c =>
          with_loss_progress
            (__loss_progress__ c ++ [__last_loss_value__ c]) c)
   else ret tt) ;;;
  (if output
   then
     let* c := get_self in
     match __last_output__ c with
     | Some out =>
         update_self (fun c =>
           with_output_progress (__output_progress__ c ++ [rows out]) c) ;;;
         update_self (fun c =>
           with_params_progress (__params_progress__ c ++ [params_arg]) c)
     | None => raise AttributeError
     end
   else ret tt) ;;;
  let* c := get_self in
  match __n_iter__ c with
  | Some k =>
      update_self (with_n_iter (Some (k + 1))) ;;;
      (if truthy_str (__save_path__ c) && ((k + 1) mod 10 =? 0)
       then save None
       else ret tt) ;;;
      match pbar c with
      | Some bar =>
          update_self
            (with_pbar (Some {| total := total bar; n := n bar + 1 |}))
      | None => raise AttributeError
      end
  | None => raise AttributeError
  end.

(** A call of the closure in [self.nbshots_increment] (lines 102-111). *)
Definition call_nbshots_increment (c : Classifier) (shots : option Z)
  (n_iter : Z) (loss_value : xfloat) : outcome (option Z) :=
  match nbshots_increment c with
  | KeepShots => Ok shots
  | ScaleShots factor =>
      if nbshots_incr_delay c =? 0 then Raised ZeroDivisionError
      else if n_iter mod nbshots_incr_delay c =? 0 then
        match shots with
        | Some k =>
            match int_of_product factor k with
            | Ok v => Ok (Some v)
            | Raised e => Raised e
            end
        | None => Raised TypeError
        end
      else Ok shots
  | AddShots step =>
      if nbshots_incr_delay c =? 0 then Raised ZeroDivisionError
      else if n_iter mod nbshots_incr_delay c =? 0 then
        match shots with
        | Some k => Ok (Some (k + step))
        | None => Raised TypeError
        end
      else Ok shots
  | UserPolicy (PyFun f) => Ok (f shots n_iter loss_value)
  | UserPolicy _ => Raised TypeError
  end.

(** The external optimizer, as the strategy it follows: it asks for the
    objective at a point and goes on from the value it gets, reports an
    iterate, returns its final iterate, or raises. *)
Inductive optimizer : Type :=
| Evaluate (x : vector) (k : xfloat -> optimizer)
| Iteration (xk : vector) (k : optimizer)
| Finish (x : vector)
| Abort (e : exn).

(** [scipy.optimize.OptimizeResult]: the final iterate, the number of
    objective evaluations and the number of iterations. *)
Record OptimizeResult : Type := {
  res_x : vector;
  res_nfev : nat;
  res_nit : nat
}.

(** The optimizer running against an objective [fn] and, when one is
    registered, a [callback] called at every reported iterate. *)
Fixpoint minimize_loop (o : optimizer) (fn : vector -> M World xfloat)
  (callback : option (vector -> M World unit)) (nfev nit : nat)
  : M World OptimizeResult :=
  match o with
  | Evaluate x k =>
      fun w =>
        match fn x w with
        | (Ok l, w') => minimize_loop (k l) fn callback (S nfev) nit w'
        | (Raised e, w') => (Raised e, w')
        end
  | Iteration xk k =>
      match callback with
      | Some cb =>
          fun w =>
            match cb xk w with
            | (Ok _, w') => minimize_loop k fn callback nfev (S nit) w'
            | (Raised e, w') => (Raised e, w')
            end
      | None => minimize_loop k fn callback nfev (S nit)
      end
  | Finish x => ret {| res_x := x; res_nfev := nfev; res_nit := nit |}
  | Abort e => raise e
  end.

(** [returns o x]: some run of the strategy [o] ends by returning [x] as
    its final iterate. *)
Fixpoint returns (o : optimizer) (x : vector) : Prop :=
  match o with
  | Evaluate _ k => exists l, returns (k l) x
  | Iteration _ k => returns k x
  | Finish y => x = y
  | Abort _ => False
  end.

(** One entry of [bounds]: the default of line 398, or a [(min, max)]
    pair. *)
Inductive bound : Type :=
| MinusPiPi
| Between (lo hi : option Q).

(** The [options] dictionary. *)
Definition options_dict : Type := list (string * Z).

(** The keyword arguments of [fit]. *)
Record fit_kwargs : Type := {
  kw_method : option string;
  kw_save_loss_progress : bool;
  kw_save_output_progress : option string;
  kw_seed : option Z;
  kw_options : option options_dict;
  kw_bounds : option (list bound)
}.

(** The local variables of [fit] that its later parts read. *)
Record fit_locals : Type := {
  method : string;
  save_loss_progress : bool;
  save_output_progress : option string;
  _nbshots : option Z;
  batch_size : Z;
  _labels : list Z;
  indices : list nat
}.

Section Training.

(** [np.random.seed] and [np.random.choice(..., replace=False)]. *)
Variable np_random_seed : Z -> M Outside unit.
Variable np_random_choice : list nat -> Z -> M Outside (list nat).

(** [scipy.optimize.minimize]: the strategy it follows for a method, a
    starting point, bounds and options. *)
Variable scipy_minimize :
  string -> vector -> option (list bound) -> options_dict -> optimizer.

(** [fit], lines 352-370: the locals, the progress bar, the iteration
    counter and the label check. *)
Definition fit_entry (target_train : list Z) (batch_size_arg : option Z)
  (kw : fit_kwargs) : M World fit_locals :=
  let method := match kw_method kw with Some m => m | None => "BFGS" end in
  let* c := get_self in
  let _nbshots := nbshots c in
  match kw_seed kw with
  | Some s => call_outside (np_random_seed s)
  | None => ret tt
  end ;;;
  update_self (with_pbar (Some {| total := __budget__ c; n := 0 |})) ;;;
  update_self (with_n_iter (Some 0)) ;;;
  let batch_size :=
    match batch_size_arg with
    | Some b => if truthy (Some b) then b else Z.of_nat (length target_train)
    | None => Z.of_nat (length target_train)
    end in
  let _labels := unique target_train in
  if (length (bitstr c) <? length _labels)%nat then raise ValueError
  else
    ret {| method := method;
           save_loss_progress := kw_save_loss_progress kw;
           save_output_progress := kw_save_output_progress kw;
           _nbshots := _nbshots;
           batch_size := batch_size;
           _labels := _labels;
           indices := seq 0 (length target_train) |}.

(** [fit.to_optimize], lines 372-392. *)
Definition to_optimize (input_train : matrix) (target_train : list Z)
  (L : fit_locals) (params_arg : vector) : M World xfloat :=
  let* _indices := call_outside (np_random_choice (indices L) (batch_size L)) in
  let* c := get_self in
  let* n_iter :=
    match __n_iter__ c with
    | Some k => ret k
    | None => raise AttributeError
    end in
  let* shots :=
    lift (call_nbshots_increment c (nbshots c) n_iter (__min_loss__ c)) in
  update_self (with_nbshots shots) ;;;
  let* X := lift (take_rows input_train _indices) in
  let* probas := predict_proba X (Some params_arg) in
  let* y := lift (getitems target_train _indices) in
  let* c := get_self in
  let loss_value := __loss__ c y probas (_labels L) in
  update_self (with_last_loss_value (Some loss_value)) ;;;
  let* last := lift (take_rows probas (argsort _indices)) in
  update_self (with_last_output (Some last)) ;;;
  let* c := get_self in
  (if xlt loss_value (__min_loss__ c)
   then update_self (with_min_loss loss_value) ;;; set_params params_arg
   else ret tt) ;;;
  (if String.eqb (method L) "COBYLA"
   then __callback__ params_arg (save_loss_progress L)
          (truthy_str (save_output_progress L))
   else ret tt) ;;;
  ret loss_value.

(** [fit], lines 395-409: the call of the optimizer. *)
Definition fit_minimize (input_train : matrix) (target_train : list Z)
  (kw : fit_kwargs) (L : fit_locals) : M World OptimizeResult :=
  let* c := get_self in
  let options :=
    match kw_options kw with
    | Some o => o
    | None => [("maxiter", __budget__ c)]
    end in
  let bounds :=
    match kw_bounds kw with
    | None =>
        if String.eqb (method L) "L-BFGS-B"
        then Some (map (fun _ => MinusPiPi) (params c))
        else None
    | Some b => Some b
    end in
  let callback :=
    if negb (contains "cobyla" (lower (method L)))
    then Some (fun xk => __callback__ xk (save_loss_progress L)
                           (truthy_str (save_output_progress L)))
    else None in
  minimize_loop (scipy_minimize (method L) (params c) bounds options)
    (to_optimize input_train target_train L) callback 0 0.

(** [fit], lines 411-434: the final parameters, the bookkeeping, the
    output trace and the shot budget.  No key ["sim_calls"] is ever put
    in [__info__], so the test of line 413 always passes; the counter and
    the progress bar exist whenever [fit] gets here. *)
Definition fit_exit (target_train : list Z) (L : fit_locals)
  (mini_out : OptimizeResult) : M World unit :=
  set_params (res_x mini_out) ;;;
  let* c := get_self in
  match __n_iter__ c, pbar c with
  | Some k, Some _ =>
      update_self (fun c =>
        with_info
          {| info_circuit := info_circuit (__info__ c);
             info_nbshots := info_nbshots (__info__ c);
             info_nbshots_increment := info_nbshots_increment (__info__ c);
             info_nbshots_incr_delay := info_nbshots_incr_delay (__info__ c);
             info_bitstr := info_bitstr (__info__ c);
             info_job_size := info_job_size (__info__ c);
             info_nfev := Some (nfev c);
             info_n_iter := Some k |} c) ;;;
      update_self (with_n_iter None) ;;;
      update_self (with_pbar None) ;;;
      (if truthy_str (save_output_progress L)
       then
         let* c := get_self in
         match save_output_progress L with
         | Some path =>
             write_file path
               (Json {| tr_output := __output_progress__ c;
                        tr_labels := target_train;
                        tr_loss_value := __loss_progress__ c;
                        tr_params := __params_progress__ c |})
         | None => ret tt
         end ;;;
         update_self (with_output_progress []) ;;;
         update_self (with_params_progress [])
       else ret tt) ;;;
      update_self (with_nbshots (_nbshots L))
  | _, _ => raise AttributeError
  end.

(** [Classifier.fit], lines 319-434. *)
Definition fit (input_train : matrix) (target_train : list Z)
  (batch_size_arg : option Z) (kw : fit_kwargs) : M World unit :=
  let* L := fit_entry target_train batch_size_arg kw in
  let* mini_out := fit_minimize input_train target_train kw L in
  fit_exit target_train L mini_out.

End Training.

End Model.

End QC.

(** ** The recipe of examples/example-XOR.py *)

Module ExampleXOR.

Import Builder.

Section Recipe.

Variable str_float : Q -> string.

(** [make_circuit], lines 61-72.  [x[[0,1]]] and the like are index-array
    reads, evaluated before the call they are the argument of. *)
Definition make_circuit (x params : list Q) (shots : option Z)
  : M mqBuilder mqBuilder :=
  let* x01 := lift (getitems x [0; 1]%nat) in
  allin str_float x01 ;;;
  cz 0 1 ;;;
  let* p01 := lift (getitems params [0; 1]%nat) in
  allin str_float p01 ;;;
  cz 0 1 ;;;
  let* p23 := lift (getitems params [2; 3]%nat) in
  allin str_float p23 ;;;
  (if truthy shots then measure_all else ret tt) ;;;
  circuit.

End Recipe.

End ExampleXOR.

(** ** A small instance, used to run the model on concrete inputs *)

Module Demo.

Import QC.

(** A one-parameter backend on two outcomes: with parameter [p] every row
    is [[p; 1 - p]], scaled to counts when shots are asked for. *)
Definition demo_run (X : matrix) (p : vector) (shots job_size : option Z)
  : M unit matrix :=
  let p0 := hd 0%Q p in
  let scale := match shots with Some k => inject_Z k | None => 1%Q end in
  ret {| ncols := 2;
         rows := map (fun _ => [(p0 * scale)%Q; ((1 - p0) * scale)%Q])
                   (rows X) |}.

Definition demo_circuit : circuitML :=
  {| make_circuit := 0;
     circuit_str := "demo";
     run := demo_run;
     random_params := ret [0%Q] |}.

(** The loss of the demo: the first predicted probability of the first
    sample. *)
Definition demo_loss (y : list Z) (probas : matrix) (labels : list Z)
  : xfloat :=
  Fin (hd 0%Q (hd [] (rows probas))).

Definition demo_seed (s : Z) : M unit unit := ret tt.

(** A generator that always draws the first [size] indices, in order. *)
Definition demo_choice (population : list nat) (size : Z)
  : M unit (list nat) :=
  ret (firstn (Z.to_nat size) population).

Definition demo_kwargs (shots increment : pyval) (delay : pyval)
  : init_kwargs :=
  {| kw_params := Some [(3 # 4)%Q];
     kw_nbshots := shots;
     kw_nbshots_increment := increment;
     kw_nbshots_incr_delay := delay;
     kw_loss := Some demo_loss;
     kw_job_size := None;
     kw_budget := None;
     kw_name := None;
     kw_save_path := None |}.

Definition demo_construct (shots increment delay : pyval)
  : outcome Classifier * unit :=
  __init__ demo_loss (Some demo_circuit) [PyInt 0; PyInt 1]
    (demo_kwargs shots increment delay) tt.

(** The object a successful construction returns. *)
Definition built (r : outcome (@Classifier unit) * unit)
  : match r with (Ok _, _) => Classifier | (Raised _, _) => unit end :=
  match r with
  | (Ok c, _) => c
  | (Raised _, _) => tt
  end.

(** Exact probabilities, no adaptation of the shot budget. *)
Definition demo_classifier : Classifier :=
  built (demo_construct PyNone PyNone PyNone).

(** 100 shots, 10 more whenever the counter is a multiple of 3. *)
Definition growing_classifier : Classifier :=
  built (demo_construct (PyInt 100) (PyInt 10) (PyInt 3)).

(** The floats that Python reads from [1.15] and [0.7]: the doubles
    nearest to 115/100 and 7/10, [0x1.2666666666666p+0] and
    [0x1.6666666666666p-1]. *)
Definition float_1_15 : float := S754_finite false 5179139571476070 (-52).
Definition float_0_7 : float := S754_finite false 6305039478318694 (-53).

(** 100 shots, times 1.15 whenever the counter is a multiple of 3. *)
Definition scaling_classifier : Classifier :=
  built (demo_construct (PyInt 100) (PyFloat float_1_15) (PyInt 3)).

Definition world_with (c : Classifier) : World :=
  {| self := c; outside := tt; files := ∅ |}.

Definition demo_X : matrix := {| ncols := 1; rows := [[0%Q]] |}.
Definition demo_y : list Z := [0].

Definition demo_fit_kwargs (m : string) (loss : bool) (out : option string)
  : fit_kwargs :=
  {| kw_method := Some m;
     kw_save_loss_progress := loss;
     kw_save_output_progress := out;
     kw_seed := None;
     kw_options := None;
     kw_bounds := None |}.

(** An optimizer that probes a fixed list of points, reports no iterate,
    and returns [final]. *)
Fixpoint probe_then (points : list vector) (final : vector) : optimizer :=
  match points with
  | [] => Finish final
  | x :: rest => Evaluate x (fun _ => probe_then rest final)
  end.

Definition demo_minimize (points : list vector) (final : vector)
  (method : string) (x0 : vector) (bounds : option (list bound))
  (options : options_dict) : optimizer :=
  probe_then points final.

(** A training call of the demo: [fit(demo_X, demo_y, **kw)]. *)
Abbreviation demo_fit points final :=
  (fit demo_seed demo_choice (demo_minimize points final) demo_X demo_y None).

(** A two-qubit builder with nothing placed yet. *)
Definition demo_builder : Builder.mqBuilder :=
  {| Builder.nbqbits := 2; Builder.txt := ""; Builder.mq := [] |}.

Definition demo_str_float (q : Q) : string := "theta".

End Demo.

(** ** A demo classifier that writes checkpoints *)

Module Checkpoints.

Import QC Demo.

Definition checkpoint_kwargs : init_kwargs :=
  {| kw_params := Some [(3 # 4)%Q];
     kw_nbshots := PyNone;
     kw_nbshots_increment := PyNone;
     kw_nbshots_incr_delay := PyNone;
     kw_loss := Some demo_loss;
     kw_job_size := None;
     kw_budget := None;
     kw_name := Some "demo";
     kw_save_path := Some "demo.pkl" |}.

Definition checkpointing_classifier : Classifier :=
  built (__init__ demo_loss (Some demo_circuit) [PyInt 0; PyInt 1]
           checkpoint_kwargs tt).

(** The classifier in a training call, [k] callbacks after entry. *)
Definition in_training (c : Classifier) (k : Z) : World :=
  world_with
    (with_n_iter (Some k)
       (with_pbar (Some {| total := __budget__ c; n := k |}) c)).

End Checkpoints.

(** ** The specification's wording, for comparison with the code *)

Module Claimed.

Import QC.

Section Wording.

Context {Outside : Type}.

(** "Best-ever loss for this call": the smallest of the losses seen so far
    in the current training call, [np.inf] before the first one. *)
Definition per_call_best (seen : list xfloat) : xfloat :=
  fold_right (fun l best => if xlt l best then l else best) Inf seen.

(** "If loss strictly improves on the best-ever loss for this call, commit
    the candidate parameters": what an evaluation with loss [l] at
    [candidate] would do to the parameters, [seen] being the losses of the
    earlier evaluations of the same call. *)
Definition commits_on_per_call_best (seen : list xfloat) (l : xfloat)
  (candidate : vector) (before after : @Classifier Outside) : Prop :=
  if xlt l (per_call_best seen)
  then params after = candidate
  else params after = params before.

(** "TrainingState ... reset at entry": every piece of training state as
    the constructor leaves it, the counter at zero. *)
Definition fresh_training_state (c : @Classifier Outside) : Prop :=
  __n_iter__ c = Some 0 /\
  __min_loss__ c = Inf /\
  __last_loss_value__ c = None /\
  __last_output__ c = None /\
  __last_params__ c = None /\
  __loss_progress__ c = [] /\
  __output_progress__ c = [] /\
  __params_progress__ c = [].

(** "Clears in-memory buffers": the output, parameter and loss logs. *)
Definition buffers_cleared (c : @Classifier Outside) : Prop :=
  __output_progress__ c = [] /\
  __params_progress__ c = [] /\
  __loss_progress__ c = [].

(** "A function of (current budget, number of objective calls so far, best
    loss observed so far)": the budget the policy would give with the
    number of objective calls in the place of the counter. *)
Definition budget_from_calls (c : @Classifier Outside) (calls_so_far : Z)
  : outcome (option Z) :=
  call_nbshots_increment c (nbshots c) calls_so_far (__min_loss__ c).

End Wording.

End Claimed.

(** ** Vocabulary for the statements about the classifier *)

Module ClassifierTerms.

Import QC.

Section Terms.

Context {Outside : Type}.

(** A binary digit. *)
Definition is_bit (c : ascii) : Prop := c = "0"%char \/ c = "1"%char.

(** A column index that [out[:, cols]] accepts on [n] columns. *)
Definition column_in_range (n : nat) (j : Z) : Prop :=
  - Z.of_nat n <= j < Z.of_nat n.

(** [a <= b] on floats: not [b < a]. *)
Definition xle (a b : xfloat) : Prop := xlt b a = false.

(** The attributes that configure a classifier, as opposed to the ones
    that training moves. *)
Definition same_configuration (c c' : @Classifier Outside) : Prop :=
  circuit c' = circuit c /\
  bitstr c' = bitstr c /\
  nbshots_incr_delay c' = nbshots_incr_delay c /\
  nbshots_increment c' = nbshots_increment c /\
  __budget__ c' = __budget__ c /\
  job_size c' = job_size c /\
  __loss__ c' = __loss__ c /\
  __last_params__ c' = __last_params__ c /\
  __name__ c' = __name__ c /\
  __save_path__ c' = __save_path__ c.

(** The record that [info_dict] reports under its one key. *)
Definition reported (c : @Classifier Outside) : model_info :=
  {| mi_parameters := params c;
     mi_loss_progress :=
       match __loss_progress__ c with
       | [] => None
       | l => Some l
       end;
     mi_info := __info__ c |}.


(** What training leaves alone: the configuration, and the files when no
    checkpoint path is configured. *)
Definition left_alone (w w' : @World Outside) : Prop :=
  same_configuration (self w) (self w') /\
  (truthy_str (__save_path__ (self w)) = false -> files w' = files w).

End Terms.

End ClassifierTerms.

(** ** Vocabulary for the statements about the builder *)

Module BuilderTerms.

Import Builder.

(** [b'] is [b] with more placed on it: the same qubit count, and the
    register log and the text of [b] with something appended. *)
Definition grown_from (b b' : mqBuilder) : Prop :=
  nbqbits b' = nbqbits b /\
  (exists calls, mq b' = (mq b ++ calls)%list) /\
  (exists s, txt b' = txt b +:+ s).

(** The register calls of one input gate. *)
Definition input_calls (idx : Z) (theta : Q) : list mq_call :=
  [SX idx; RZ idx theta; SX idx].

(** The register calls of input gates on the qubits [idx], with the angles
    at the same positions of [theta]. *)
Fixpoint inputs_calls (idx : list Z) (theta : list Q) : list mq_call :=
  match idx, theta with
  | i :: idx', t :: theta' => (input_calls i t ++ inputs_calls idx' theta')%list
  | _, _ => []
  end.

(** The register calls of [allin] on [n] qubits. *)
Definition allin_calls (n : nat) (theta : list Q) : list mq_call :=
  flat_map (fun i => input_calls (Z.of_nat i) (nth i theta 0%Q)) (seq 0 n).

End BuilderTerms.


(** * Properties *)

(** Unfolds the monad so that a computation becomes nested matches on the
    outcomes of its steps. *)
Ltac unfold_monad :=
  unfold QC.set_params in *;
  unfold bind, ret, raise, lift, get, modify, QC.get_self, QC.update_self,
    QC.call_outside, QC.write_file in *.

(** ** The builder validates qubit indices *)

Section BuilderFacts.

Import Builder.

Variable str_float : Q -> string.

Lemma verify_index_ok (b : mqBuilder) (idx : Z) :
  in_range b idx -> __verify_index__ idx b = (Ok tt, b).
Proof.
  unfold in_range, __verify_index__. intros [Hlo Hhi].
  apply Z.leb_le in Hlo. apply Z.ltb_lt in Hhi. now rewrite Hlo, Hhi.
Qed.

Lemma verify_index_fails (b : mqBuilder) (idx : Z) :
  ~ in_range b idx -> __verify_index__ idx b = (Raised OutOfRangeError, b).
Proof.
  unfold in_range, __verify_index__. intros Hout.
  destruct (0 <=? idx) eqn:Hlo; destruct (idx <? nbqbits b) eqn:Hhi;
    try reflexivity.
  apply Z.leb_le in Hlo. apply Z.ltb_lt in Hhi. lia.
Qed.

Lemma in_range_dec (b : mqBuilder) (idx : Z) :
  in_range b idx \/ ~ in_range b idx.
Proof. unfold in_range. lia. Qed.

(** C9. Each of the three gate placements checks every qubit index it is
    given against [0, nbqbits): the placement raises the out-of-range
    condition exactly when one of its indices lies outside that range (and
    then leaves the builder as it was), and with every index inside the
    range it returns normally. *)
Theorem C9_placements_validate_indices (b : mqBuilder) :
  (forall idx theta,
      (in_range b idx ->
       fst (__single_input str_float idx theta b) = Ok tt) /\
      (~ in_range b idx ->
       __single_input str_float idx theta b = (Raised OutOfRangeError, b))) /\
  (forall a c,
      (in_range b a /\ in_range b c -> fst (cz a c b) = Ok tt) /\
      (~ (in_range b a /\ in_range b c) ->
       cz a c b = (Raised OutOfRangeError, b))) /\
  (forall a c theta phi,
      (in_range b a /\ in_range b c -> fst (fsim a c theta phi b) = Ok tt) /\
      (~ (in_range b a /\ in_range b c) ->
       fsim a c theta phi b = (Raised OutOfRangeError, b))).
Proof.
  repeat split.
  - intros Hin. unfold __single_input, bind.
    now rewrite (verify_index_ok _ _ Hin).
  - intros Hout. unfold __single_input, bind.
    now rewrite (verify_index_fails _ _ Hout).
  - intros [Ha Hc]. unfold cz, bind.
    now rewrite (verify_index_ok _ _ Ha), (verify_index_ok _ _ Hc).
  - intros Hout. unfold cz, bind.
    destruct (in_range_dec b a) as [Ha | Ha].
    + rewrite (verify_index_ok _ _ Ha).
      rewrite verify_index_fails; [reflexivity | tauto].
    + now rewrite (verify_index_fails _ _ Ha).
  - intros [Ha Hc]. unfold fsim, bind.
    now rewrite (verify_index_ok _ _ Ha), (verify_index_ok _ _ Hc).
  - intros Hout. unfold fsim, bind.
    destruct (in_range_dec b a) as [Ha | Ha].
    + rewrite (verify_index_ok _ _ Ha).
      rewrite verify_index_fails; [reflexivity | tauto].
    + now rewrite (verify_index_fails _ _ Ha).
Qed.

End BuilderFacts.

(** ** Prediction only counts circuit runs *)

Section PredictionFacts.

Import QC.

Context {Outside : Type}.

Local Abbreviation World := (@World Outside).

(** What a prediction does to the classifier object: one more circuit
    run, every other attribute as it was. *)
Local Abbreviation counted c := (with_nfev (nfev c + 1) c).

Lemma run_circuit_self (X : matrix) (p : option vector) (w : World) :
  self (snd (run_circuit X p w)) = counted (self w).
Proof.
  unfold run_circuit. unfold_monad. simpl.
  destruct (run _ _ _ _ _ _) as [r o]. reflexivity.
Qed.

Lemma predict_proba_self (X : matrix) (p : option vector) (w : World) :
  self (snd (predict_proba X p w)) = counted (self w).
Proof.
  unfold predict_proba, bind.
  pose proof (run_circuit_self X p w) as Hrun.
  destruct (run_circuit X p w) as [[out | e] w1]; simpl in *; [| exact Hrun].
  unfold_monad. simpl. repeat case_match; simplify_eq/=; exact Hrun.
Qed.

Lemma predict_self (X : matrix) (w : World) :
  self (snd (predict X w)) = counted (self w).
Proof.
  unfold predict, bind.
  pose proof (predict_proba_self X None w) as Hp.
  destruct (predict_proba X None w) as [[proba | e] w1]; simpl in *;
    [| exact Hp].
  unfold lift. exact Hp.
Qed.

(** C10. [run_circuit], [predict_proba], [predict] and the call operator
    each leave the classifier exactly as it was except for [nfev], which
    is one larger: this holds in any state (no training call need be
    active) and whether the call returns or raises.  In particular the
    parameters, the shot budget and the three history buffers are
    unchanged. *)
Theorem C10_prediction_increments_nfev_only
  (X : matrix) (p : option vector) (w : World) :
  let after_run := self (snd (run_circuit X p w)) in
  let after_proba := self (snd (predict_proba X p w)) in
  let after_predict := self (snd (predict X w)) in
  let after_call := self (snd (__call__ X w)) in
  (after_run = counted (self w) /\
   after_proba = counted (self w) /\
   after_predict = counted (self w) /\
   after_call = counted (self w)) /\
  (forall c, In c [after_run; after_proba; after_predict; after_call] ->
     nfev c = nfev (self w) + 1 /\
     params c = params (self w) /\
     nbshots c = nbshots (self w) /\
     __loss_progress__ c = __loss_progress__ (self w) /\
     __output_progress__ c = __output_progress__ (self w) /\
     __params_progress__ c = __params_progress__ (self w) /\
     __min_loss__ c = __min_loss__ (self w)).
Proof.
  cbv zeta. unfold __call__.
  rewrite run_circuit_self, predict_proba_self, predict_self.
  split; [tauto |].
  intros c Hc. simpl in Hc.
  assert (c = counted (self w)) as -> by intuition congruence.
  repeat split.
Qed.

End PredictionFacts.

(** ** Binary strings and integer codes give the same classifier *)

Section ConstructionFacts.

Import QC.

Context {Outside : Type}.

Variable CE_loss : loss_fn.

(** C7. Constructing with [bitstr = ["00", "01"]] and with
    [bitstr = [0, 1]] gives the same result for every circuit, keyword
    arguments and outside state: the strings are converted to the codes 0
    and 1, so the two classifiers are equal attribute by attribute and
    [predict_proba] and [predict] agree on them for all inputs and
    parameters. *)
Theorem C7_binary_strings_equal_codes
  (circ : option (@circuitML Outside)) (kw : init_kwargs) (o : Outside) :
  check_bitstr [PyStr "00"; PyStr "01"] = Ok [0; 1] /\
  __init__ CE_loss circ [PyStr "00"; PyStr "01"] kw o
    = __init__ CE_loss circ [PyInt 0; PyInt 1] kw o /\
  (forall c1 c2 o1 o2,
      __init__ CE_loss circ [PyStr "00"; PyStr "01"] kw o = (Ok c1, o1) ->
      __init__ CE_loss circ [PyInt 0; PyInt 1] kw o = (Ok c2, o2) ->
      bitstr c1 = [0; 1] /\ bitstr c2 = [0; 1] /\
      forall X p fs,
        let w1 := {| self := c1; outside := o1; files := fs |} in
        let w2 := {| self := c2; outside := o2; files := fs |} in
        fst (predict_proba X p w1) = fst (predict_proba X p w2) /\
        fst (predict X w1) = fst (predict X w2)).
Proof.
  assert (__init__ CE_loss circ [PyStr "00"; PyStr "01"] kw o
          = __init__ CE_loss circ [PyInt 0; PyInt 1] kw o) as Heq
    by reflexivity.
  split; [reflexivity |]. split; [exact Heq |].
  intros c1 c2 o1 o2 H1 H2.
  assert (c1 = c2 /\ o1 = o2) as [-> ->]
    by (rewrite Heq in H1; split; congruence).
  assert (bitstr c2 = [0; 1]) as Hbits.
  { revert H2. unfold __init__. unfold_monad.
    repeat case_match; intros; simplify_eq/=; reflexivity. }
  repeat split; assumption || reflexivity.
Qed.

End ConstructionFacts.

(** ** Training *)

Section TrainingFacts.

Import QC.

Context {Outside : Type}.

Local Abbreviation World := (@World Outside).

Variable np_random_seed : Z -> M Outside unit.
Variable np_random_choice : list nat -> Z -> M Outside (list nat).
Variable scipy_minimize :
  string -> vector -> option (list bound) -> options_dict -> optimizer.

Local Abbreviation fit_entry := (fit_entry np_random_seed).
Local Abbreviation to_optimize := (to_optimize np_random_choice).
Local Abbreviation fit_minimize :=
  (fit_minimize np_random_choice scipy_minimize).
Local Abbreviation fit :=
  (fit np_random_seed np_random_choice scipy_minimize).

(** *** Entry and exit of a training call *)

Lemma fit_entry_self (target : list Z) (bs : option Z) (kw : fit_kwargs)
  (w w1 : World) (L : fit_locals) :
  fit_entry target bs kw w = (Ok L, w1) ->
  self w1
  = with_n_iter (Some 0)
      (with_pbar (Some {| total := __budget__ (self w); n := 0 |}) (self w)).
Proof.
  unfold QC.fit_entry. unfold_monad. simpl.
  repeat case_match; intros; simplify_eq/=; reflexivity.
Qed.

Lemma fit_entry_locals (target : list Z) (bs : option Z) (kw : fit_kwargs)
  (w w1 : World) (L : fit_locals) :
  fit_entry target bs kw w = (Ok L, w1) ->
  _nbshots L = nbshots (self w) /\
  method L = match kw_method kw with Some m => m | None => "BFGS" end /\
  save_loss_progress L = kw_save_loss_progress kw /\
  save_output_progress L = kw_save_output_progress kw.
Proof.
  unfold QC.fit_entry. unfold_monad. simpl.
  repeat case_match; intros; simplify_eq/=; repeat split.
Qed.

Lemma fit_exit_ok (target : list Z) (L : fit_locals) (r : OptimizeResult)
  (w w' : World) :
  fit_exit target L r w = (Ok tt, w') ->
  nbshots (self w') = _nbshots L /\
  params (self w') = res_x r /\
  __loss_progress__ (self w') = __loss_progress__ (self w) /\
  __min_loss__ (self w') = __min_loss__ (self w) /\
  __n_iter__ (self w') = None /\
  (truthy_str (save_output_progress L) = false ->
   __output_progress__ (self w') = __output_progress__ (self w) /\
   __params_progress__ (self w') = __params_progress__ (self w) /\
   files w' = files w) /\
  (truthy_str (save_output_progress L) = true ->
   __output_progress__ (self w') = [] /\
   __params_progress__ (self w') = [] /\
   exists path,
     save_output_progress L = Some path /\
     files w' !! path =
       Some (Json {| tr_output := __output_progress__ (self w);
                     tr_labels := target;
                     tr_loss_value := __loss_progress__ (self w);
                     tr_params := __params_progress__ (self w) |})).
Proof.
  unfold fit_exit. unfold_monad. simpl.
  repeat case_match; intros; simplify_eq/=;
    repeat split; try congruence; intros; try discriminate.
  eexists; split; [reflexivity |]. apply lookup_insert_eq.
Qed.

(** *** One callback and one objective evaluation *)

(** The attributes that [__callback__] never writes. *)
Lemma callback_frame (p : vector) (loss output : bool) (w w' : World)
  (r : outcome unit) :
  __callback__ p loss output w = (r, w') ->
  params (self w') = params (self w) /\
  nbshots (self w') = nbshots (self w) /\
  __min_loss__ (self w') = __min_loss__ (self w) /\
  __last_loss_value__ (self w') = __last_loss_value__ (self w) /\
  nfev (self w') = nfev (self w).
Proof.
  unfold __callback__, save. unfold_monad. simpl.
  repeat case_match; intros; simplify_eq/=; repeat split.
Qed.

Lemma callback_ok (p : vector) (loss output : bool) (w w' : World) :
  __callback__ p loss output w = (Ok tt, w') ->
  __loss_progress__ (self w')
  = (__loss_progress__ (self w)
      ++ (if loss || output then [__last_loss_value__ (self w)] else []))%list
  /\
  __params_progress__ (self w')
  = (__params_progress__ (self w) ++ (if output then [p] else []))%list /\
  length (__output_progress__ (self w'))
  = (length (__output_progress__ (self w)) + (if output then 1 else 0))%nat /\
  exists k, __n_iter__ (self w) = Some k /\ __n_iter__ (self w') = Some (k + 1).
Proof.
  unfold __callback__, save. unfold_monad. simpl.
  repeat case_match; intros; simplify_eq/=;
    rewrite ?app_nil_r, ?length_app; simpl;
    repeat split; try lia; eauto.
Qed.

Lemma to_optimize_ok (input : matrix) (target : list Z) (L : fit_locals)
  (p : vector) (w w' : World) (l : xfloat) :
  to_optimize input target L p w = (Ok l, w') ->
  let c := self w in
  let inline := String.eqb (method L) "COBYLA" in
  exists k,
    __n_iter__ c = Some k /\
    call_nbshots_increment c (nbshots c) k (__min_loss__ c)
      = Ok (nbshots (self w')) /\
    params (self w') = (if xlt l (__min_loss__ c) then p else params c) /\
    __min_loss__ (self w')
      = (if xlt l (__min_loss__ c) then l else __min_loss__ c) /\
    __last_loss_value__ (self w') = Some l /\
    __loss_progress__ (self w')
      = (__loss_progress__ c
          ++ (if inline &&
                 (save_loss_progress L || truthy_str (save_output_progress L))
              then [Some l] else []))%list /\
    __n_iter__ (self w') = Some (if inline then k + 1 else k) /\
    nfev (self w') = nfev c + 1 /\
    length (__output_progress__ (self w'))
      = (length (__output_progress__ c)
         + (if inline && truthy_str (save_output_progress L) then 1 else 0))%nat
    /\
    length (__params_progress__ (self w'))
      = (length (__params_progress__ c)
         + (if inline && truthy_str (save_output_progress L)
            then 1 else 0))%nat.
Proof.
  unfold QC.to_optimize, predict_proba, run_circuit.
  unfold_monad. simpl.
  intros H. cbv zeta.
  repeat (case_match; simplify_eq/=; try discriminate).
  all: repeat match goal with u : unit |- _ => destruct u end.
  all: try match goal with
       | Hcb : __callback__ _ _ _ _ = _ |- _ =>
           pose proof (callback_ok _ _ _ _ _ Hcb) as (? & ? & ? & ? & ? & ?);
           pose proof (callback_frame _ _ _ _ _ _ Hcb) as (? & ? & ? & ? & ?)
       end.
  all: simpl in *; simplify_eq/=.
  all: eexists; repeat split; eauto; try congruence.
  all: rewrite ?app_nil_r; try congruence.
  all: try match goal with
       | Hlog : __loss_progress__ (self _) = _, Hflag : _ || _ = _ |- _ =>
           rewrite Hflag in Hlog; simpl in Hlog;
           rewrite ?app_nil_r in Hlog; exact Hlog
       end.
  all: try match goal with
       | Hpar : __params_progress__ (self _) = _ |- _ => rewrite Hpar
       end.
  all: rewrite ?length_app; simpl; lia.
Qed.

(** *** The optimizer loop *)

(** Closes an arithmetic goal about the counts by cases on the method and
    on the recording options. *)
Ltac by_flags L :=
  destruct (String.eqb (method L) "COBYLA"), (save_loss_progress L),
    (truthy_str (save_output_progress L));
  simpl; lia.

(** History entries added by a run of the optimizer: one per objective
    evaluation when the callback runs inside the objective, one per
    reported iterate when it is registered with the optimizer, none
    otherwise; [nfev] and [nit] are the counts the loop started from. *)
Lemma minimize_loop_history (input : matrix) (target : list Z)
  (L : fit_locals) (registered : bool) (o : optimizer) :
  let inline := String.eqb (method L) "COBYLA" in
  let tracing := truthy_str (save_output_progress L) in
  let recording := save_loss_progress L || tracing in
  let callback :=
    if registered
    then Some (fun xk => __callback__ xk (save_loss_progress L) tracing)
    else None in
  let per (on flag : bool) := if on && flag then 1%nat else 0%nat in
  forall (nfev nit : nat) (w w' : World) (r : OptimizeResult),
    minimize_loop o (to_optimize input target L) callback nfev nit w
      = (Ok r, w') ->
    (nfev <= res_nfev r /\ nit <= res_nit r)%nat /\
    length (__loss_progress__ (self w'))
      = (length (__loss_progress__ (self w))
         + per inline recording * (res_nfev r - nfev)
         + per registered recording * (res_nit r - nit))%nat /\
    length (__output_progress__ (self w'))
      = (length (__output_progress__ (self w))
         + per inline tracing * (res_nfev r - nfev)
         + per registered tracing * (res_nit r - nit))%nat /\
    length (__params_progress__ (self w'))
      = (length (__params_progress__ (self w))
         + per inline tracing * (res_nfev r - nfev)
         + per registered tracing * (res_nit r - nit))%nat /\
    (forall n,
        __n_iter__ (self w) = Some n ->
        __n_iter__ (self w')
        = Some (n + Z.of_nat (per inline true * (res_nfev r - nfev)
                              + per registered true * (res_nit r - nit)))).
Proof.
  cbv zeta.
  induction o as [x k IH | xk k IH | x | e]; intros nfev nit w w' r Hrun;
    simpl in Hrun.
  - destruct (to_optimize input target L x w) as [[l | e] w1] eqn:Hstep;
      [| discriminate].
    apply IH in Hrun as ((Hnfev & Hnit) & Hloss & Hout & Hpar & Hcount).
    apply to_optimize_ok in Hstep
      as (n & Hn & _ & _ & _ & _ & Hloss1 & Hn1 & _ & Hout1 & Hpar1).
    rewrite Hloss, Hout, Hpar, Hloss1, Hout1, Hpar1, length_app.
    split; [lia |].
    split; [destruct registered; by_flags L |].
    split; [destruct registered; by_flags L |].
    split; [destruct registered; by_flags L |].
    intros n0 Hn0. rewrite (Hcount _ Hn1).
    assert (n0 = n) as -> by congruence.
    f_equal; destruct registered; by_flags L.
  - destruct registered.
    + destruct (__callback__ xk _ _ w) as [[[] | e] w1] eqn:Hstep;
        [| discriminate].
      apply IH in Hrun as ((Hnfev & Hnit) & Hloss & Hout & Hpar & Hcount).
      apply callback_ok in Hstep as (Hloss1 & Hpar1 & Hout1 & n & Hn & Hn1).
      rewrite Hloss, Hout, Hpar, Hloss1, Hout1, Hpar1, !length_app.
      split; [lia |].
      split; [by_flags L |].
      split; [by_flags L |].
      split; [by_flags L |].
      intros n0 Hn0. rewrite (Hcount _ Hn1).
      assert (n0 = n) as -> by congruence.
      f_equal; by_flags L.
    + apply IH in Hrun as ((Hnfev & Hnit) & Hloss & Hout & Hpar & Hcount).
      rewrite Hloss, Hout, Hpar.
      split; [lia |].
      split; [by_flags L |].
      split; [by_flags L |].
      split; [by_flags L |].
      intros n0 Hn0. rewrite (Hcount _ Hn0). f_equal; by_flags L.
  - unfold ret in Hrun. simplify_eq/=.
    split; [lia |].
    split; [destruct registered; by_flags L |].
    split; [destruct registered; by_flags L |].
    split; [destruct registered; by_flags L |].
    intros n0 Hn0. rewrite Hn0. f_equal; destruct registered; by_flags L.
  - discriminate.
Qed.

(** The final iterate is one the strategy returns through [Finish]. *)
Lemma minimize_loop_result (fn : vector -> M World xfloat)
  (callback : option (vector -> M World unit)) (o : optimizer) :
  forall (nfev nit : nat) (w w' : World) (r : OptimizeResult),
    minimize_loop o fn callback nfev nit w = (Ok r, w') ->
    returns o (res_x r).
Proof.
  induction o as [x k IH | xk k IH | x | e]; intros nfev nit w w' r Hrun;
    simpl in Hrun.
  - destruct (fn x w) as [[l | e] w1]; [| discriminate].
    exists l. eapply IH, Hrun.
  - destruct callback as [cb |].
    + destruct (cb xk w) as [[[] | e] w1]; [| discriminate].
      eapply IH, Hrun.
    + eapply IH, Hrun.
  - unfold ret in Hrun. now simplify_eq/=.
  - discriminate.
Qed.

Lemma inline_not_registered (m : string) :
  String.eqb m "COBYLA" = true -> contains "cobyla" (lower m) = true.
Proof. intros H. apply String.eqb_eq in H. now subst m. Qed.

Lemma fit_phases (input : matrix) (target : list Z) (bs : option Z)
  (kw : fit_kwargs) (w w' : World) :
  fit input target bs kw w = (Ok tt, w') ->
  exists L w1 r w2,
    fit_entry target bs kw w = (Ok L, w1) /\
    fit_minimize input target kw L w1 = (Ok r, w2) /\
    fit_exit target L r w2 = (Ok tt, w').
Proof.
  unfold QC.fit, bind. intros H.
  destruct (fit_entry target bs kw w) as [[L | e] w1] eqn:Hentry;
    [| discriminate].
  destruct (fit_minimize input target kw L w1) as [[r | e] w2] eqn:Hmin;
    [| discriminate].
  exists L, w1, r, w2. auto.
Qed.

(** C1, amended. Whenever [fit] returns, [nbshots] is what it was just
    before the call, for every adaptation policy, optimizer, data and
    options, and so whatever the policy did to it during the call.  A call
    that raises at entry, on the label check, has not touched [nbshots]
    either.  (A call that raises later keeps what the policy set: [fit]
    restores the budget in its last statement only.) *)
Theorem C1_fit_restores_nbshots (input : matrix) (target : list Z)
  (bs : option Z) (kw : fit_kwargs) (w : World) :
  (forall w',
      fit input target bs kw w = (Ok tt, w') ->
      nbshots (self w') = nbshots (self w)) /\
  (forall e w',
      fit_entry target bs kw w = (Raised e, w') ->
      fit input target bs kw w = (Raised e, w') /\
      nbshots (self w') = nbshots (self w)).
Proof.
  split.
  - intros w' H.
    apply fit_phases in H as (L & w1 & r & w2 & Hentry & _ & Hexit).
    apply fit_exit_ok in Hexit as (Hshots & _).
    apply fit_entry_locals in Hentry as (Hsaved & _).
    congruence.
  - intros e w' Hentry. split.
    + unfold QC.fit, bind. now rewrite Hentry.
    + revert Hentry. unfold QC.fit_entry. unfold_monad. simpl.
      repeat case_match; intros; simplify_eq/=; reflexivity.
Qed.

(** C2, amended. An objective evaluation that returns a loss strictly
    below [__min_loss__] commits the candidate as the current parameters
    and records the loss as the new [__min_loss__]; one whose loss is not
    strictly below it leaves both as they were.  [__min_loss__] is the
    smallest loss since construction: entering [fit] does not reset it. *)
Theorem C2_commit_below_min_loss (input : matrix) (target : list Z)
  (L : fit_locals) (p : vector) (w w' : World) (l : xfloat) :
  to_optimize input target L p w = (Ok l, w') ->
  (xlt l (__min_loss__ (self w)) = true ->
   params (self w') = p /\ __min_loss__ (self w') = l) /\
  (xlt l (__min_loss__ (self w)) = false ->
   params (self w') = params (self w) /\
   __min_loss__ (self w') = __min_loss__ (self w)) /\
  (forall target0 bs kw w0 w1 L0,
      fit_entry target0 bs kw w0 = (Ok L0, w1) ->
      __min_loss__ (self w1) = __min_loss__ (self w0)).
Proof.
  intros H.
  apply to_optimize_ok in H as (k & _ & _ & Hpar & Hmin & _).
  split; [| split].
  - intros Hlt. rewrite Hlt in Hpar, Hmin. now split.
  - intros Hlt. rewrite Hlt in Hpar, Hmin. now split.
  - intros target0 bs kw w0 w1 L0 Hentry.
    now rewrite (fit_entry_self _ _ _ _ _ _ Hentry).
Qed.

(** C3. When [fit] returns, the parameters of the model are the final
    iterate the optimizer returned, one that its strategy ends with.  That
    need not be the best point seen: in the demo run the point [1/4], of
    loss [1/4], is committed during the call, and the call ends with the
    parameters [1/2], of loss [1/2]. *)
Theorem C3_fit_ends_with_final_iterate :
  (forall (input : matrix) (target : list Z) (bs : option Z)
          (kw : fit_kwargs) (w w' : World),
      fit input target bs kw w = (Ok tt, w') ->
      exists L w1 r w2,
        fit_entry target bs kw w = (Ok L, w1) /\
        fit_minimize input target kw L w1 = (Ok r, w2) /\
        params (self w') = res_x r /\
        exists bounds options,
          returns (scipy_minimize (method L) (params (self w1)) bounds options)
            (res_x r)) /\
  (exists w',
      Demo.demo_fit [[1 # 4]; [1 # 2]]%Q [(1 # 2)%Q]
        (Demo.demo_fit_kwargs "BFGS" false None)
        (Demo.world_with Demo.demo_classifier)
        = (Ok tt, w') /\
      __min_loss__ (self w') = Fin (1 # 4) /\
      params (self w') = [(1 # 2)%Q]).
Proof.
  split.
  - intros input target bs kw w w' H.
    apply fit_phases in H as (L & w1 & r & w2 & Hentry & Hmin & Hexit).
    exists L, w1, r, w2. repeat split; try assumption.
    + now apply fit_exit_ok in Hexit as (_ & Hpar & _).
    + unfold QC.fit_minimize in Hmin. unfold_monad.
    cbv beta iota zeta in Hmin.
      apply minimize_loop_result in Hmin. eauto.
  - eexists. split; [vm_compute; reflexivity |].
    split; reflexivity.
Qed.

(** C4, amended. With progress recording on ([save_loss_progress] or
    [save_output_progress] given) a training call that returns has added
    to [__loss_progress__] exactly one entry per objective evaluation when
    the method is ["COBYLA"], and exactly one entry per iterate reported by
    the optimizer when the lower-cased method name is not found in
    ["cobyla"]; with [save_output_progress] the output and parameter logs
    grew by the same number before the call's end cleared them.  With
    recording off the loss log is left as it was. *)
Theorem C4_history_entries (input : matrix) (target : list Z)
  (bs : option Z) (kw : fit_kwargs) (w w' : World) :
  fit input target bs kw w = (Ok tt, w') ->
  let m := match kw_method kw with Some m => m | None => "BFGS" end in
  let tracing := truthy_str (kw_save_output_progress kw) in
  let recording := kw_save_loss_progress kw || tracing in
  let added (c c' : Classifier) :=
    (length (__loss_progress__ c') - length (__loss_progress__ c))%nat in
  exists L w1 r w2,
    fit_entry target bs kw w = (Ok L, w1) /\
    fit_minimize input target kw L w1 = (Ok r, w2) /\
    (length (__loss_progress__ (self w))
       <= length (__loss_progress__ (self w')))%nat /\
    (recording = false -> added (self w) (self w') = 0%nat) /\
    (recording = true -> m = "COBYLA" ->
     added (self w) (self w') = res_nfev r /\
     (tracing = true ->
      length (__output_progress__ (self w2))
        = (length (__output_progress__ (self w)) + res_nfev r)%nat /\
      length (__params_progress__ (self w2))
        = (length (__params_progress__ (self w)) + res_nfev r)%nat)) /\
    (recording = true -> contains "cobyla" (lower m) = false ->
     added (self w) (self w') = res_nit r /\
     (tracing = true ->
      length (__output_progress__ (self w2))
        = (length (__output_progress__ (self w)) + res_nit r)%nat /\
      length (__params_progress__ (self w2))
        = (length (__params_progress__ (self w)) + res_nit r)%nat)).
Proof.
  intros H. cbv zeta.
  apply fit_phases in H as (L & w1 & r & w2 & Hentry & Hmin & Hexit).
  exists L, w1, r, w2. split; [assumption |]. split; [assumption |].
  apply fit_exit_ok in Hexit as (_ & _ & Hkept & _).
  pose proof (fit_entry_self _ _ _ _ _ _ Hentry) as Hself.
  apply fit_entry_locals in Hentry as (_ & Hm & Hslp & Hsop).
  unfold QC.fit_minimize in Hmin. unfold_monad.
  cbv beta iota zeta in Hmin.
  apply minimize_loop_history in Hmin as (_ & Hloss & Hout & Hpar & _).
  assert (__loss_progress__ (self w1) = __loss_progress__ (self w)) as Hl0
    by now rewrite Hself.
  assert (__output_progress__ (self w1) = __output_progress__ (self w))
    as Ho0 by now rewrite Hself.
  assert (__params_progress__ (self w1) = __params_progress__ (self w))
    as Hp0 by now rewrite Hself.
  rewrite Hl0 in Hloss. rewrite Ho0 in Hout. rewrite Hp0 in Hpar.
  rewrite Hm, Hslp, Hsop in Hloss. rewrite Hm, Hsop in Hout, Hpar.
  rewrite Hkept.
  set (m := match kw_method kw with Some m => m | None => "BFGS" end) in *.
  pose proof (inline_not_registered m) as Hinline.
  split; [lia |].
  split; [| split].
  - intros Hoff. rewrite Hoff, !andb_false_r in Hloss. simpl in Hloss. lia.
  - intros Hon Hcobyla. rewrite Hcobyla in *.
    rewrite (Hinline eq_refl) in Hloss, Hout, Hpar.
    rewrite Hon in Hloss. simpl in Hloss, Hout, Hpar.
    split; [lia |]. intros Htr. rewrite Htr in Hout, Hpar. simpl in *. lia.
  - intros Hon Hother. rewrite Hother, Hon in Hloss.
    rewrite Hother in Hout, Hpar.
    destruct (String.eqb m "COBYLA");
      [specialize (Hinline eq_refl); congruence |].
    simpl in Hloss, Hout, Hpar.
    split; [lia |]. intros Htr. rewrite Htr in Hout, Hpar. simpl in *. lia.
Qed.

(** C5, amended. An objective evaluation that returns has set [nbshots]
    to what the adaptation policy gives for the budget before it, the
    iteration counter [__n_iter__] and [__min_loss__].  The policies: keep
    the budget; with a float increment, [int(increment * nbshots)]
    whenever the counter is a multiple of the delay, the product being
    the binary64 one and its conversion raising on an infinity or a NaN;
    with an int increment, [nbshots + increment] whenever the counter is
    a multiple of the delay; and a user function of the same three
    inputs.  The counter
    advances with the callback: by one per objective evaluation under
    ["COBYLA"], by one per reported iterate when the callback is
    registered with the optimizer, and not with the other objective
    calls. *)
Theorem C5_budget_recomputed_from_iteration_counter :
  (forall (input : matrix) (target : list Z) (L : fit_locals) (p : vector)
          (w w' : World) (l : xfloat),
      to_optimize input target L p w = (Ok l, w') ->
      exists k,
        __n_iter__ (self w) = Some k /\
        call_nbshots_increment (self w) (nbshots (self w)) k
          (__min_loss__ (self w)) = Ok (nbshots (self w'))) /\
  (forall (c : @Classifier Outside) (shots : Z) (k : Z) (best : xfloat),
      let K := nbshots_incr_delay c in
      let due := k mod K =? 0 in
      let new := call_nbshots_increment c (Some shots) k best in
      match nbshots_increment c with
      | KeepShots => new = Ok (Some shots)
      | ScaleShots factor =>
          K <> 0 ->
          new = (if due
                 then match int_of_product factor shots with
                      | Ok v => Ok (Some v)
                      | Raised e => Raised e
                      end
                 else Ok (Some shots))
      | AddShots step =>
          K <> 0 -> new = Ok (Some (if due then shots + step else shots))
      | UserPolicy (PyFun f) => new = Ok (f (Some shots) k best)
      | UserPolicy _ => new = Raised TypeError
      end) /\
  (forall (c : @Classifier Outside) (k : Z) (best : xfloat),
      nbshots_increment c = KeepShots ->
      call_nbshots_increment c None k best = Ok None) /\
  (forall (input : matrix) (target : list Z) (kw : fit_kwargs)
          (L : fit_locals) (w1 w2 : World) (r : OptimizeResult) (k : Z),
      fit_minimize input target kw L w1 = (Ok r, w2) ->
      __n_iter__ (self w1) = Some k ->
      let inline := if String.eqb (method L) "COBYLA" then 1 else 0 in
      let registered :=
        if contains "cobyla" (lower (method L)) then 0 else 1 in
      __n_iter__ (self w2)
      = Some (k + inline * Z.of_nat (res_nfev r)
                + registered * Z.of_nat (res_nit r))).
Proof.
  split; [| split; [| split]].
  - intros input target L p w w' l H.
    apply to_optimize_ok in H as (k & Hk & Hpolicy & _). eauto.
  - intros c shots k best. cbv zeta. unfold call_nbshots_increment.
    destruct (nbshots_increment c) as [| factor | step | [| | | | f]];
      try reflexivity; intros HK; apply Z.eqb_neq in HK; rewrite HK;
      now destruct (k mod nbshots_incr_delay c =? 0).
  - intros c k best Hkeep. unfold call_nbshots_increment. now rewrite Hkeep.
  - intros input target kw L w1 w2 r k Hmin Hk. cbv zeta.
    unfold QC.fit_minimize in Hmin. unfold_monad.
    cbv beta iota zeta in Hmin.
    apply minimize_loop_history in Hmin as (_ & _ & _ & _ & Hcount).
    rewrite (Hcount _ Hk). f_equal.
    destruct (String.eqb (method L) "COBYLA"),
      (contains "cobyla" (lower (method L))); simpl; lia.
Qed.

(** C6, amended. Entering a training call sets the iteration counter to
    zero and installs a new progress bar, and writes nothing else: the
    minimum loss, the last loss, output and parameters, and the three
    progress logs enter the call with the values the previous call (or
    the constructor) left. *)
Theorem C6_entry_resets_counter_only (target : list Z) (bs : option Z)
  (kw : fit_kwargs) (w w1 : World) (L : fit_locals) :
  fit_entry target bs kw w = (Ok L, w1) ->
  let c := self w in
  self w1
  = with_n_iter (Some 0)
      (with_pbar (Some {| total := __budget__ c; n := 0 |}) c) /\
  __n_iter__ (self w1) = Some 0 /\
  __min_loss__ (self w1) = __min_loss__ c /\
  __last_loss_value__ (self w1) = __last_loss_value__ c /\
  __last_output__ (self w1) = __last_output__ c /\
  __last_params__ (self w1) = __last_params__ c /\
  __loss_progress__ (self w1) = __loss_progress__ c /\
  __output_progress__ (self w1) = __output_progress__ c /\
  __params_progress__ (self w1) = __params_progress__ c.
Proof.
  intros H. cbv zeta. rewrite (fit_entry_self _ _ _ _ _ _ H).
  repeat split.
Qed.

(** C8, amended. Finalizing a training call that was given an
    output-progress path writes the output, label, loss and parameter
    histories to that path and empties the output and parameter logs; the
    loss log is not emptied. *)
Theorem C8_finalize_persists_and_clears (target : list Z) (L : fit_locals)
  (r : OptimizeResult) (w w' : World) :
  truthy_str (save_output_progress L) = true ->
  fit_exit target L r w = (Ok tt, w') ->
  (exists path,
      save_output_progress L = Some path /\
      files w' !! path =
        Some (Json {| tr_output := __output_progress__ (self w);
                      tr_labels := target;
                      tr_loss_value := __loss_progress__ (self w);
                      tr_params := __params_progress__ (self w) |})) /\
  __output_progress__ (self w') = [] /\
  __params_progress__ (self w') = [] /\
  __loss_progress__ (self w') = __loss_progress__ (self w).
Proof.
  intros Hpath H.
  apply fit_exit_ok in H as (_ & _ & Hloss & _ & _ & _ & Hsaved).
  destruct (Hsaved Hpath) as (Hout & Hpar & Hfile).
  repeat split; assumption.
Qed.

End TrainingFacts.

(** * The model on concrete runs *)

Section Runs.

Import QC Demo Claimed.

Local Abbreviation entry := (fit_entry demo_seed demo_y None).
Local Abbreviation objective := (to_optimize demo_choice demo_X demo_y).
Local Abbreviation optimize points final :=
  (fit_minimize demo_choice (demo_minimize points final) demo_X demo_y).
Local Abbreviation quarter := [(1 # 4)%Q].
Local Abbreviation half := [(1 # 2)%Q].

Lemma demo_classifier_constructed :
  demo_construct PyNone PyNone PyNone = (Ok demo_classifier, tt) /\
  demo_construct (PyInt 100) (PyInt 10) (PyInt 3)
    = (Ok growing_classifier, tt).
Proof. split; reflexivity. Qed.

(** The two demo floats are the doubles nearest to 115/100 and 7/10, and
    their products with an integer round as Python's do:
    [int(1.15 * 100)] is 114 and [int(0.7 * 10)] is 7. *)
Lemma demo_floats :
  float_1_15 = SFdiv prec emax (nearest_float 115) (nearest_float 100) /\
  float_0_7 = SFdiv prec emax (nearest_float 7) (nearest_float 10) /\
  valid_binary prec emax float_1_15 = true /\
  valid_binary prec emax float_0_7 = true /\
  int_of_product float_1_15 100 = Ok 114 /\
  int_of_product float_0_7 10 = Ok 7 /\
  int_of_product float_0_7 (-10) = Ok (-7) /\
  int_of_product float_0_7 (2 ^ 1024) = Raised OverflowError.
Proof. repeat split; vm_compute; reflexivity. Qed.

(** The budget of 100 shots is back after a call during which the additive
    policy raised it to 120. *)
Lemma C1_witness :
  let kw := demo_fit_kwargs "BFGS" false None in
  let w := world_with growing_classifier in
  exists L w1 r w2 w',
    entry kw w = (Ok L, w1) /\
    optimize [quarter; half] half kw L w1 = (Ok r, w2) /\
    nbshots (self w2) = Some 120 /\
    demo_fit [quarter; half] half kw w = (Ok tt, w') /\
    nbshots (self w') = nbshots (self w) /\
    nbshots (self w') = Some 100 /\
    exists w'',
      fit_entry demo_seed [0; 1; 2] None kw w = (Raised ValueError, w'') /\
      fit demo_seed demo_choice (demo_minimize [quarter; half] half)
        demo_X [0; 1; 2] None kw w = (Raised ValueError, w'') /\
      nbshots (self w'') = nbshots (self w).
Proof.
  cbv zeta. do 5 eexists.
  split; [vm_compute; reflexivity |].
  split; [vm_compute; reflexivity |].
  split; [reflexivity |].
  split; [vm_compute; reflexivity |].
  split.
  - eapply (proj1 (C1_fit_restores_nbshots demo_seed demo_choice
                     (demo_minimize [quarter; half] half)
                     demo_X demo_y None (demo_fit_kwargs "BFGS" false None)
                     (world_with growing_classifier))).
    vm_compute. reflexivity.
  - split; [reflexivity |].
    eexists. split; [vm_compute; reflexivity |].
    eapply (proj2 (C1_fit_restores_nbshots demo_seed demo_choice
                     (demo_minimize [quarter; half] half)
                     demo_X [0; 1; 2] None (demo_fit_kwargs "BFGS" false None)
                     (world_with growing_classifier))).
    vm_compute. reflexivity.
Defined.

(** A training call that ends without the budget it started with: the
    optimizer raises after one evaluation, the call ends with that
    exception before the end of [fit], and the budget stays where the
    additive policy put it, 110 shots for the 100 before the call. *)
Lemma C1_counterexample :
  let kw := demo_fit_kwargs "BFGS" false None in
  let w := world_with growing_classifier in
  let aborting (m : string) (x0 : vector) (b : option (list bound))
        (o : options_dict) :=
    Evaluate quarter (fun _ => Abort ValueError) in
  exists w',
    fit demo_seed demo_choice aborting demo_X demo_y None kw w
      = (Raised ValueError, w') /\
    nbshots (self w) = Some 100 /\
    nbshots (self w') = Some 110 /\
    nbshots (self w') <> nbshots (self w).
Proof.
  cbv zeta. eexists. split; [vm_compute; reflexivity |].
  split; [reflexivity |]. split; [reflexivity |]. discriminate.
Qed.

(** The first evaluation of a first call, below the initial [np.inf], is
    committed; entering the call left [__min_loss__] alone. *)
Lemma C2_witness :
  let kw := demo_fit_kwargs "BFGS" false None in
  let w := world_with demo_classifier in
  exists L w1 w2,
    entry kw w = (Ok L, w1) /\
    objective L quarter w1 = (Ok (Fin (1 # 4)), w2) /\
    xlt (Fin (1 # 4)) (__min_loss__ (self w1)) = true /\
    (params (self w2) = quarter /\ __min_loss__ (self w2) = Fin (1 # 4)) /\
    __min_loss__ (self w1) = __min_loss__ (self w).
Proof.
  cbv zeta. do 3 eexists.
  lazymatch goal with
  | |- _ = (Ok ?L, ?w1) /\ _ = (_, ?w2) /\ _ =>
      split; [vm_compute; reflexivity |];
      split; [vm_compute; reflexivity |];
      split; [reflexivity |];
      assert (objective L quarter w1 = (Ok (Fin (1 # 4)), w2)) as Hstep
        by (vm_compute; reflexivity);
      destruct (C2_commit_below_min_loss demo_seed demo_choice
                  demo_X demo_y L quarter w1 w2 (Fin (1 # 4)) Hstep)
        as (Hbelow & _ & Hentry);
      split; [apply Hbelow; reflexivity |];
      apply (Hentry demo_y None (demo_fit_kwargs "BFGS" false None) _ _ L);
      vm_compute; reflexivity
  end.
Defined.

(** A second call on the same classifier.  The first call saw the loss
    [1/4].  The first evaluation of the second call, at [1/2] with loss
    [1/2], beats the best loss of its own call (nothing seen yet), and the
    parameters stay at the final iterate of the first call. *)
Lemma C2_counterexample :
  let kw := demo_fit_kwargs "BFGS" false None in
  exists w1 L w2 w3,
    demo_fit [quarter] [(3 # 4)%Q] kw (world_with demo_classifier)
      = (Ok tt, w1) /\
    entry kw w1 = (Ok L, w2) /\
    objective L half w2 = (Ok (Fin (1 # 2)), w3) /\
    xlt (Fin (1 # 2)) (per_call_best []) = true /\
    params (self w3) = [(3 # 4)%Q] /\
    ~ commits_on_per_call_best [] (Fin (1 # 2)) half (self w2) (self w3).
Proof.
  cbv zeta. do 4 eexists.
  split; [vm_compute; reflexivity |].
  split; [vm_compute; reflexivity |].
  split; [vm_compute; reflexivity |].
  split; [reflexivity |].
  split; [reflexivity |].
  unfold commits_on_per_call_best. simpl. discriminate.
Qed.

(** The demo run ends on the optimizer's final iterate. *)
Lemma C3_witness :
  let kw := demo_fit_kwargs "BFGS" false None in
  let w := world_with demo_classifier in
  exists w',
    demo_fit [quarter; half] half kw w = (Ok tt, w') /\
    exists L w1 r w2,
      entry kw w = (Ok L, w1) /\
      optimize [quarter; half] half kw L w1 = (Ok r, w2) /\
      params (self w') = res_x r /\
      exists bounds options,
        returns (demo_minimize [quarter; half] half (method L)
                   (params (self w1)) bounds options) (res_x r).
Proof.
  cbv zeta. eexists. split; [vm_compute; reflexivity |].
  eapply (proj1 (C3_fit_ends_with_final_iterate demo_seed demo_choice
                   (demo_minimize [quarter; half] half))).
  vm_compute. reflexivity.
Defined.

(** The method name in lower case: the callback runs neither inside the
    objective nor from the optimizer, and nothing is recorded even with
    recording on. *)
Lemma lowercase_cobyla_records_nothing :
  let kw := demo_fit_kwargs "cobyla" true None in
  let reporting (m : string) (x0 : vector) (b : option (list bound))
        (o : options_dict) :=
    Evaluate quarter (fun _ => Iteration quarter (Finish quarter)) in
  exists w',
    fit demo_seed demo_choice reporting demo_X demo_y None kw
      (world_with demo_classifier) = (Ok tt, w') /\
    __loss_progress__ (self w') = [] /\
    info_n_iter (__info__ (self w')) = Some 0 /\
    info_nfev (__info__ (self w')) = Some 1.
Proof.
  cbv zeta. eexists. split; [vm_compute; reflexivity |].
  repeat split.
Qed.

(** COBYLA with both kinds of recording on: two evaluations, two entries
    in each log. *)
Lemma C4_witness :
  let kw := demo_fit_kwargs "COBYLA" true (Some "trace.json") in
  let w := world_with demo_classifier in
  exists w' L w1 r w2,
    demo_fit [quarter; half] half kw w = (Ok tt, w') /\
    entry kw w = (Ok L, w1) /\
    optimize [quarter; half] half kw L w1 = (Ok r, w2) /\
    (length (__loss_progress__ (self w'))
     - length (__loss_progress__ (self w)))%nat = res_nfev r /\
    length (__output_progress__ (self w2))
      = (length (__output_progress__ (self w)) + res_nfev r)%nat /\
    length (__params_progress__ (self w2))
      = (length (__params_progress__ (self w)) + res_nfev r)%nat.
Proof.
  cbv zeta.
  assert (demo_fit [quarter; half] half
            (demo_fit_kwargs "COBYLA" true (Some "trace.json"))
            (world_with demo_classifier)
          = (Ok tt,
             snd (demo_fit [quarter; half] half
                    (demo_fit_kwargs "COBYLA" true (Some "trace.json"))
                    (world_with demo_classifier)))) as Hfit
    by (vm_compute; reflexivity).
  destruct (C4_history_entries demo_seed demo_choice
              (demo_minimize [quarter; half] half) demo_X demo_y None
              _ _ _ Hfit)
    as (L & w1 & r & w2 & Hentry & Hmin & _ & _ & Hcobyla & _).
  destruct (Hcobyla eq_refl eq_refl) as (Hloss & Htrace).
  destruct (Htrace eq_refl) as (Hout & Hpar).
  eexists. exists L, w1, r, w2.
  split; [exact Hfit |]. auto.
Defined.

(** COBYLA with recording off: one objective evaluation, no history
    entry. *)
Lemma C4_counterexample :
  let kw := demo_fit_kwargs "COBYLA" false None in
  let w := world_with demo_classifier in
  exists w' L w1 r w2,
    demo_fit [quarter] quarter kw w = (Ok tt, w') /\
    entry kw w = (Ok L, w1) /\
    optimize [quarter] quarter kw L w1 = (Ok r, w2) /\
    res_nfev r = 1%nat /\
    __loss_progress__ (self w') = [] /\
    __output_progress__ (self w2) = [] /\
    __params_progress__ (self w2) = [] /\
    length (__loss_progress__ (self w'))
      <> (length (__loss_progress__ (self w)) + res_nfev r)%nat.
Proof.
  cbv zeta. do 5 eexists.
  split; [vm_compute; reflexivity |].
  split; [vm_compute; reflexivity |].
  split; [vm_compute; reflexivity |].
  repeat (split; [reflexivity |]).
  simpl. lia.
Qed.

(** The budget after an evaluation is the policy applied to the counter;
    the additive policy at counter 0 adds its step; the multiplicative one
    gives [int(1.15 * 100)], which is 114 in binary64; the identity keeps
    an absent budget. *)
Lemma C5_witness :
  let kw := demo_fit_kwargs "BFGS" false None in
  let w := world_with growing_classifier in
  exists L w1 l w2,
    entry kw w = (Ok L, w1) /\
    objective L quarter w1 = (Ok l, w2) /\
    (exists k,
        __n_iter__ (self w1) = Some k /\
        call_nbshots_increment (self w1) (nbshots (self w1)) k
          (__min_loss__ (self w1)) = Ok (nbshots (self w2))) /\
    call_nbshots_increment growing_classifier (Some 100) 0 Inf
      = Ok (Some 110) /\
    call_nbshots_increment scaling_classifier (Some 100) 0 Inf
      = Ok (Some 114) /\
    call_nbshots_increment demo_classifier None 0 Inf = Ok None /\
    exists r w3,
      optimize [quarter; half] half kw L w1 = (Ok r, w3) /\
      __n_iter__ (self w1) = Some 0 /\
      __n_iter__ (self w3)
      = Some (0 + 0 * Z.of_nat (res_nfev r) + 1 * Z.of_nat (res_nit r)).
Proof.
  cbv zeta.
  destruct (C5_budget_recomputed_from_iteration_counter demo_choice
              (demo_minimize [quarter; half] half))
    as (Hstep & Htable & Hkeep & Hcount).
  do 4 eexists.
  lazymatch goal with
  | |- _ = (Ok ?L, ?w1) /\ _ = (Ok ?l, ?w2) /\ _ =>
      split; [vm_compute; reflexivity |];
      split; [vm_compute; reflexivity |];
      split;
        [apply (Hstep demo_X demo_y L quarter w1 w2 l);
         vm_compute; reflexivity |];
      split;
        [refine (Htable growing_classifier 100 0 Inf _);
         vm_compute; discriminate |];
      split;
        [refine (Htable scaling_classifier 100 0 Inf _);
         vm_compute; discriminate |];
      split; [apply Hkeep; reflexivity |];
      do 2 eexists;
      lazymatch goal with
      | |- _ = (Ok ?r, ?w3) /\ _ =>
          split; [vm_compute; reflexivity |];
          split; [reflexivity |];
          apply (Hcount demo_X demo_y (demo_fit_kwargs "BFGS" false None)
                   L w1 w3 r 0);
          vm_compute; reflexivity
      end
  end.
Defined.

(** BFGS-style run with the additive policy (step 10, delay 3): two
    evaluations and no reported iterate between them.  At the second
    evaluation one objective call has been made (two with the current
    one); with either count the policy would leave 110 shots, and the
    counter, still 0, makes it 120. *)
Lemma C5_counterexample :
  let kw := demo_fit_kwargs "BFGS" false None in
  exists L w1 l1 w2 l2 w3,
    entry kw (world_with growing_classifier) = (Ok L, w1) /\
    objective L quarter w1 = (Ok l1, w2) /\
    objective L half w2 = (Ok l2, w3) /\
    nbshots (self w2) = Some 110 /\
    budget_from_calls (self w2) 1 = Ok (Some 110) /\
    budget_from_calls (self w2) 2 = Ok (Some 110) /\
    nbshots (self w3) = Some 120 /\
    Ok (nbshots (self w3)) <> budget_from_calls (self w2) 1 /\
    Ok (nbshots (self w3)) <> budget_from_calls (self w2) 2.
Proof.
  cbv zeta. do 6 eexists.
  split; [vm_compute; reflexivity |].
  split; [vm_compute; reflexivity |].
  split; [vm_compute; reflexivity |].
  repeat (split; [reflexivity |]).
  split; vm_compute; discriminate.
Qed.

(** Entering a call on a fresh classifier. *)
Lemma C6_witness :
  let kw := demo_fit_kwargs "BFGS" false None in
  let c := demo_classifier in
  exists L w1,
    entry kw (world_with c) = (Ok L, w1) /\
    self w1
    = with_n_iter (Some 0)
        (with_pbar (Some {| total := __budget__ c; n := 0 |}) c) /\
    __n_iter__ (self w1) = Some 0 /\
    __min_loss__ (self w1) = __min_loss__ c /\
    __last_loss_value__ (self w1) = __last_loss_value__ c /\
    __last_output__ (self w1) = __last_output__ c /\
    __last_params__ (self w1) = __last_params__ c /\
    __loss_progress__ (self w1) = __loss_progress__ c /\
    __output_progress__ (self w1) = __output_progress__ c /\
    __params_progress__ (self w1) = __params_progress__ c.
Proof.
  cbv zeta. do 2 eexists.
  lazymatch goal with
  | |- _ = (Ok ?L, ?w1) /\ _ =>
      split; [vm_compute; reflexivity |];
      apply (C6_entry_resets_counter_only demo_seed demo_y None
               (demo_fit_kwargs "BFGS" false None)
               (world_with demo_classifier) w1 L);
      vm_compute; reflexivity
  end.
Defined.

(** A second call enters with the minimum loss, the last loss and the loss
    log of the first. *)
Lemma C6_counterexample :
  let kw := demo_fit_kwargs "COBYLA" true None in
  exists w1 L w2,
    demo_fit [quarter] quarter kw (world_with demo_classifier)
      = (Ok tt, w1) /\
    entry kw w1 = (Ok L, w2) /\
    __min_loss__ (self w2) = Fin (1 # 4) /\
    __last_loss_value__ (self w2) = Some (Fin (1 # 4)) /\
    __loss_progress__ (self w2) = [Some (Fin (1 # 4))] /\
    ~ fresh_training_state (self w2).
Proof.
  cbv zeta. do 3 eexists.
  split; [vm_compute; reflexivity |].
  split; [vm_compute; reflexivity |].
  repeat (split; [reflexivity |]).
  intros (_ & Hmin & _). simpl in Hmin. discriminate.
Qed.

(** Both ways of declaring the two classes on the demo circuit. *)
Lemma C7_witness :
  let kw := demo_kwargs PyNone PyNone PyNone in
  let circ := Some demo_circuit in
  exists c1 c2,
    __init__ demo_loss circ [PyStr "00"; PyStr "01"] kw tt = (Ok c1, tt) /\
    __init__ demo_loss circ [PyInt 0; PyInt 1] kw tt = (Ok c2, tt) /\
    bitstr c1 = [0; 1] /\
    bitstr c2 = [0; 1] /\
    fst (predict_proba demo_X None (world_with c1))
      = fst (predict_proba demo_X None (world_with c2)) /\
    fst (predict demo_X (world_with c1)) = fst (predict demo_X (world_with c2)).
Proof.
  cbv zeta.
  destruct (C7_binary_strings_equal_codes demo_loss (Some demo_circuit)
              (demo_kwargs PyNone PyNone PyNone) tt) as (_ & _ & Hsame).
  destruct (Hsame demo_classifier demo_classifier tt tt eq_refl eq_refl)
    as (Hbits1 & Hbits2 & Hpredict).
  exists demo_classifier, demo_classifier.
  split; [reflexivity |]. split; [reflexivity |].
  split; [exact Hbits1 |]. split; [exact Hbits2 |].
  exact (Hpredict demo_X None ∅).
Defined.

(** Finalizing the demo call that traces to [trace.json]. *)
Lemma C8_witness :
  let kw := demo_fit_kwargs "COBYLA" false (Some "trace.json") in
  exists L w1 r w2 w',
    entry kw (world_with demo_classifier) = (Ok L, w1) /\
    optimize [quarter] quarter kw L w1 = (Ok r, w2) /\
    fit_exit demo_y L r w2 = (Ok tt, w') /\
    (exists path,
        save_output_progress L = Some path /\
        files w' !! path =
          Some (Json {| tr_output := __output_progress__ (self w2);
                        tr_labels := demo_y;
                        tr_loss_value := __loss_progress__ (self w2);
                        tr_params := __params_progress__ (self w2) |})) /\
    __output_progress__ (self w') = [] /\
    __params_progress__ (self w') = [] /\
    __loss_progress__ (self w') = __loss_progress__ (self w2).
Proof.
  cbv zeta. do 5 eexists.
  lazymatch goal with
  | |- _ = (Ok ?L, _) /\ _ = (Ok ?r, ?w2) /\ _ = (_, ?w') /\ _ =>
      split; [vm_compute; reflexivity |];
      split; [vm_compute; reflexivity |];
      split; [vm_compute; reflexivity |];
      apply (C8_finalize_persists_and_clears demo_y L r w2 w');
      vm_compute; reflexivity
  end.
Defined.

(** The same call: the trace is written and the loss log still holds its
    entry afterwards. *)
Lemma C8_counterexample :
  let kw := demo_fit_kwargs "COBYLA" false (Some "trace.json") in
  exists w',
    demo_fit [quarter] quarter kw (world_with demo_classifier)
      = (Ok tt, w') /\
    files w' !! "trace.json" =
      Some (Json {| tr_output := [[[(1 # 4)%Q; (3 # 4)%Q]]];
                    tr_labels := demo_y;
                    tr_loss_value := [Some (Fin (1 # 4))];
                    tr_params := [quarter] |}) /\
    __output_progress__ (self w') = [] /\
    __params_progress__ (self w') = [] /\
    __loss_progress__ (self w') = [Some (Fin (1 # 4))] /\
    ~ buffers_cleared (self w').
Proof.
  cbv zeta. eexists.
  split; [vm_compute; reflexivity |].
  split; [vm_compute; reflexivity |].
  repeat (split; [reflexivity |]).
  intros (_ & _ & Hloss). simpl in Hloss. discriminate.
Qed.

(** Placements on a two-qubit builder, inside and outside the range. *)
Lemma C9_witness :
  let b := demo_builder in
  let f := demo_str_float in
  fst (Builder.__single_input f 1 0%Q b) = Ok tt /\
  Builder.__single_input f 2 0%Q b = (Raised OutOfRangeError, b) /\
  fst (Builder.cz 0 1 b) = Ok tt /\
  Builder.cz 0 2 b = (Raised OutOfRangeError, b) /\
  fst (Builder.fsim 1 0 0%Q 0%Q b) = Ok tt /\
  Builder.fsim (-1) 0 0%Q 0%Q b = (Raised OutOfRangeError, b).
Proof.
  cbv zeta.
  destruct (C9_placements_validate_indices demo_str_float demo_builder)
    as (Hinput & Hcz & Hfsim).
  split; [apply Hinput; unfold Builder.in_range; simpl; lia |].
  split; [apply Hinput; unfold Builder.in_range; simpl; lia |].
  split; [apply Hcz; unfold Builder.in_range; simpl; lia |].
  split; [apply Hcz; unfold Builder.in_range; simpl; lia |].
  split; [apply Hfsim; unfold Builder.in_range; simpl; lia |].
  apply Hfsim; unfold Builder.in_range; simpl; lia.
Defined.

(** A prediction on the fresh demo classifier, outside any training. *)
Lemma C10_witness :
  let w := world_with demo_classifier in
  let c := self (snd (predict demo_X w)) in
  nfev c = 1 /\
  nfev c = nfev (self w) + 1 /\
  params c = params (self w) /\
  nbshots c = nbshots (self w) /\
  __loss_progress__ c = __loss_progress__ (self w) /\
  __output_progress__ c = __output_progress__ (self w) /\
  __params_progress__ c = __params_progress__ (self w) /\
  __min_loss__ c = __min_loss__ (self w).
Proof.
  cbv zeta. split; [reflexivity |].
  destruct (C10_prediction_increments_nfev_only demo_X None
              (world_with demo_classifier)) as (_ & Hframe).
  apply Hframe. simpl. auto.
Defined.

End Runs.

(** * Further properties *)

(** ** The builder *)

Section BuilderGrowth.

Import Builder BuilderTerms.

Variable str_float : Q -> string.

Lemma append_assoc (s1 s2 s3 : string) :
  (s1 +:+ s2) +:+ s3 = s1 +:+ (s2 +:+ s3).
Proof.
  induction s1 as [| c s1 IH]; [reflexivity |].
  change (String c ((s1 +:+ s2) +:+ s3) = String c (s1 +:+ s2 +:+ s3)).
  now rewrite IH.
Qed.

Lemma append_empty (s : string) : s +:+ "" = s.
Proof.
  induction s as [| c s IH]; [reflexivity |].
  change (String c (s +:+ "") = String c s). now rewrite IH.
Qed.

Lemma grown_from_refl (b : mqBuilder) : grown_from b b.
Proof.
  repeat split.
  - exists []. now rewrite app_nil_r.
  - exists "". now rewrite append_empty.
Qed.

Lemma grown_from_trans (b1 b2 b3 : mqBuilder) :
  grown_from b1 b2 -> grown_from b2 b3 -> grown_from b1 b3.
Proof.
  intros (Hn1 & (c1 & Hc1) & (s1 & Hs1)) (Hn2 & (c2 & Hc2) & (s2 & Hs2)).
  repeat split.
  - congruence.
  - exists (c1 ++ c2)%list. now rewrite Hc2, Hc1, app_assoc.
  - exists (s1 +:+ s2). now rewrite Hs2, Hs1, append_assoc.
Qed.

(** What one input gate does on a valid index. *)
Lemma single_input_placed (idx : Z) (theta : Q) (b : mqBuilder) :
  in_range b idx ->
  __single_input str_float idx theta b
  = (Ok tt,
     {| nbqbits := nbqbits b;
        txt := txt b +:+ single_input_txt str_float idx theta;
        mq := (mq b ++ input_calls idx theta)%list |}).
Proof.
  intros Hin. unfold __single_input, bind.
  rewrite (verify_index_ok _ _ Hin).
  unfold mq_do, modify, add_txt, input_calls. simpl.
  now rewrite <- !app_assoc.
Qed.

Lemma single_input_grows (idx : Z) (theta : Q) (b : mqBuilder) :
  grown_from b (snd (__single_input str_float idx theta b)).
Proof.
  destruct (in_range_dec b idx) as [Hin | Hout].
  - rewrite (single_input_placed _ _ _ Hin). simpl.
    repeat split; simpl; eauto.
  - unfold __single_input, bind. rewrite (verify_index_fails _ _ Hout).
    apply grown_from_refl.
Qed.

Lemma two_qubit_grows (a c : Z) (call : mq_call) (s : string)
  (b : mqBuilder) :
  grown_from b
    (snd ((__verify_index__ a ;;; __verify_index__ c ;;; mq_do call ;;;
           modify (add_txt s)) b)).
Proof.
  unfold bind.
  destruct (in_range_dec b a) as [Ha | Ha].
  - rewrite (verify_index_ok _ _ Ha).
    destruct (in_range_dec b c) as [Hc | Hc].
    + rewrite (verify_index_ok _ _ Hc). simpl.
      repeat split; simpl; eauto.
    + rewrite (verify_index_fails _ _ Hc). apply grown_from_refl.
  - rewrite (verify_index_fails _ _ Ha). apply grown_from_refl.
Qed.

Lemma input_loop_grows (idx : list Z) (theta : list Q) :
  forall (p : nat) (b : mqBuilder),
    grown_from b (snd (input_loop str_float p idx theta b)).
Proof.
  induction idx as [| i idx IH]; intros p b; simpl.
  - apply grown_from_refl.
  - unfold bind, getitem.
    destruct (nth_error theta p) as [t |]; simpl;
      [| apply grown_from_refl].
    pose proof (single_input_grows i t b) as Hstep.
    destruct (__single_input str_float i t b) as [[[] | e] b1];
      simpl in *; [| exact Hstep].
    eapply grown_from_trans; [exact Hstep | apply IH].
Qed.

Lemma for_each_grows {A} (body : A -> M mqBuilder unit) (xs : list A) :
  (forall x b, grown_from b (snd (body x b))) ->
  forall b, grown_from b (snd (for_each xs body b)).
Proof.
  intros Hbody. induction xs as [| x xs IH]; intros b; simpl.
  - apply grown_from_refl.
  - unfold bind. pose proof (Hbody x b) as Hstep.
    destruct (body x b) as [[[] | e] b1]; simpl in *; [| exact Hstep].
    eapply grown_from_trans; [exact Hstep | apply IH].
Qed.

(** X1. Whatever a placement is given and whether it returns or raises,
    the builder it leaves has the qubit count it had, and its register log
    and its text are the old ones with something appended: nothing placed
    earlier is dropped or reordered.  This holds for the single input
    gate, [input] in both forms, [allin], [cz], [fsim] and [measure_all]. *)
Theorem builder_only_grows (b : mqBuilder) :
  (forall idx theta,
      grown_from b (snd (__single_input str_float idx theta b))) /\
  (forall arg, grown_from b (snd (input str_float arg b))) /\
  (forall theta, grown_from b (snd (allin str_float theta b))) /\
  (forall a c, grown_from b (snd (cz a c b))) /\
  (forall a c theta phi, grown_from b (snd (fsim a c theta phi b))) /\
  grown_from b (snd (measure_all b)).
Proof.
  split; [intros; apply single_input_grows |].
  split.
  { intros [idx theta | idx theta]; simpl;
      [apply single_input_grows | apply input_loop_grows]. }
  split.
  { intros theta. unfold allin, bind, get.
    apply for_each_grows. intros i b0. unfold bind, getitem.
    destruct (nth_error theta i) as [t |]; simpl;
      [apply single_input_grows | apply grown_from_refl]. }
  split; [intros; apply two_qubit_grows |].
  split; [intros; apply two_qubit_grows |].
  unfold measure_all, bind, mq_do, modify. simpl.
  repeat split; simpl; eauto.
Qed.

End BuilderGrowth.

Section BuilderLists.

Import Builder BuilderTerms.

Variable str_float : Q -> string.

Lemma nth_error_skipn {A} (l : list A) (p : nat) (a : A) :
  nth_error l p = Some a -> skipn p l = a :: skipn (S p) l.
Proof.
  revert p. induction l as [| x l IH]; intros [| p] H; simpl in *;
    try discriminate.
  - now injection H as ->.
  - now apply IH.
Qed.

Lemma nth_error_some_lt {A} (l : list A) (p : nat) :
  (p < length l)%nat -> exists a, nth_error l p = Some a.
Proof.
  intros Hlt. destruct (nth_error l p) as [a |] eqn:Hnth; [eauto |].
  apply nth_error_None in Hnth. lia.
Qed.

(** The loop of [input] on valid indices with enough angles. *)
Lemma input_loop_placed (idx : list Z) (theta : list Q) :
  forall (p : nat) (b : mqBuilder),
    Forall (in_range b) idx ->
    (p + length idx <= length theta)%nat ->
    exists b',
      input_loop str_float p idx theta b = (Ok tt, b') /\
      nbqbits b' = nbqbits b /\
      mq b' = (mq b ++ inputs_calls idx (skipn p theta))%list.
Proof.
  induction idx as [| i idx IH]; intros p b Hall Hlen; simpl in *.
  - exists b. repeat split. now rewrite app_nil_r.
  - inversion Hall as [| ? ? Hi Hrest]; subst.
    destruct (nth_error_some_lt theta p ltac:(lia)) as (t & Ht).
    unfold bind, getitem. rewrite Ht. simpl.
    rewrite (single_input_placed str_float _ _ _ Hi).
    set (b1 := {| nbqbits := nbqbits b; txt := _; mq := _ |}).
    destruct (IH (S p) b1) as (b' & Hrun & Hn & Hmq);
      [exact Hrest | lia |].
    exists b'. split; [exact Hrun |]. split; [exact Hn |].
    rewrite Hmq, (nth_error_skipn _ _ _ Ht). simpl.
    now rewrite <- app_assoc.
Qed.

(** The loop of [input] returns only on valid indices with enough
    angles. *)
Lemma input_loop_returns (idx : list Z) (theta : list Q) :
  forall (p : nat) (b : mqBuilder),
    fst (input_loop str_float p idx theta b) = Ok tt ->
    Forall (in_range b) idx /\ (p + length idx <= length theta)%nat
    \/ idx = [].
Proof.
  induction idx as [| i idx IH]; intros p b Hok; [now right | left].
  simpl in Hok. unfold bind, getitem in Hok.
  destruct (nth_error theta p) as [t |] eqn:Ht; simpl in Hok;
    [| discriminate].
  destruct (in_range_dec b i) as [Hi | Hi].
  - rewrite (single_input_placed str_float _ _ _ Hi) in Hok.
    apply IH in Hok. simpl in Hok.
    assert (p < length theta)%nat
      by (apply nth_error_Some; congruence).
    destruct Hok as [(Hrest & Hlen) | ->].
    + split; [constructor; assumption | simpl; lia].
    + split; [constructor; [assumption | constructor] | simpl; lia].
  - unfold __single_input, bind in Hok.
    rewrite (verify_index_fails _ _ Hi) in Hok. discriminate.
Qed.

(** X2. [input] with a list of indices returns exactly when every index
    is a qubit of the builder and there is an angle for every index; the
    register then holds, after what it held, the three calls of each
    index in order, each with the angle at the same position. *)
Theorem input_list_returns_iff (idx : list Z) (theta : list Q)
  (b : mqBuilder) :
  let result := input str_float (Listed idx theta) b in
  (fst result = Ok tt <->
   Forall (in_range b) idx /\ (length idx <= length theta)%nat) /\
  (fst result = Ok tt ->
   nbqbits (snd result) = nbqbits b /\
   mq (snd result) = (mq b ++ inputs_calls idx theta)%list).
Proof.
  cbv zeta. simpl. split; [split |].
  - intros Hok. destruct (input_loop_returns _ _ _ _ Hok) as [H | ->].
    + exact H.
    + split; [constructor | simpl; lia].
  - intros (Hall & Hlen).
    destruct (input_loop_placed idx theta 0 b Hall Hlen)
      as (b' & Hrun & _). now rewrite Hrun.
  - intros Hok.
    destruct (input_loop_returns _ _ _ _ Hok) as [(Hall & Hlen) | ->].
    + destruct (input_loop_placed idx theta 0 b Hall Hlen)
        as (b' & Hrun & Hn & Hmq). rewrite Hrun. simpl. now split.
    + simpl. split; [reflexivity | now rewrite app_nil_r].
Qed.

(** X3. [input] with a list is not all-or-nothing: when the first invalid
    index comes after some valid ones that have an angle, the call raises
    the out-of-range condition and the gates of the valid ones stay on
    the register. *)
Theorem input_list_keeps_gates_placed_before_failure
  (good rest : list Z) (bad : Z) (theta : list Q) (b : mqBuilder) :
  Forall (in_range b) good ->
  ~ in_range b bad ->
  (length good < length theta)%nat ->
  let result := input str_float (Listed (good ++ bad :: rest) theta) b in
  fst result = Raised OutOfRangeError /\
  nbqbits (snd result) = nbqbits b /\
  mq (snd result) = (mq b ++ inputs_calls good theta)%list.
Proof.
  intros Hgood Hbad Hlen. cbv zeta. simpl.
  assert (forall p b0,
             Forall (in_range b0) good -> ~ in_range b0 bad ->
             (p + length good < length theta)%nat ->
             let result :=
               input_loop str_float p (good ++ bad :: rest) theta b0 in
             fst result = Raised OutOfRangeError /\
             nbqbits (snd result) = nbqbits b0 /\
             mq (snd result)
             = (mq b0 ++ inputs_calls good (skipn p theta))%list) as Hloop.
  { clear. induction good as [| i good IH]; intros p b0 Hall Hbad Hlen;
      cbv zeta; simpl in *.
    - destruct (nth_error_some_lt theta p ltac:(lia)) as (t & Ht).
      unfold bind, getitem. rewrite Ht. simpl.
      unfold __single_input, bind.
      rewrite (verify_index_fails _ _ Hbad). simpl.
      repeat split. now rewrite app_nil_r.
    - inversion Hall as [| ? ? Hi Hrest]; subst.
      destruct (nth_error_some_lt theta p ltac:(lia)) as (t & Ht).
      unfold bind, getitem. rewrite Ht. simpl.
      rewrite (single_input_placed str_float _ _ _ Hi).
      set (b1 := {| nbqbits := nbqbits b0; txt := _; mq := _ |}).
      destruct (IH (S p) b1) as (Hfail & Hn & Hmq);
        [exact Hrest | exact Hbad | lia |].
      split; [exact Hfail |]. split; [exact Hn |].
      rewrite Hmq, (nth_error_skipn _ _ _ Ht). simpl.
      now rewrite <- app_assoc. }
  apply (Hloop 0%nat b Hgood Hbad). lia.
Qed.

End BuilderLists.

Section BuilderAllin.

Import Builder BuilderTerms.

Variable str_float : Q -> string.

Local Abbreviation body theta :=
  (fun i : nat =>
     let* t := getitem theta i in __single_input str_float (Z.of_nat i) t).

Lemma allin_step (theta : list Q) (first n : nat) (t : Q) (b : mqBuilder) :
  nth_error theta first = Some t ->
  in_range b (Z.of_nat first) ->
  for_each (seq first (S n)) (body theta) b
  = for_each (seq (S first) n) (body theta)
      {| nbqbits := nbqbits b;
         txt := txt b +:+ single_input_txt str_float (Z.of_nat first) t;
         mq := (mq b ++ input_calls (Z.of_nat first) t)%list |}.
Proof.
  intros Ht Hin. simpl. unfold bind at 1. unfold bind at 1.
  unfold getitem. rewrite Ht. simpl.
  now rewrite (single_input_placed str_float _ _ _ Hin).
Qed.

Lemma allin_step_short (theta : list Q) (first n : nat) (b : mqBuilder) :
  nth_error theta first = None ->
  for_each (seq first (S n)) (body theta) b = (Raised IndexError, b).
Proof.
  intros Ht. simpl. unfold bind at 1. unfold bind at 1.
  unfold getitem. now rewrite Ht.
Qed.

(** The loop of [allin] over the qubits [first, first + n). *)
Lemma allin_loop (theta : list Q) (n : nat) :
  forall (first : nat) (b : mqBuilder),
    (n = 0%nat \/ Z.of_nat (first + n) <= nbqbits b) ->
    let result := for_each (seq first n) (body theta) b in
    ((first + n <= length theta)%nat \/ n = 0%nat ->
     fst result = Ok tt /\
     nbqbits (snd result) = nbqbits b /\
     mq (snd result)
     = (mq b ++ flat_map
                  (fun i => input_calls (Z.of_nat i) (nth i theta 0%Q))
                  (seq first n))%list) /\
    ((length theta < first + n)%nat -> (0 < n)%nat ->
     fst result = Raised IndexError).
Proof.
  induction n as [| n IH]; intros first b Hqubits; cbv zeta.
  - simpl. split; [| lia]. intros _. repeat split. now rewrite app_nil_r.
  - assert (in_range b (Z.of_nat first)) as Hin by (unfold in_range; lia).
    destruct (nth_error theta first) as [t |] eqn:Ht.
    + rewrite (allin_step _ _ _ _ _ Ht Hin).
      set (b1 := {| nbqbits := nbqbits b; txt := _; mq := _ |}).
      assert (first < length theta)%nat
        by (apply nth_error_Some; congruence).
      destruct (IH (S first) b1) as (Hok & Hshort);
        [simpl; lia |]. cbv zeta in Hok, Hshort.
      split.
      * intros Hlen.
        destruct Hok as (Hres & Hn & Hmq);
          [destruct n; [now right | left; lia] |].
        split; [exact Hres |]. split; [exact Hn |].
        rewrite Hmq. simpl. rewrite <- app_assoc.
        now rewrite (nth_error_nth _ _ _ Ht).
      * intros Hlen _. destruct n; [lia |]. apply Hshort; lia.
    + rewrite (allin_step_short _ _ _ _ Ht).
      apply nth_error_None in Ht. split; [lia | reflexivity].
Qed.

(** What [allin] does, by the number of qubits and of angles. *)
Lemma allin_outcome (theta : list Q) (b : mqBuilder) :
  let n := Z.to_nat (nbqbits b) in
  let result := allin str_float theta b in
  ((n <= length theta)%nat ->
   fst result = Ok tt /\
   nbqbits (snd result) = nbqbits b /\
   mq (snd result) = (mq b ++ allin_calls n theta)%list /\
   length (mq (snd result)) = (length (mq b) + 3 * n)%nat) /\
  ((length theta < n)%nat -> fst result = Raised IndexError) /\
  fst result <> Raised OutOfRangeError.
Proof.
  cbv zeta.
  assert (allin str_float theta b
          = for_each (seq 0 (Z.to_nat (nbqbits b))) (body theta) b) as ->
    by reflexivity.
  destruct (allin_loop theta (Z.to_nat (nbqbits b)) 0 b) as (Hok & Hshort);
    [simpl; lia |]. cbv zeta in Hok, Hshort. simpl in Hok, Hshort.
  assert (forall m first,
             length (flat_map
                       (fun i => input_calls (Z.of_nat i) (nth i theta 0%Q))
                       (seq first m)) = (3 * m)%nat) as Hcount.
  { induction m as [| m IHm]; intros first; simpl; [reflexivity |].
    rewrite IHm. lia. }
  split; [| split].
  - intros Hlen. destruct Hok as (Hres & Hn & Hmq); [now left |].
    split; [exact Hres |]. split; [exact Hn |].
    split; [exact Hmq |].
    rewrite Hmq, length_app, Hcount. reflexivity.
  - intros Hlen. apply Hshort; lia.
  - destruct (Nat.le_gt_cases (Z.to_nat (nbqbits b)) (length theta))
      as [Hlen | Hlen].
    + destruct Hok as (Hres & _); [now left |]. rewrite Hres. discriminate.
    + rewrite Hshort by lia. discriminate.
Qed.

(** X4. [allin] places an input gate on every qubit, in order, when the
    parameter vector has an entry for each qubit, and raises an index
    error when it is shorter (and the builder has a qubit); it never
    raises the out-of-range condition, since the indices it uses are the
    builder's own. *)
Theorem allin_places_one_gate_per_qubit (theta : list Q) (b : mqBuilder) :
  let n := Z.to_nat (nbqbits b) in
  let result := allin str_float theta b in
  ((n <= length theta)%nat ->
   fst result = Ok tt /\
   nbqbits (snd result) = nbqbits b /\
   mq (snd result) = (mq b ++ allin_calls n theta)%list /\
   length (mq (snd result)) = (length (mq b) + 3 * n)%nat) /\
  ((length theta < n)%nat -> fst result = Raised IndexError) /\
  fst result <> Raised OutOfRangeError.
Proof. exact (allin_outcome theta b). Qed.

End BuilderAllin.

(** ** The XOR recipe *)

Section Recipe.

Import Builder BuilderTerms ExampleXOR.

Variable str_float : Q -> string.

Lemma allin_returns (theta : list Q) (b : mqBuilder) :
  (Z.to_nat (nbqbits b) <= length theta)%nat ->
  exists b1,
    allin str_float theta b = (Ok tt, b1) /\
    nbqbits b1 = nbqbits b /\
    mq b1 = (mq b ++ allin_calls (Z.to_nat (nbqbits b)) theta)%list.
Proof.
  intros Hlen.
  destruct (allin_outcome str_float theta b)
    as (Hok & _).
  destruct (Hok Hlen) as (Hres & Hn & Hmq & _).
  destruct (allin str_float theta b) as [r b1]. simpl in *. subst r.
  now exists b1.
Qed.

Lemma cz_returns (a c : Z) (b : mqBuilder) :
  in_range b a -> in_range b c ->
  exists b1,
    cz a c b = (Ok tt, b1) /\
    nbqbits b1 = nbqbits b /\
    mq b1 = (mq b ++ [CZ a c])%list.
Proof.
  intros Ha Hc. unfold cz, bind.
  rewrite (verify_index_ok _ _ Ha), (verify_index_ok _ _ Hc). simpl.
  eexists. repeat split.
Qed.

(** The register calls of the recipe on two qubits. *)
Local Abbreviation recipe_calls x0 x1 p0 p1 p2 p3 :=
  (input_calls 0 x0 ++ input_calls 1 x1 ++ [CZ 0 1]
   ++ input_calls 0 p0 ++ input_calls 1 p1 ++ [CZ 0 1]
   ++ input_calls 0 p2 ++ input_calls 1 p3)%list.

(** X5. On an input row with at least two features and at least four
    parameters, the recipe of the XOR example builds exactly on a
    two-qubit builder: there it returns the builder with two layers of
    parameter gates after the encoding layer, each layer followed or
    preceded by the entangling gate, 20 register calls in all, and one
    more to measure when shots are asked for; on any other qubit count it
    raises. *)
Theorem xor_recipe_builds_on_two_qubits
  (x0 x1 p0 p1 p2 p3 : Q) (xs ps : list Q) (shots : option Z)
  (b : mqBuilder) :
  let x := x0 :: x1 :: xs in
  let params := p0 :: p1 :: p2 :: p3 :: ps in
  let result := make_circuit str_float x params shots b in
  ((exists b', fst result = Ok b') <-> nbqbits b = 2) /\
  (nbqbits b = 2 ->
   fst result = Ok (snd result) /\
   nbqbits (snd result) = 2 /\
   mq (snd result)
   = (mq b ++ recipe_calls x0 x1 p0 p1 p2 p3
        ++ (if truthy shots then [measureAll] else []))%list).
Proof.
  cbv zeta.
  assert (nbqbits b = 2 ->
          exists b',
            make_circuit str_float (x0 :: x1 :: xs)
              (p0 :: p1 :: p2 :: p3 :: ps) shots b = (Ok b', b') /\
            nbqbits b' = 2 /\
            mq b'
            = (mq b ++ recipe_calls x0 x1 p0 p1 p2 p3
                 ++ (if truthy shots then [measureAll] else []))%list)
    as Hbuilds.
  { intros Htwo. unfold make_circuit. unfold bind at 1. simpl.
    destruct (allin_returns [x0; x1] b) as (b1 & E1 & N1 & M1);
      [rewrite Htwo; simpl; lia |].
    unfold bind at 1. rewrite E1.
    destruct (cz_returns 0 1 b1) as (b2 & E2 & N2 & M2);
      [unfold in_range; lia | unfold in_range; lia |].
    unfold bind at 1. rewrite E2.
    unfold bind at 1. simpl.
    destruct (allin_returns [p0; p1] b2) as (b3 & E3 & N3 & M3);
      [rewrite N2, N1, Htwo; simpl; lia |].
    unfold bind at 1. rewrite E3.
    destruct (cz_returns 0 1 b3) as (b4 & E4 & N4 & M4);
      [unfold in_range; lia | unfold in_range; lia |].
    unfold bind at 1. rewrite E4.
    unfold bind at 1. simpl.
    destruct (allin_returns [p2; p3] b4) as (b5 & E5 & N5 & M5);
      [rewrite N4, N3, N2, N1, Htwo; simpl; lia |].
    unfold bind at 1. rewrite E5.
    assert (nbqbits b5 = 2) as N by congruence.
    assert (mq b5 = (mq b ++ recipe_calls x0 x1 p0 p1 p2 p3)%list) as Mq.
    { rewrite M5, M4, M3, M2, M1, N4, N3, N2, N1, Htwo.
      unfold allin_calls. simpl. now rewrite <- !app_assoc. }
    unfold bind, circuit, get, measure_all, mq_do, modify, ret.
    destruct (truthy shots); simpl; eexists; (split; [reflexivity |]);
      simpl; rewrite Mq, N; split; try reflexivity;
      rewrite <- ?app_assoc, ?app_nil_r; reflexivity. }
  split; [split |].
  - intros (b' & Hok).
    destruct (Z.eq_dec (nbqbits b) 2) as [Htwo | Hother]; [exact Htwo |].
    exfalso. revert Hok. unfold make_circuit. unfold bind at 1. simpl.
    destruct (Z_lt_le_dec 2 (nbqbits b)) as [Hmany | Hfew].
    + (* three qubits or more: the third one has no angle *)
      destruct (allin_outcome str_float [x0; x1] b)
        as (_ & Hshort & _).
      unfold bind at 1.
      destruct (allin str_float [x0; x1] b) as [r b1]. simpl in Hshort.
      rewrite Hshort by lia. discriminate.
    + (* fewer than two qubits: no qubit 1 to entangle with *)
      destruct (allin_returns [x0; x1] b) as (b1 & E1 & N1 & M1);
        [simpl; lia |].
      unfold bind at 1. rewrite E1. unfold bind at 1. unfold cz, bind.
      destruct (in_range_dec b1 0) as [H0 | H0].
      * rewrite (verify_index_ok _ _ H0).
        rewrite verify_index_fails; [discriminate |].
        unfold in_range in *. lia.
      * rewrite (verify_index_fails _ _ H0). discriminate.
  - intros Htwo. destruct (Hbuilds Htwo) as (b' & E & _).
    exists b'. now rewrite E.
  - intros Htwo. destruct (Hbuilds Htwo) as (b' & E & N & Mq).
    rewrite E. simpl. repeat split; assumption.
Qed.

End Recipe.

(** ** Binary strings *)

Section BinaryStrings.

Import QC ClassifierTerms.

Lemma list_ascii_of_append (s1 s2 : string) :
  list_ascii_of_string (s1 +:+ s2)
  = (list_ascii_of_string s1 ++ list_ascii_of_string s2)%list.
Proof.
  induction s1 as [| c s1 IH]; [reflexivity |].
  change (c :: list_ascii_of_string (s1 +:+ s2)
          = c :: (list_ascii_of_string s1 ++ list_ascii_of_string s2)%list).
  now rewrite IH.
Qed.

(** The digits [bin] writes: a leading 1, and a digit at the end. *)
Lemma pos_bits_shape (p : positive) :
  let l := list_ascii_of_string (pos_bits p) in
  (exists t, l = "1"%char :: t) /\
  (exists body d, l = (body ++ [d])%list /\ is_bit d).
Proof.
  cbv zeta. induction p as [q IH | q IH |]; simpl pos_bits;
    rewrite ?list_ascii_of_append; simpl.
  - destruct IH as ((t & Ht) & _). rewrite Ht. split.
    + eexists. reflexivity.
    + exists ("1"%char :: t), "1"%char. split; [reflexivity | now right].
  - destruct IH as ((t & Ht) & _). rewrite Ht. split.
    + eexists. reflexivity.
    + exists ("1"%char :: t), "0"%char. split; [reflexivity | now left].
  - split; [now exists [] |].
    exists [], "1"%char. split; [reflexivity | now right].
Qed.

Lemma scan_bits_zero (r : list ascii) (acc : Z) (prev : option ascii) :
  scan_bits ("0"%char :: r) acc prev = scan_bits r (2 * acc) (Some "0"%char).
Proof. reflexivity. Qed.

Lemma scan_bits_one (r : list ascii) (acc : Z) (prev : option ascii) :
  scan_bits ("1"%char :: r) acc prev
  = scan_bits r (2 * acc + 1) (Some "1"%char).
Proof. reflexivity. Qed.

(** Reading the digits [bin] writes gives the number back. *)
Lemma scan_pos_bits (p : positive) :
  exists (w : Z) (d : ascii),
    is_bit d /\
    forall (rest : list ascii) (acc : Z) (prev : option ascii),
      scan_bits (list_ascii_of_string (pos_bits p) ++ rest) acc prev
      = scan_bits rest (acc * w + Zpos p) (Some d).
Proof.
  induction p as [q (w & d & Hd & IH) | q (w & d & Hd & IH) |];
    simpl pos_bits; rewrite ?list_ascii_of_append.
  - exists (2 * w), "1"%char. split; [now right |].
    intros rest acc prev. rewrite <- app_assoc, IH.
    change (list_ascii_of_string "1" ++ rest)%list with ("1"%char :: rest).
    rewrite scan_bits_one. f_equal. lia.
  - exists (2 * w), "0"%char. split; [now left |].
    intros rest acc prev. rewrite <- app_assoc, IH.
    change (list_ascii_of_string "0" ++ rest)%list with ("0"%char :: rest).
    rewrite scan_bits_zero. f_equal. lia.
  - exists 2, "1"%char. split; [now right |].
    intros rest acc prev.
    change (list_ascii_of_string "1" ++ rest)%list with ("1"%char :: rest).
    rewrite scan_bits_one. f_equal. lia.
Qed.

Lemma lstrip_nothing (c : ascii) (l : list ascii) :
  is_space c = false -> lstrip (c :: l) = c :: l.
Proof. intros Hc. simpl. now rewrite Hc. Qed.

Lemma strip_nothing (c d : ascii) (l : list ascii) :
  is_space c = false -> is_space d = false ->
  strip (c :: l ++ [d]) = c :: (l ++ [d])%list.
Proof.
  intros Hc Hd. unfold strip.
  rewrite (lstrip_nothing c _ Hc).
  assert (rev (c :: l ++ [d]) = d :: rev (c :: l)) as ->.
  { change (c :: l ++ [d])%list with ((c :: l) ++ [d])%list.
    now rewrite rev_app_distr. }
  rewrite (lstrip_nothing d _ Hd).
  change (d :: rev (c :: l)) with ([d] ++ rev (c :: l))%list.
  now rewrite rev_app_distr, rev_involutive.
Qed.

Lemma is_bit_not_space (d : ascii) : is_bit d -> is_space d = false.
Proof. now intros [-> | ->]. Qed.

(** X6. [int(bin(z), 2)] is [z] for every integer, negative ones
    included; so the strings that [__info__] keeps of the bitstring codes
    are accepted by the constructor as a [bitstr] and give the same codes
    back. *)
Theorem int_of_bin_roundtrip :
  (forall z : Z, int_base2 (bin z) = Ok z) /\
  (forall zs : list Z,
      zs <> [] ->
      check_bitstr (map (fun z => PyStr (bin z)) zs) = Ok zs).
Proof.
  assert (forall z : Z, int_base2 (bin z) = Ok z) as Hroundtrip.
  { intros [| p | p]; [reflexivity | |].
    - destruct (pos_bits_shape p) as ((t & Hhead) & body & d & Hlast & Hd).
      destruct (scan_pos_bits p) as (w & d' & Hd' & Hscan).
      cbv zeta in Hhead, Hlast.
      unfold int_base2, bin. rewrite list_ascii_of_append. simpl app.
      rewrite Hlast.
      change ("0"%char :: "b"%char :: body ++ [d])%list
        with ("0"%char :: ("b"%char :: body) ++ [d])%list.
      rewrite strip_nothing by (reflexivity || now apply is_bit_not_space).
      simpl app. rewrite <- Hlast, Hhead. cbv iota beta zeta.
      rewrite <- Hhead.
      specialize (Hscan [] 0 None). rewrite app_nil_r in Hscan.
      rewrite Hscan. simpl.
      destruct Hd' as [-> | ->]; reflexivity.
    - destruct (pos_bits_shape p) as ((t & Hhead) & body & d & Hlast & Hd).
      destruct (scan_pos_bits p) as (w & d' & Hd' & Hscan).
      cbv zeta in Hhead, Hlast.
      unfold int_base2, bin. rewrite list_ascii_of_append. simpl app.
      rewrite Hlast.
      change ("-"%char :: "0"%char :: "b"%char :: body ++ [d])%list
        with ("-"%char :: ("0"%char :: "b"%char :: body) ++ [d])%list.
      rewrite strip_nothing by (reflexivity || now apply is_bit_not_space).
      simpl app. rewrite <- Hlast, Hhead. cbv iota beta zeta.
      rewrite <- Hhead.
      specialize (Hscan [] 0 None). rewrite app_nil_r in Hscan.
      rewrite Hscan. simpl.
      destruct Hd' as [-> | ->]; reflexivity. }
  split; [exact Hroundtrip |].
  intros zs Hne.
  assert (forall l : list Z,
             forallb is_str (map (fun z => PyStr (bin z)) l) = true /\
             parse_bits (map (fun z => PyStr (bin z)) l) = Ok l) as Hall.
  { induction l as [| z l (Hstr & Hparse)]; [now split |].
    simpl. rewrite Hstr, Hroundtrip, Hparse. now split. }
  destruct zs as [| z zs]; [congruence |].
  destruct (Hall (z :: zs)) as (Hstr & Hparse).
  unfold check_bitstr. simpl map at 1.
  cbv iota beta. fold (map (fun z => PyStr (bin z)) (z :: zs)).
  now rewrite Hstr, Hparse.
Qed.

End BinaryStrings.

(** ** Construction and rebinding *)

Section ConstructionProperties.

Import QC.

Context {Outside : Type}.

Variable CE_loss : loss_fn.

Lemma parse_bits_ok (bits : list pyval) (zs : list Z) :
  parse_bits bits = Ok zs ->
  length zs = length bits /\ forallb is_str bits = true.
Proof.
  revert zs. induction bits as [| v bits IH]; intros zs H; simpl in H.
  - now injection H as <-.
  - destruct v as [| | | s |]; try discriminate.
    destruct (int_base2 s) as [z | e]; [| discriminate].
    destruct (parse_bits bits) as [zs' | e]; [| discriminate].
    injection H as <-. destruct (IH zs' eq_refl) as (Hlen & Hstr).
    simpl. now rewrite Hlen, Hstr.
Qed.

Lemma parse_bits_of_strings (bits : list pyval) :
  forallb is_str bits = true -> parse_bits bits <> Raised TypeError.
Proof.
  induction bits as [| v bits IH]; intros Hstr; simpl in *; [discriminate |].
  destruct v as [| | | s |]; try discriminate. simpl in Hstr.
  destruct (int_base2 s) as [z | e] eqn:Hint.
  - specialize (IH Hstr).
    destruct (parse_bits bits) as [zs | e]; [discriminate | congruence].
  - unfold int_base2 in Hint. repeat case_match; congruence.
Qed.

Lemma ints_of_length (bits : list pyval) :
  forallb is_int bits = true -> length (ints_of bits) = length bits.
Proof.
  induction bits as [| v bits IH]; intros H; simpl in *; [reflexivity |].
  destruct v; try discriminate. simpl. now rewrite IH.
Qed.

(** The three outcomes of the [bitstr] check. *)
Lemma check_bitstr_outcome (bits : list pyval) :
  (check_bitstr bits = Raised TypeError <->
   bits <> [] /\ forallb is_int bits = false /\ forallb is_str bits = false)
  /\
  (check_bitstr bits = Raised IndexError <-> bits = []) /\
  (forall zs, check_bitstr bits = Ok zs ->
     length zs = length bits /\
     (forallb is_int bits = true /\ zs = ints_of bits \/
      forallb is_str bits = true /\ parse_bits bits = Ok zs)).
Proof.
  assert (forall s, int_base2 s <> Raised IndexError) as Hint.
  { intros s. unfold int_base2. repeat case_match; congruence. }
  assert (forall l, parse_bits l <> Raised IndexError) as Hparse.
  { induction l as [| v l IH]; simpl; [discriminate |].
    destruct v as [| | | s |]; try discriminate.
    specialize (Hint s). destruct (int_base2 s); [| congruence].
    destruct (parse_bits l); [discriminate | congruence]. }
  destruct bits as [| v bits].
  { simpl. repeat split; try congruence; try discriminate.
    intros (H & _). congruence. }
  split; [| split].
  - destruct v as [| z | q | s | f]; unfold check_bitstr.
    + split; [intros _; repeat split; congruence | intros _; reflexivity].
    + destruct (forallb is_int (PyInt z :: bits)) eqn:Hi.
      * split; [discriminate | intros (_ & H & _); discriminate].
      * split; [intros _; repeat split; congruence | reflexivity].
    + split; [intros _; repeat split; congruence | intros _; reflexivity].
    + destruct (forallb is_str (PyStr s :: bits)) eqn:Hs.
      * split; [| intros (_ & _ & H); discriminate].
        intros H. now apply parse_bits_of_strings in H.
      * split; [intros _; repeat split; congruence | reflexivity].
    + split; [intros _; repeat split; congruence | intros _; reflexivity].
  - split; [| discriminate]. unfold check_bitstr.
    destruct v as [| z | q | s | f]; try discriminate.
    + destruct (forallb is_int _); discriminate.
    + destruct (forallb is_str _); [| discriminate].
      intros H. now apply Hparse in H.
  - intros zs. unfold check_bitstr.
    destruct v as [| z | q | s | f]; try discriminate.
    + destruct (forallb is_int _) eqn:Hi; [| discriminate].
      intros H. injection H as <-.
      split; [now apply (ints_of_length (PyInt z :: bits)) | now left].
    + destruct (forallb is_str _) eqn:Hs; [| discriminate].
      intros H. split; [now apply parse_bits_ok in H | now right].
Qed.

(** X7. A [bitstr] list is rejected with a type error exactly when it is
    not empty and is neither all integers nor all strings; an empty list
    is an index error; an accepted list gives one code per entry. *)
Theorem bitstr_must_be_homogeneous (bits : list pyval) :
  (check_bitstr bits = Raised TypeError <->
   bits <> [] /\ forallb is_int bits = false /\ forallb is_str bits = false)
  /\
  (check_bitstr bits = Raised IndexError <-> bits = []) /\
  (forall zs, check_bitstr bits = Ok zs ->
     length zs = length bits /\
     (forallb is_int bits = true /\ zs = ints_of bits \/
      forallb is_str bits = true /\ parse_bits bits = Ok zs)).
Proof. exact (check_bitstr_outcome bits). Qed.

(** X8. What a construction that returns guarantees: a non-empty
    [bitstr] with one code per declared entry, a shot budget that is
    either absent or at least 1 (anything below 1 becomes absent), a
    budget recorded as such in [__info__] with the codes in binary, no
    circuit run counted, the minimum loss at infinity, empty logs, and no
    iteration counter or progress bar.  With [params] given, they are the
    model's parameters and nothing is drawn from the outside. *)
Theorem constructor_postconditions
  (circ : option (@circuitML Outside)) (bits : list pyval)
  (kw : init_kwargs) (o o' : Outside) (c : Classifier) :
  __init__ CE_loss circ bits kw o = (Ok c, o') ->
  circ = Some (circuit c) /\
  bits <> [] /\
  length (bitstr c) = length bits /\
  match nbshots c with Some k => 1 <= k | None => True end /\
  info_nbshots (__info__ c) = nbshots c /\
  info_bitstr (__info__ c) = map bin (bitstr c) /\
  nfev c = 0 /\
  __min_loss__ c = Inf /\
  __loss_progress__ c = [] /\
  __output_progress__ c = [] /\
  __params_progress__ c = [] /\
  __n_iter__ c = None /\
  pbar c = None /\
  (forall p, kw_params kw = Some p -> params c = p /\ o' = o).
Proof.
  unfold __init__, __verify_circuit__. unfold_monad.
  destruct circ as [c0 |]; [| discriminate].
  destruct (check_bitstr bits) as [zs | e] eqn:Hbits; [| discriminate].
  destruct (check_bitstr_outcome bits) as (_ & Hempty & Hcodes).
  destruct (Hcodes zs Hbits) as (Hlen & _).
  assert (bits <> []) as Hne.
  { intros ->. destruct Hempty as (_ & Hraise).
    rewrite (Hraise eq_refl) in Hbits. discriminate. }
  assert (forall v k, check_nbshots v = Ok (Some k) -> 1 <= k) as Hshots.
  { intros v k. unfold check_nbshots.
    destruct v as [| z | | |]; try discriminate.
    destruct (z <? 1) eqn:Hz; [discriminate |].
    intros H. injection H as <-. apply Z.ltb_ge in Hz. exact Hz. }
  destruct (kw_params kw) as [p |] eqn:Hp.
  - destruct (check_nbshots (kw_nbshots kw)) as [shots | e] eqn:Hs;
      [| discriminate].
    destruct (check_incr_delay _) as [delay | e]; [| discriminate].
    destruct (check_budget _) as [budget | e]; [| discriminate].
    intros H. injection H as <- <-. simpl.
    repeat split; try assumption.
    + destruct shots as [k |]; [now apply (Hshots _ _ Hs) | exact I].
    + congruence.
  - destruct (random_params c0 o) as [[p | e] o1]; [| discriminate].
    destruct (check_nbshots (kw_nbshots kw)) as [shots | e] eqn:Hs;
      [| discriminate].
    destruct (check_incr_delay _) as [delay | e]; [| discriminate].
    destruct (check_budget _) as [budget | e]; [| discriminate].
    intros H. injection H as <- <-. simpl.
    repeat split; try assumption; try discriminate.
    destruct shots as [k |]; [now apply (Hshots _ _ Hs) | exact I].
Qed.

End ConstructionProperties.

(** ** Prediction *)

Section PredictionProperties.

Import QC ClassifierTerms.

Context {Outside : Type}.

Lemma column_index_spec (n : nat) (j : Z) :
  (column_in_range n j ->
   exists i, column_index n j = Ok i /\ (i < n)%nat) /\
  (~ column_in_range n j -> column_index n j = Raised IndexError).
Proof.
  unfold column_in_range, column_index.
  destruct (0 <=? j) eqn:H0; destruct (j <? Z.of_nat n) eqn:H1;
    destruct (- Z.of_nat n <=? j) eqn:H2; destruct (j <? 0) eqn:H3;
    simpl;
    repeat match goal with
           | H : (_ <=? _) = true |- _ => apply Z.leb_le in H
           | H : (_ <=? _) = false |- _ => apply Z.leb_gt in H
           | H : (_ <? _) = true |- _ => apply Z.ltb_lt in H
           | H : (_ <? _) = false |- _ => apply Z.ltb_ge in H
           end;
    split; intros; try lia; try reflexivity;
    eexists; (split; [reflexivity | lia]).
Qed.

Lemma column_indices_spec (n : nat) (cols : list Z) :
  (Forall (column_in_range n) cols ->
   exists js,
     column_indices n cols = Ok js /\
     length js = length cols /\ Forall (fun i => (i < n)%nat) js) /\
  (~ Forall (column_in_range n) cols ->
   column_indices n cols = Raised IndexError).
Proof.
  induction cols as [| j cols (IHok & IHbad)]; simpl.
  - split; [intros _; now exists [] |].
    intros H. exfalso. apply H. constructor.
  - destruct (column_index_spec n j) as (Hin & Hout). split.
    + intros Hall. inversion Hall as [| ? ? Hj Hrest]; subst.
      destruct (Hin Hj) as (i & -> & Hi).
      destruct (IHok Hrest) as (js & -> & Hlen & Hjs).
      exists (i :: js). repeat split; simpl; [lia | now constructor].
    + intros Hnot.
      assert (Hdec : column_in_range n j \/ ~ column_in_range n j)
        by (unfold column_in_range; lia).
      destruct Hdec as [Hj | Hj].
      * destruct (Hin Hj) as (i & -> & _).
        rewrite IHbad; [reflexivity |].
        intros Hrest. apply Hnot. now constructor.
      * now rewrite (Hout Hj).
Qed.

Lemma columns_in_range_dec (n : nat) (cols : list Z) :
  Forall (column_in_range n) cols \/ ~ Forall (column_in_range n) cols.
Proof.
  induction cols as [| j cols [IH | IH]].
  - left. constructor.
  - assert (Hdec : column_in_range n j \/ ~ column_in_range n j)
      by (unfold column_in_range; lia).
    destruct Hdec as [Hj | Hj]; [left; now constructor | right].
    intros H. now inversion H.
  - right. intros H. now inversion H.
Qed.

(** [predict_proba] after a backend run that returned. *)
Lemma predict_proba_outcome
  (X : matrix) (p : option vector) (w : @World Outside)
  (out : matrix) (o1 : Outside) :
  let c := self w in
  let used := match p with None => params c | Some q => q end in
  run (circuit c) X used (nbshots c) (job_size c) (outside w)
    = (Ok out, o1) ->
  (Forall (column_in_range (ncols out)) (bitstr c) ->
   exists m,
     fst (predict_proba X p w) = Ok m /\
     ncols m = length (bitstr c) /\
     length (rows m) = length (rows out) /\
     Forall (fun r => length r = length (bitstr c)) (rows m)) /\
  (~ Forall (column_in_range (ncols out)) (bitstr c) ->
   fst (predict_proba X p w) = Raised IndexError).
Proof.
  cbv zeta. intros Hrun.
  unfold predict_proba, run_circuit. unfold_monad. simpl.
  rewrite Hrun. simpl.
  set (scaled := match nbshots (self w) with
                 | Some k => if negb (k =? 0) then mat_div out k else out
                 | None => out
                 end).
  assert (ncols scaled = ncols out /\
          length (rows scaled) = length (rows out)) as (Hcols & Hrows).
  { unfold scaled. destruct (nbshots (self w)) as [k |]; [| now split].
    destruct (negb (k =? 0)); [| now split].
    simpl. now rewrite length_map. }
  unfold take_columns. rewrite Hcols.
  destruct (column_indices_spec (ncols out) (bitstr (self w)))
    as (Hok & Hbad).
  split.
  - intros Hall. destruct (Hok Hall) as (js & -> & Hlen & _). simpl.
    eexists. split; [reflexivity |]. simpl.
    rewrite length_map. repeat split; [assumption |].
    apply List.Forall_forall. intros r Hr. apply List.in_map_iff in Hr.
    destruct Hr as (r0 & <- & _). now rewrite length_map.
  - intros Hnot. now rewrite (Hbad Hnot).
Qed.

(** X9. When the backend returns, [predict_proba] succeeds exactly when
    every code of [bitstr] names a column of the backend's output,
    counting from the end for negative codes; the result then has one
    column per declared class and one row per row of the output.  With a
    code outside the output it raises an index error. *)
Theorem predict_proba_selects_declared_columns
  (X : matrix) (p : option vector) (w : @World Outside)
  (out : matrix) (o1 : Outside) :
  let c := self w in
  let used := match p with None => params c | Some q => q end in
  run (circuit c) X used (nbshots c) (job_size c) (outside w)
    = (Ok out, o1) ->
  (Forall (column_in_range (ncols out)) (bitstr c) ->
   exists m,
     fst (predict_proba X p w) = Ok m /\
     ncols m = length (bitstr c) /\
     length (rows m) = length (rows out) /\
     Forall (fun r => length r = length (bitstr c)) (rows m)) /\
  (~ Forall (column_in_range (ncols out)) (bitstr c) ->
   fst (predict_proba X p w) = Raised IndexError).
Proof. exact (predict_proba_outcome X p w out o1). Qed.

Lemma argmax_from_lt (l : list Q) :
  forall (best : Q) (besti i : nat),
    (besti < i)%nat -> (argmax_from best besti i l < i + length l)%nat.
Proof.
  induction l as [| x l IH]; intros best besti i Hlt; simpl; [lia |].
  destruct (Qltb best x).
  - specialize (IH x i (S i)). lia.
  - specialize (IH best besti (S i)). lia.
Qed.

(** X10. The labels [predict] returns are class indices: one for each
    row of the backend's output, each smaller than the number of declared
    bitstrings. *)
Theorem predict_returns_class_indices
  (X : matrix) (w w' : @World Outside) (labels : list nat) :
  predict X w = (Ok labels, w') ->
  Forall (fun l => (l < length (bitstr (self w)))%nat) labels /\
  exists out,
    fst (run (circuit (self w)) X (params (self w)) (nbshots (self w))
           (job_size (self w)) (outside w)) = Ok out /\
    length labels = length (rows out).
Proof.
  unfold predict, bind. intros H.
  destruct (predict_proba X None w) as [[m | e] w1] eqn:Hp;
    [| discriminate].
  destruct (run (circuit (self w)) X (params (self w)) (nbshots (self w))
              (job_size (self w)) (outside w)) as [[out | e] o1] eqn:Hrun.
  2: { revert Hp. unfold predict_proba, run_circuit. unfold_monad. simpl.
       rewrite Hrun. discriminate. }
  destruct (predict_proba_outcome X None w out o1 Hrun)
    as (Hok & Hbad).
  destruct (columns_in_range_dec (ncols out) (bitstr (self w)))
    as [Hall | Hnot].
  2: { rewrite Hp in Hbad. simpl in Hbad. specialize (Hbad Hnot).
       discriminate. }
  destruct (Hok Hall) as (m' & Hm & Hcols & Hrows & Hwidth).
  rewrite Hp in Hm. simpl in Hm. injection Hm as <-.
  unfold lift, proba_to_label in H.
  destruct (ncols m =? 0)%nat eqn:Hzero; [discriminate |].
  injection H as <- <-. apply Nat.eqb_neq in Hzero.
  split.
  - apply List.Forall_forall. intros l Hl. apply List.in_map_iff in Hl.
    destruct Hl as (r & <- & Hr).
    rewrite List.Forall_forall in Hwidth. specialize (Hwidth r Hr).
    destruct r as [| x r]; simpl in *; [lia |].
    pose proof (argmax_from_lt r x 0%nat 1%nat ltac:(lia)). lia.
  - exists out. split; [reflexivity |]. now rewrite length_map.
Qed.

End PredictionProperties.

Section ArgMax.

Lemma Qltb_lt (a b : Q) : Qltb a b = true <-> (a < b)%Q.
Proof. unfold Qltb, Qlt. apply Z.ltb_lt. Qed.

Lemma Qltb_ge (a b : Q) : Qltb a b = false <-> (b <= a)%Q.
Proof. unfold Qltb, Qle. apply Z.ltb_ge. Qed.

(** The scan of [argmax], with [seen] the entries already read. *)
Lemma argmax_from_spec (l : list Q) :
  forall (seen : list Q) (best : Q) (besti : nat),
    (besti < length seen)%nat ->
    nth besti seen 0%Q = best ->
    (forall j, (j < length seen)%nat -> (nth j seen 0 <= best)%Q) ->
    (forall j, (j < besti)%nat -> (nth j seen 0 < best)%Q) ->
    let row := (seen ++ l)%list in
    let a := argmax_from best besti (length seen) l in
    (a < length row)%nat /\
    (forall j, (j < length row)%nat -> (nth j row 0 <= nth a row 0)%Q) /\
    (forall j, (j < a)%nat -> (nth j row 0 < nth a row 0)%Q).
Proof.
  induction l as [| x l IH]; intros seen best besti Hi Hbest Hle Hlt;
    cbv zeta; simpl.
  - rewrite app_nil_r, Hbest. repeat split; assumption.
  - assert (length (seen ++ [x]) = S (length seen)) as Hlen
      by (rewrite length_app; simpl; lia).
    assert ((seen ++ x :: l) = ((seen ++ [x]) ++ l))%list as ->
      by now rewrite <- app_assoc.
    assert (forall j, (j < length seen)%nat ->
                      nth j (seen ++ [x]) 0%Q = nth j seen 0%Q) as Hold
      by (intros j Hj; now rewrite app_nth1).
    assert (nth (length seen) (seen ++ [x]) 0%Q = x) as Hnew
      by (rewrite app_nth2, Nat.sub_diag by lia; reflexivity).
    destruct (Qltb best x) eqn:Hcmp.
    + apply Qltb_lt in Hcmp. rewrite <- Hlen.
      apply (IH (seen ++ [x])%list x (length seen)).
      * lia.
      * exact Hnew.
      * intros j Hj. rewrite Hlen in Hj.
        destruct (Nat.eq_dec j (length seen)) as [-> | Hne].
        -- rewrite Hnew. apply Qle_refl.
        -- rewrite Hold by lia. apply Qlt_le_weak.
           eapply Qle_lt_trans; [apply Hle; lia | exact Hcmp].
      * intros j Hj. rewrite Hold by lia.
        eapply Qle_lt_trans; [apply Hle; lia | exact Hcmp].
    + apply Qltb_ge in Hcmp. rewrite <- Hlen.
      apply (IH (seen ++ [x])%list best besti).
      * lia.
      * rewrite Hold by lia. exact Hbest.
      * intros j Hj. rewrite Hlen in Hj.
        destruct (Nat.eq_dec j (length seen)) as [-> | Hne].
        -- rewrite Hnew. exact Hcmp.
        -- rewrite Hold by lia. apply Hle. lia.
      * intros j Hj. rewrite Hold by lia. now apply Hlt.
Qed.

(** [np.argmax] of a row is a position of its largest entry, and the
    first such position. *)
Lemma argmax_is_first_maximum (row : list Q) :
  row <> [] ->
  let a := argmax row in
  (a < length row)%nat /\
  (forall j, (j < length row)%nat -> (nth j row 0 <= nth a row 0)%Q) /\
  (forall j, (j < a)%nat -> (nth j row 0 < nth a row 0)%Q).
Proof.
  destruct row as [| x row]; [congruence | intros _].
  cbv zeta. unfold argmax.
  apply (argmax_from_spec row [x] x 0%nat).
  - simpl. lia.
  - reflexivity.
  - intros [| j] Hj; simpl in *; [apply Qle_refl | lia].
  - intros j Hj. lia.
Qed.

(** X11. [proba_to_label] gives one label per row of the matrix, and the
    label of a row is the first position of its largest entry: no entry
    of the row is larger than the one at the label, and every entry
    before it is strictly smaller, so ties go to the smaller class
    index. *)
Theorem proba_to_label_picks_first_maximum (proba : matrix)
  (labels : list nat) :
  QC.proba_to_label proba = Ok labels ->
  length labels = length (rows proba) /\
  forall (i : nat) (row : list Q),
    nth_error (rows proba) i = Some row ->
    row <> [] ->
    exists a,
      nth_error labels i = Some a /\
      (a < length row)%nat /\
      (forall j, (j < length row)%nat -> (nth j row 0 <= nth a row 0)%Q) /\
      (forall j, (j < a)%nat -> (nth j row 0 < nth a row 0)%Q).
Proof.
  unfold QC.proba_to_label.
  destruct (ncols proba =? 0)%nat; [discriminate |].
  intros H. injection H as <-.
  split; [apply length_map |].
  intros i row Hrow Hne. exists (argmax row).
  split; [rewrite List.nth_error_map, Hrow; reflexivity |].
  now apply argmax_is_first_maximum.
Qed.

End ArgMax.

(** ** Training, continued *)

Section TrainingProperties.

Import QC ClassifierTerms.

Context {Outside : Type}.

Local Abbreviation World := (@World Outside).

Variable np_random_seed : Z -> M Outside unit.
Variable np_random_choice : list nat -> Z -> M Outside (list nat).
Variable scipy_minimize :
  string -> vector -> option (list bound) -> options_dict -> optimizer.

Local Abbreviation fit_entry := (fit_entry np_random_seed).
Local Abbreviation to_optimize := (to_optimize np_random_choice).
Local Abbreviation fit_minimize :=
  (fit_minimize np_random_choice scipy_minimize).
Local Abbreviation fit :=
  (fit np_random_seed np_random_choice scipy_minimize).

(** *** Circuit runs are counted once per objective evaluation *)

Lemma minimize_loop_nfev (input : matrix) (target : list Z)
  (L : fit_locals) (callback : option (vector -> M World unit))
  (o : optimizer) :
  (forall cb xk w w',
      callback = Some cb -> cb xk w = (Ok tt, w') ->
      nfev (self w') = nfev (self w)) ->
  forall (n0 nit : nat) (w w' : World) (r : OptimizeResult),
    minimize_loop o (to_optimize input target L) callback n0 nit w
      = (Ok r, w') ->
    (n0 <= res_nfev r)%nat /\
    nfev (self w') = nfev (self w) + Z.of_nat (res_nfev r - n0).
Proof.
  intros Hcb.
  induction o as [x k IH | xk k IH | x | e]; intros n0 nit w w' r Hrun;
    simpl in Hrun.
  - destruct (to_optimize input target L x w) as [[l | e] w1] eqn:Hstep;
      [| discriminate].
    apply IH in Hrun as (Hle & Hcount).
    apply to_optimize_ok in Hstep
      as (n & _ & _ & _ & _ & _ & _ & _ & Hone & _).
    split; [lia |]. rewrite Hcount, Hone. lia.
  - destruct callback as [cb |].
    + destruct (cb xk w) as [[[] | e] w1] eqn:Hstep; [| discriminate].
      apply IH in Hrun as (Hle & Hcount).
      split; [lia |]. rewrite Hcount. now rewrite (Hcb _ _ _ _ eq_refl Hstep).
    + now apply IH in Hrun.
  - unfold ret in Hrun. simplify_eq/=. split; [lia |]. lia.
  - discriminate.
Qed.

Lemma fit_exit_info (target : list Z) (L : fit_locals) (r : OptimizeResult)
  (w w' : World) :
  fit_exit target L r w = (Ok tt, w') ->
  nfev (self w') = nfev (self w) /\
  info_nfev (__info__ (self w')) = Some (nfev (self w)) /\
  info_n_iter (__info__ (self w')) = __n_iter__ (self w) /\
  pbar (self w') = None.
Proof.
  unfold fit_exit. unfold_monad. simpl.
  repeat case_match; intros; simplify_eq/=; repeat split; congruence.
Qed.

(** X12. A training call that returns has run the circuit exactly once
    for each objective evaluation of the optimizer: [nfev] has grown by
    that number, and [__info__] holds the new [nfev] and the number of
    callbacks that ran. *)
Theorem fit_counts_one_run_per_evaluation (input : matrix)
  (target : list Z) (bs : option Z) (kw : fit_kwargs) (w w' : World) :
  fit input target bs kw w = (Ok tt, w') ->
  exists L w1 r w2,
    fit_entry target bs kw w = (Ok L, w1) /\
    fit_minimize input target kw L w1 = (Ok r, w2) /\
    nfev (self w') = nfev (self w) + Z.of_nat (res_nfev r) /\
    info_nfev (__info__ (self w')) = Some (nfev (self w')) /\
    info_n_iter (__info__ (self w')) = __n_iter__ (self w2).
Proof.
  intros H.
  apply fit_phases in H as (L & w1 & r & w2 & Hentry & Hmin & Hexit).
  exists L, w1, r, w2. split; [assumption |]. split; [assumption |].
  apply fit_exit_info in Hexit as (Hsame & Hinfo & Hiter & _).
  pose proof (fit_entry_self _ _ _ _ _ _ _ Hentry) as Hself.
  assert (nfev (self w1) = nfev (self w)) as Hstart by now rewrite Hself.
  unfold QC.fit_minimize in Hmin. unfold_monad.
  cbv beta iota zeta in Hmin.
  apply minimize_loop_nfev in Hmin as (_ & Hcount).
  - rewrite Hsame, Hinfo, Hiter, Hcount, Hstart, Nat.sub_0_r.
    repeat split.
  - intros cb xk v v' Hreg Hcall.
    destruct (negb (contains "cobyla" (lower (method L))));
      [| discriminate].
    injection Hreg as <-.
    now apply callback_frame in Hcall as (_ & _ & _ & _ & Hkeep).
Qed.

(** *** What training leaves alone *)

Lemma left_alone_refl (w : World) : left_alone w w.
Proof. repeat split. Qed.

Lemma left_alone_trans (w1 w2 w3 : World) :
  left_alone w1 w2 -> left_alone w2 w3 -> left_alone w1 w3.
Proof.
  unfold left_alone, same_configuration.
  intros (H1 & F1) (H2 & F2). split.
  - intuition congruence.
  - intros Hpath. rewrite F2, F1; try assumption; try reflexivity.
    destruct H1 as (_ & _ & _ & _ & _ & _ & _ & _ & _ & ->). exact Hpath.
Qed.

Lemma callback_leaves_alone (p : vector) (loss output : bool)
  (w w' : World) (r : outcome unit) :
  __callback__ p loss output w = (r, w') -> left_alone w w'.
Proof.
  unfold __callback__, save, left_alone, same_configuration.
  unfold_monad. simpl.
  repeat case_match; intros; simplify_eq/=; repeat split;
    try discriminate; try congruence.
  all: intros Hoff;
    match goal with
    | Hon : truthy_str _ && _ = true |- _ =>
        rewrite Hoff in Hon; discriminate
    end.
Qed.

Lemma to_optimize_leaves_alone (input : matrix) (target : list Z)
  (L : fit_locals) (p : vector) (w w' : World) (r : outcome xfloat) :
  to_optimize input target L p w = (r, w') -> left_alone w w'.
Proof.
  unfold QC.to_optimize, predict_proba, run_circuit.
  unfold_monad. simpl. intros H.
  repeat (case_match; simplify_eq/=; try discriminate).
  all: try match goal with
       | Hcb : __callback__ _ _ _ _ = _ |- _ =>
           apply callback_leaves_alone in Hcb;
           eapply left_alone_trans; [| exact Hcb]
       end.
  all: repeat split.
Qed.

Lemma minimize_loop_leaves_alone (input : matrix) (target : list Z)
  (L : fit_locals) (registered : bool) (o : optimizer) :
  let callback :=
    if registered
    then Some (fun xk => __callback__ xk (save_loss_progress L)
                           (truthy_str (save_output_progress L)))
    else None in
  forall (n0 nit : nat) (w w' : World) (r : outcome OptimizeResult),
    minimize_loop o (to_optimize input target L) callback n0 nit w
      = (r, w') ->
    left_alone w w'.
Proof.
  cbv zeta.
  induction o as [x k IH | xk k IH | x | e]; intros n0 nit w w' r Hrun;
    simpl in Hrun.
  - destruct (to_optimize input target L x w) as [[l | e] w1] eqn:Hstep;
      apply to_optimize_leaves_alone in Hstep.
    + eapply left_alone_trans; [exact Hstep | eapply IH, Hrun].
    + now simplify_eq/=.
  - destruct registered.
    + destruct (__callback__ xk _ _ w) as [[[] | e] w1] eqn:Hstep;
        apply callback_leaves_alone in Hstep.
      * eapply left_alone_trans; [exact Hstep | eapply IH, Hrun].
      * now simplify_eq/=.
    + eapply IH, Hrun.
  - unfold ret in Hrun. simplify_eq/=. apply left_alone_refl.
  - unfold raise in Hrun. simplify_eq/=. apply left_alone_refl.
Qed.

Lemma fit_entry_leaves_alone (target : list Z) (bs : option Z)
  (kw : fit_kwargs) (w w' : World) (r : outcome fit_locals) :
  fit_entry target bs kw w = (r, w') -> left_alone w w'.
Proof.
  unfold QC.fit_entry, left_alone, same_configuration.
  unfold_monad. simpl.
  repeat case_match; intros; simplify_eq/=; repeat split.
Qed.

Lemma fit_exit_leaves_alone (target : list Z) (L : fit_locals)
  (mini_out : OptimizeResult) (w w' : World) (r : outcome unit) :
  fit_exit target L mini_out w = (r, w') ->
  same_configuration (self w) (self w') /\
  (truthy_str (save_output_progress L) = false -> files w' = files w).
Proof.
  unfold fit_exit, same_configuration. unfold_monad. simpl.
  repeat case_match; intros; simplify_eq/=; repeat split;
    try discriminate; try congruence.
Qed.

(** X13. Training never touches the configuration of the classifier:
    whether [fit] returns or raises, the circuit, the bitstring codes, the
    shot policy and its delay, the budget, the job size, the loss
    function, the name and the checkpoint path are what they were.  And
    when neither a checkpoint path nor an output-progress path is
    configured, it writes no file. *)
Theorem fit_leaves_configuration_and_files (input : matrix)
  (target : list Z) (bs : option Z) (kw : fit_kwargs) (w w' : World)
  (r : outcome unit) :
  fit input target bs kw w = (r, w') ->
  same_configuration (self w) (self w') /\
  (truthy_str (__save_path__ (self w)) = false ->
   truthy_str (kw_save_output_progress kw) = false ->
   files w' = files w).
Proof.
  unfold QC.fit, bind. intros H.
  destruct (fit_entry target bs kw w) as [[L | e] w1] eqn:Hentry.
  2: { simplify_eq/=. apply fit_entry_leaves_alone in Hentry.
       split; [apply Hentry | intros Hp _; now apply Hentry]. }
  pose proof (fit_entry_locals _ _ _ _ _ _ _ Hentry) as (_ & _ & _ & Hsop).
  apply fit_entry_leaves_alone in Hentry.
  destruct (fit_minimize input target kw L w1) as [[res | e] w2] eqn:Hmin.
  - unfold QC.fit_minimize in Hmin. unfold_monad.
    cbv beta iota zeta in Hmin.
    apply minimize_loop_leaves_alone in Hmin.
    pose proof (left_alone_trans _ _ _ Hentry Hmin) as (Hconf & Hfiles).
    apply fit_exit_leaves_alone in H as (Hconf' & Hfiles').
    split.
    + unfold same_configuration in *. intuition congruence.
    + intros Hp Ht. rewrite Hfiles' by congruence. now apply Hfiles.
  - simplify_eq/=.
    unfold QC.fit_minimize in Hmin. unfold_monad.
    cbv beta iota zeta in Hmin.
    apply minimize_loop_leaves_alone in Hmin.
    pose proof (left_alone_trans _ _ _ Hentry Hmin) as (Hconf & Hfiles).
    split; [exact Hconf | intros Hp _; now apply Hfiles].
Qed.

(** *** The remembered minimum *)

Lemma Qltb_irrefl (a : Q) : Qltb a a = false.
Proof. unfold Qltb. apply Z.ltb_irrefl. Qed.

Lemma xle_refl (a : xfloat) : xle a a.
Proof. unfold xle. destruct a; simpl; [apply Qltb_irrefl | reflexivity]. Qed.

Lemma xlt_xle (a b : xfloat) : xlt a b = true -> xle a b.
Proof.
  unfold xle. destruct a as [x |], b as [y |]; simpl; try congruence.
  intros H. apply Qltb_lt in H. apply Qltb_ge. now apply Qlt_le_weak.
Qed.

Lemma xle_trans (a b c : xfloat) : xle a b -> xle b c -> xle a c.
Proof.
  unfold xle. destruct a as [x |], b as [y |], c as [z |]; simpl;
    try congruence.
  intros H1 H2. apply Qltb_ge in H1, H2. apply Qltb_ge.
  eapply Qle_trans; eassumption.
Qed.

Lemma to_optimize_min_loss (input : matrix) (target : list Z)
  (L : fit_locals) (p : vector) (w w' : World) (r : outcome xfloat) :
  to_optimize input target L p w = (r, w') ->
  xle (__min_loss__ (self w')) (__min_loss__ (self w)).
Proof.
  unfold QC.to_optimize, predict_proba, run_circuit.
  unfold_monad. simpl. intros H.
  repeat (case_match; simplify_eq/=; try discriminate).
  all: try match goal with
       | Hcb : __callback__ _ _ _ _ = _ |- _ =>
           apply callback_frame in Hcb as (_ & _ & -> & _)
       end.
  all: simpl; try apply xle_refl; now apply xlt_xle.
Qed.

Lemma minimize_loop_min_loss (input : matrix) (target : list Z)
  (L : fit_locals) (registered : bool) (o : optimizer) :
  let callback :=
    if registered
    then Some (fun xk => __callback__ xk (save_loss_progress L)
                           (truthy_str (save_output_progress L)))
    else None in
  forall (n0 nit : nat) (w w' : World) (r : outcome OptimizeResult),
    minimize_loop o (to_optimize input target L) callback n0 nit w
      = (r, w') ->
    xle (__min_loss__ (self w')) (__min_loss__ (self w)).
Proof.
  cbv zeta.
  induction o as [x k IH | xk k IH | x | e]; intros n0 nit w w' r Hrun;
    simpl in Hrun.
  - destruct (to_optimize input target L x w) as [[l | e] w1] eqn:Hstep;
      apply to_optimize_min_loss in Hstep.
    + eapply xle_trans; [eapply IH, Hrun | exact Hstep].
    + now simplify_eq/=.
  - destruct registered.
    + destruct (__callback__ xk _ _ w) as [[[] | e] w1] eqn:Hstep;
        apply callback_frame in Hstep as (_ & _ & Hmin & _).
      * rewrite <- Hmin. eapply IH, Hrun.
      * simplify_eq/=. rewrite Hmin. apply xle_refl.
    + eapply IH, Hrun.
  - unfold ret in Hrun. simplify_eq/=. apply xle_refl.
  - unfold raise in Hrun. simplify_eq/=. apply xle_refl.
Qed.

Lemma fit_exit_min_loss (target : list Z) (L : fit_locals)
  (mini_out : OptimizeResult) (w w' : World) (r : outcome unit) :
  fit_exit target L mini_out w = (r, w') ->
  __min_loss__ (self w') = __min_loss__ (self w).
Proof.
  unfold fit_exit. unfold_monad. simpl.
  repeat case_match; intros; simplify_eq/=; reflexivity.
Qed.

Lemma fit_entry_min_loss (target : list Z) (bs : option Z)
  (kw : fit_kwargs) (w w' : World) (r : outcome fit_locals) :
  fit_entry target bs kw w = (r, w') ->
  __min_loss__ (self w') = __min_loss__ (self w).
Proof.
  unfold QC.fit_entry. unfold_monad. simpl.
  repeat case_match; intros; simplify_eq/=; reflexivity.
Qed.

(** X14. The minimum loss a classifier remembers never goes up: after a
    call of [fit], returned or raised, [__min_loss__] is at most what it
    was before the call, so over any sequence of training calls it only
    decreases. *)
Theorem min_loss_never_increases (input : matrix) (target : list Z)
  (bs : option Z) (kw : fit_kwargs) (w w' : World) (r : outcome unit) :
  fit input target bs kw w = (r, w') ->
  xle (__min_loss__ (self w')) (__min_loss__ (self w)).
Proof.
  unfold QC.fit, bind. intros H.
  destruct (fit_entry target bs kw w) as [[L | e] w1] eqn:Hentry;
    apply fit_entry_min_loss in Hentry.
  2: { simplify_eq/=. rewrite Hentry. apply xle_refl. }
  destruct (fit_minimize input target kw L w1) as [[res | e] w2] eqn:Hmin;
    unfold QC.fit_minimize in Hmin; unfold_monad;
    cbv beta iota zeta in Hmin;
    apply minimize_loop_min_loss in Hmin; rewrite Hentry in Hmin.
  - apply fit_exit_min_loss in H. now rewrite H.
  - now simplify_eq/=.
Qed.

(** *** Edge cases of the shot policy *)

(** X15. With exact probabilities ([nbshots] absent) a float or int
    increment cannot be applied: an objective evaluation at a counter that
    is a multiple of the delay (the first evaluation of every call is, at
    counter 0) raises a type error before any circuit run, leaving the
    classifier as it was.  A delay of 0 raises a division error whatever
    the budget is. *)
Theorem numeric_increment_needs_a_shot_budget (input : matrix)
  (target : list Z) (L : fit_locals) (p : vector) (w : World)
  (drawn : list nat) (o1 : Outside) (k : Z) :
  let c := self w in
  let numeric :=
    match nbshots_increment c with
    | ScaleShots _ | AddShots _ => True
    | _ => False
    end in
  let after_draw := {| self := c; outside := o1; files := files w |} in
  np_random_choice (indices L) (batch_size L) (outside w) = (Ok drawn, o1) ->
  __n_iter__ c = Some k ->
  numeric ->
  (nbshots_incr_delay c = 0 ->
   to_optimize input target L p w = (Raised ZeroDivisionError, after_draw)) /\
  (nbshots_incr_delay c <> 0 ->
   k mod nbshots_incr_delay c = 0 ->
   nbshots c = None ->
   to_optimize input target L p w = (Raised TypeError, after_draw)).
Proof.
  cbv zeta. intros Hdraw Hk Hnum.
  unfold QC.to_optimize, call_nbshots_increment. unfold_monad. simpl.
  rewrite Hdraw. simpl. rewrite Hk. simpl.
  destruct (nbshots_increment (self w)) as [| f | s | v]; try contradiction.
  - split.
    + intros ->. reflexivity.
    + intros HK Hdue Hnone. apply Z.eqb_neq in HK.
      rewrite HK, Hdue, Hnone. reflexivity.
  - split.
    + intros ->. reflexivity.
    + intros HK Hdue Hnone. apply Z.eqb_neq in HK.
      rewrite HK, Hdue, Hnone. reflexivity.
Qed.

(** *** The callback *)

(** X16. A checkpoint and the report agree: when [save] returns, the
    file it wrote, at the path it was given or else at the configured
    checkpoint path, holds the very record that [info_dict] reports then,
    under the model's name or the default one; [save] has changed neither
    the classifier nor any other file, and [info_dict] changes nothing.
    With neither path [save] raises a type error and writes nothing. *)
Theorem save_writes_what_info_dict_reports (path : option string)
  (w : World) :
  let target :=
    match path with Some p => Some p | None => __save_path__ (self w) end in
  (target = None -> save path w = (Raised TypeError, w)) /\
  (forall w',
      save path w = (Ok tt, w') ->
      exists p record,
        target = Some p /\
        info_dict w'
        = (Ok (match __name__ (self w) with
               | Some s => s
               | None => "quantumClassifier"
               end, record), w') /\
        files w' !! p = Some (Pickle record) /\
        self w' = self w /\
        outside w' = outside w /\
        forall q, q <> p -> files w' !! q = files w !! q).
Proof.
  cbv zeta. unfold info_dict, save. unfold_monad. simpl. split.
  - intros ->. reflexivity.
  - intros w' H.
    destruct (match path with Some p => Some p | None => _ end)
      as [p |]; [| discriminate H].
    simplify_eq/=. exists p. eexists.
    split; [reflexivity |]. split; [reflexivity |].
    split; [apply lookup_insert_eq |].
    split; [reflexivity |]. split; [reflexivity |].
    intros q Hq. now apply lookup_insert_ne.
Qed.

(** X17. A callback that returns has written a checkpoint exactly when a
    checkpoint path is configured and the counter it has just advanced is
    a multiple of 10; the checkpoint is the record of the classifier as
    the callback leaves it, the entries it has just appended included.
    Otherwise the files are untouched. *)
Theorem callback_checkpoints_every_tenth (p : vector) (loss output : bool)
  (w w' : World) :
  __callback__ p loss output w = (Ok tt, w') ->
  exists k,
    __n_iter__ (self w) = Some k /\
    __n_iter__ (self w') = Some (k + 1) /\
    (truthy_str (__save_path__ (self w)) = true ->
     (k + 1) mod 10 = 0 ->
     exists path,
       __save_path__ (self w) = Some path /\
       files w' = <[path := Pickle (reported (self w'))]> (files w)) /\
    (truthy_str (__save_path__ (self w)) = false \/ (k + 1) mod 10 <> 0 ->
     files w' = files w).
Proof.
  unfold __callback__. unfold_monad. simpl.
  destruct (if loss || output then _ else _) as [[[] | e] wa] eqn:Ha;
    [| discriminate].
  assert (files wa = files w /\
          __n_iter__ (self wa) = __n_iter__ (self w) /\
          __save_path__ (self wa) = __save_path__ (self w) /\
          pbar (self wa) = pbar (self w)) as (Fa & Na & Pa & Ba)
    by (destruct (loss || output); simplify_eq/=; repeat split).
  destruct (if output then _ else _) as [[[] | e] wb] eqn:Hb;
    [| discriminate].
  assert (files wb = files w /\
          __n_iter__ (self wb) = __n_iter__ (self w) /\
          __save_path__ (self wb) = __save_path__ (self w) /\
          pbar (self wb) = pbar (self w)) as (Fb & Nb & Pb & Bb).
  { destruct output; [| simplify_eq/=; repeat split; assumption].
    destruct (__last_output__ (self wa)); simplify_eq/=.
    repeat split; assumption. }
  rewrite Nb, Pb, Bb.
  destruct (__n_iter__ (self w)) as [k |]; [| discriminate].
  unfold save. unfold_monad. simpl. rewrite ?Pb.
  intros H. exists k. split; [reflexivity |].
  destruct (truthy_str (__save_path__ (self w))) eqn:Hpath;
    destruct ((k + 1) mod 10 =? 0) eqn:Hten; simpl in H;
    rewrite ?Pb in H;
    [apply Z.eqb_eq in Hten | apply Z.eqb_neq in Hten
    | apply Z.eqb_eq in Hten | apply Z.eqb_neq in Hten].
  - destruct (__save_path__ (self w)) as [path |]; [| discriminate Hpath].
    simpl in H.
    destruct (pbar (self w)) as [bar |];
      [| simpl in H; discriminate H].
    simplify_eq/=. split; [reflexivity |]. split.
    + intros _ _. exists path. split; [reflexivity |].
      unfold reported. simpl. now rewrite Fb.
    + intros [? | ?]; [discriminate | contradiction].
  - destruct (pbar (self w)) as [bar |];
      [| simpl in H; discriminate H].
    simplify_eq/=. split; [reflexivity |].
    split; [intros _ ?; contradiction |]. intros _. exact Fb.
  - destruct (pbar (self w)) as [bar |];
      [| simpl in H; discriminate H].
    simplify_eq/=. split; [reflexivity |].
    split; [intros ?; discriminate |]. intros _. exact Fb.
  - destruct (pbar (self w)) as [bar |];
      [| simpl in H; discriminate H].
    simplify_eq/=. split; [reflexivity |].
    split; [intros ?; discriminate |]. intros _. exact Fb.
Qed.

(** *** The callback and the iteration counter *)








(** *** The trace written at the end of a traced call *)

(** X19. A training call with [save_output_progress] that returns has
    written a JSON trace under that path.  Its labels are the whole
    [target_train], whatever the batch size; its loss list is the loss log
    the classifier keeps; and its three logs are aligned: each is the log
    from before the call with the same number of entries added, for every
    optimizer method. *)
Theorem traced_fit_writes_an_aligned_trace (input : matrix)
  (target : list Z) (bs : option Z) (kw : fit_kwargs) (w w' : World) :
  truthy_str (kw_save_output_progress kw) = true ->
  fit input target bs kw w = (Ok tt, w') ->
  exists path t,
    kw_save_output_progress kw = Some path /\
    files w' !! path = Some (Json t) /\
    tr_labels t = target /\
    tr_loss_value t = __loss_progress__ (self w') /\
    exists added,
      length (tr_output t)
        = (length (__output_progress__ (self w)) + added)%nat /\
      length (tr_loss_value t)
        = (length (__loss_progress__ (self w)) + added)%nat /\
      length (tr_params t)
        = (length (__params_progress__ (self w)) + added)%nat.
Proof.
  intros Htr H.
  apply fit_phases in H as (L & w1 & r & w2 & Hentry & Hmin & Hexit).
  apply fit_exit_ok in Hexit as (_ & _ & Hkept & _ & _ & _ & Hfile).
  pose proof (fit_entry_self _ _ _ _ _ _ _ Hentry) as Hself.
  apply fit_entry_locals in Hentry as (_ & _ & _ & Hsop).
  rewrite Hsop in Hfile.
  destruct (Hfile Htr) as (_ & _ & path & Hpath & Hlookup).
  exists path. eexists. split; [exact Hpath |].
  split; [exact Hlookup |]. simpl.
  split; [reflexivity |]. split; [now rewrite Hkept |].
  unfold QC.fit_minimize in Hmin. unfold_monad.
  cbv beta iota zeta in Hmin.
  apply minimize_loop_history in Hmin as (_ & Hloss & Hout & Hpar & _).
  assert (__loss_progress__ (self w1) = __loss_progress__ (self w)) as Hl0
    by now rewrite Hself.
  assert (__output_progress__ (self w1) = __output_progress__ (self w))
    as Ho0 by now rewrite Hself.
  assert (__params_progress__ (self w1) = __params_progress__ (self w))
    as Hp0 by now rewrite Hself.
  rewrite Hl0, Hsop, Htr, orb_true_r, <- Nat.add_assoc in Hloss.
  rewrite Ho0, Hsop, Htr, <- Nat.add_assoc in Hout.
  rewrite Hp0, Hsop, Htr, <- Nat.add_assoc in Hpar.
  eexists. split; [exact Hout |]. split; [exact Hloss | exact Hpar].
Qed.

(** *** The label check *)

Lemma insert_unique_in (z : Z) (l : list Z) (a : Z) :
  In a (insert_unique z l) <-> a = z \/ In a l.
Proof.
  induction l as [| h t IH]; simpl.
  - intuition.
  - destruct (z <? h) eqn:Hlt; [simpl; intuition |].
    destruct (z =? h) eqn:Heq.
    + apply Z.eqb_eq in Heq. subst h. simpl. intuition.
    + simpl. rewrite IH. intuition.
Qed.

Lemma insert_unique_sorted (z : Z) (l : list Z) :
  StronglySorted Z.lt l -> StronglySorted Z.lt (insert_unique z l).
Proof.
  induction l as [| h t IH]; simpl; intros Hs.
  - repeat constructor.
  - destruct (z <? h) eqn:Hlt.
    + apply Z.ltb_lt in Hlt. constructor; [assumption |].
      constructor; [assumption |].
      apply StronglySorted_inv in Hs as (_ & Hall).
      eapply List.Forall_impl; [| exact Hall]. simpl. lia.
    + destruct (z =? h) eqn:Heq; [assumption |].
      apply Z.ltb_ge in Hlt. apply Z.eqb_neq in Heq.
      apply StronglySorted_inv in Hs as (Ht & Hall).
      constructor; [auto |].
      apply List.Forall_forall. intros a Ha.
      apply insert_unique_in in Ha as [-> | Ha]; [lia |].
      rewrite List.Forall_forall in Hall. auto.
Qed.

Lemma unique_in (l : list Z) (a : Z) : In a (unique l) <-> In a l.
Proof.
  unfold unique. induction l as [| h t IH]; simpl; [tauto |].
  rewrite insert_unique_in, IH. intuition.
Qed.

Lemma unique_sorted (l : list Z) : StronglySorted Z.lt (unique l).
Proof.
  unfold unique. induction l as [| h t IH]; simpl; [constructor |].
  now apply insert_unique_sorted.
Qed.

Lemma sorted_nodup (l : list Z) : StronglySorted Z.lt l -> List.NoDup l.
Proof.
  induction 1 as [| a l Hs IH Hall]; constructor; [| assumption].
  intros Hin. rewrite List.Forall_forall in Hall.
  specialize (Hall _ Hin). lia.
Qed.

(** Any list of distinct values of the target is at most as long as
    [np.unique] of it. *)
Lemma distinct_labels_bound (target labels : list Z) :
  List.NoDup labels -> (forall z, In z labels -> In z target) ->
  (length labels <= length (unique target))%nat.
Proof.
  intros Hnd Hincl. apply List.NoDup_incl_length; [assumption |].
  intros z Hz. apply unique_in. auto.
Qed.

(** X20. The label check of [fit].  When the target holds more distinct
    values than the classifier has bitstrings the call raises before the
    optimizer is reached: no circuit has run, and the parameters and the
    files are as before.  Without a seed the error is the [ValueError] of
    the check, and the iteration counter and the progress bar that the
    entry installed are left in place.  Conversely a seedless call that
    ends at entry ends on this check: the target then holds more distinct
    values than there are bitstrings. *)
Theorem fit_rejects_too_many_labels (input : matrix) (target : list Z)
  (bs : option Z) (kw : fit_kwargs) (w : World) :
  (forall labels,
      List.NoDup labels -> (forall z, In z labels -> In z target) ->
      (length (bitstr (self w)) < length labels)%nat ->
      exists e w',
        fit input target bs kw w = (Raised e, w') /\
        nfev (self w') = nfev (self w) /\
        params (self w') = params (self w) /\
        files w' = files w /\
        (kw_seed kw = None ->
         e = ValueError /\
         __n_iter__ (self w') = Some 0 /\
         pbar (self w')
         = Some {| total := __budget__ (self w); n := 0 |})) /\
  (forall e w',
      kw_seed kw = None ->
      fit_entry target bs kw w = (Raised e, w') ->
      e = ValueError /\
      exists labels,
        List.NoDup labels /\ (forall z, In z labels -> In z target) /\
        (length (bitstr (self w)) < length labels)%nat).
Proof.
  split.
  - intros labels Hnd Hincl Hmany.
    pose proof (distinct_labels_bound _ _ Hnd Hincl) as Hbound.
    assert ((length (bitstr (self w)) <? length (unique target))%nat = true)
      as Hcheck by (apply Nat.ltb_lt; lia).
    unfold QC.fit, QC.fit_entry. unfold_monad. simpl.
    destruct (kw_seed kw) as [s |]; unfold call_outside; simpl.
    + destruct (np_random_seed s (outside w)) as [[[] | e] o]; simpl;
        rewrite ?Hcheck; simpl; do 2 eexists;
        (split; [reflexivity |]); repeat split; discriminate.
    + rewrite Hcheck. simpl. do 2 eexists.
      split; [reflexivity |]. repeat split.
  - intros e w' Hseed. unfold QC.fit_entry. unfold_monad. simpl.
    rewrite Hseed. simpl.
    destruct (_ <? _)%nat eqn:Hcheck; simpl; intros H; [| discriminate H].
    split; [congruence |].
    exists (unique target). split; [apply sorted_nodup, unique_sorted |].
    split; [intros z; apply unique_in |]. now apply Nat.ltb_lt.
Qed.

End TrainingProperties.

(** * More concrete runs *)

Section BuilderRuns.

Import Builder BuilderTerms ExampleXOR Demo.

Local Abbreviation f := demo_str_float.
Local Abbreviation b2 := demo_builder.

(** Two input gates placed by one call on the two-qubit builder. *)
Lemma input_list_returns_iff_witness :
  let result := input f (Listed [0; 1] [1%Q; 2%Q]) b2 in
  (Forall (in_range b2) [0; 1] /\ (2 <= 2)%nat) /\
  fst result = Ok tt /\
  nbqbits (snd result) = 2 /\
  mq (snd result) = [SX 0; RZ 0 1%Q; SX 0; SX 1; RZ 1 2%Q; SX 1].
Proof.
  cbv zeta.
  destruct (input_list_returns_iff f [0; 1] [1%Q; 2%Q] b2) as (Hiff & Hok).
  assert (Forall (in_range b2) [0; 1] /\ (2 <= 2)%nat) as Hpre
    by (split; [repeat constructor; unfold in_range; simpl; lia | lia]).
  split; [exact Hpre |].
  split; [apply Hiff; exact Hpre |].
  apply Hok. reflexivity.
Defined.

(** Qubit 0 gets its gate before index 5 is refused. *)
Lemma input_list_keeps_gates_placed_before_failure_witness :
  let result := input f (Listed [0; 5; 1] [1%Q; 2%Q; 3%Q]) b2 in
  fst result = Raised OutOfRangeError /\
  nbqbits (snd result) = 2 /\
  mq (snd result) = [SX 0; RZ 0 1%Q; SX 0].
Proof.
  cbv zeta.
  apply (input_list_keeps_gates_placed_before_failure f [0] [1] 5
           [1%Q; 2%Q; 3%Q] b2).
  - repeat constructor; unfold in_range; simpl; lia.
  - unfold in_range; simpl; lia.
  - simpl; lia.
Defined.

(** [allin] on two qubits with two angles, and with one angle only. *)
Lemma allin_places_one_gate_per_qubit_witness :
  (fst (allin f [1%Q; 2%Q] b2) = Ok tt /\
   mq (snd (allin f [1%Q; 2%Q] b2))
   = [SX 0; RZ 0 1%Q; SX 0; SX 1; RZ 1 2%Q; SX 1]) /\
  fst (allin f [1%Q] b2) = Raised IndexError.
Proof.
  split.
  - destruct (allin_places_one_gate_per_qubit f [1%Q; 2%Q] b2)
      as (Hok & _ & _).
    destruct Hok as (Hret & _ & Hmq & _); [simpl; lia |].
    split; [exact Hret | exact Hmq].
  - destruct (allin_places_one_gate_per_qubit f [1%Q] b2) as (_ & Hshort & _).
    apply Hshort. simpl; lia.
Defined.

(** The recipe of the example on the two-qubit builder, with shots. *)
Lemma xor_recipe_builds_on_two_qubits_witness :
  let result :=
    make_circuit f [1%Q; 2%Q] [3%Q; 4%Q; 5%Q; 6%Q] (Some 100) b2 in
  fst result = Ok (snd result) /\
  nbqbits (snd result) = 2 /\
  length (mq (snd result)) = 21%nat.
Proof.
  cbv zeta.
  destruct (xor_recipe_builds_on_two_qubits f 1%Q 2%Q 3%Q 4%Q 5%Q 6%Q
              [] [] (Some 100) b2) as (_ & Hbuilt).
  destruct (Hbuilt eq_refl) as (Hret & Hn & Hmq).
  split; [exact Hret |]. split; [exact Hn |].
  rewrite Hmq. reflexivity.
Defined.

End BuilderRuns.

Section ClassifierRuns.

Import QC ClassifierTerms Demo Checkpoints.

(** The codes 0, 1 and -2 through their binary strings. *)
Lemma int_of_bin_roundtrip_witness :
  map bin [0; 1; -2] = ["0b0"; "0b1"; "-0b10"] /\
  check_bitstr [PyStr "0b0"; PyStr "0b1"; PyStr "-0b10"] = Ok [0; 1; -2].
Proof.
  split; [reflexivity |].
  apply (proj2 int_of_bin_roundtrip [0; 1; -2]). discriminate.
Defined.

(** A mixed list is refused; a list of integers gives its codes. *)
Lemma bitstr_must_be_homogeneous_witness :
  check_bitstr [PyInt 0; PyStr "1"] = Raised TypeError /\
  check_bitstr [PyInt 0; PyInt 1] = Ok [0; 1] /\
  length [0; 1] = length [PyInt 0; PyInt 1].
Proof.
  split.
  - apply (proj1 (bitstr_must_be_homogeneous [PyInt 0; PyStr "1"])).
    split; [discriminate |]. split; reflexivity.
  - split; [reflexivity |].
    destruct (bitstr_must_be_homogeneous [PyInt 0; PyInt 1])
      as (_ & _ & Hok).
    apply (Hok [0; 1]). reflexivity.
Defined.

(** The construction of the demo classifier. *)
Lemma constructor_postconditions_witness :
  demo_construct PyNone PyNone PyNone = (Ok demo_classifier, tt) /\
  length (bitstr demo_classifier) = 2%nat /\
  nfev demo_classifier = 0 /\
  __min_loss__ demo_classifier = Inf /\
  __n_iter__ demo_classifier = None.
Proof.
  assert (demo_construct PyNone PyNone PyNone = (Ok demo_classifier, tt))
    as Hbuilt by reflexivity.
  split; [exact Hbuilt |].
  destruct (constructor_postconditions demo_loss (Some demo_circuit)
              [PyInt 0; PyInt 1] (demo_kwargs PyNone PyNone PyNone)
              tt tt demo_classifier Hbuilt)
    as (_ & _ & Hlen & _ & _ & _ & Hnfev & Hmin & _ & _ & _ & Hn & _).
  split; [exact Hlen |]. split; [exact Hnfev |].
  split; [exact Hmin | exact Hn].
Defined.

(** The demo backend has two columns, and so has the prediction. *)
Lemma predict_proba_selects_declared_columns_witness :
  exists m,
    fst (predict_proba demo_X None (world_with demo_classifier)) = Ok m /\
    ncols m = 2%nat /\
    length (rows m) = 1%nat.
Proof.
  destruct (predict_proba_selects_declared_columns demo_X None
              (world_with demo_classifier)
              {| ncols := 2;
                 rows := [[((3 # 4) * 1)%Q; ((1 - (3 # 4)) * 1)%Q]] |}
              tt) as (Hin & _).
  - vm_compute. reflexivity.
  - destruct Hin as (m & Hm & Hcols & Hrows & _).
    + repeat constructor; unfold column_in_range; simpl; lia.
    + exists m. split; [exact Hm |]. split; [exact Hcols | exact Hrows].
Defined.

(** One label for the one row of the demo input. *)
Lemma predict_returns_class_indices_witness :
  exists labels w',
    predict demo_X (world_with demo_classifier) = (Ok labels, w') /\
    Forall (fun l => (l < 2)%nat) labels /\
    length labels = 1%nat.
Proof.
  do 2 eexists.
  lazymatch goal with
  | |- _ = (Ok ?labels, ?w') /\ _ =>
      split; [vm_compute; reflexivity |];
      assert (predict demo_X (world_with demo_classifier)
              = (Ok labels, w')) as Hrun by (vm_compute; reflexivity);
      destruct (predict_returns_class_indices _ _ _ _ Hrun)
        as (Hall & _)
  end.
  split; [exact Hall | reflexivity].
Defined.

(** A tie goes to the first class. *)
Lemma proba_to_label_picks_first_maximum_witness :
  let proba :=
    {| ncols := 2; rows := [[(1 # 4)%Q; (3 # 4)%Q]; [(1 # 2)%Q; (1 # 2)%Q]] |}
  in
  proba_to_label proba = Ok [1%nat; 0%nat] /\
  exists a,
    nth_error [1%nat; 0%nat] 1 = Some a /\ (a < 2)%nat.
Proof.
  cbv zeta. split; [reflexivity |].
  destruct (proba_to_label_picks_first_maximum
              {| ncols := 2;
                 rows := [[(1 # 4)%Q; (3 # 4)%Q]; [(1 # 2)%Q; (1 # 2)%Q]] |}
              [1%nat; 0%nat] eq_refl) as (_ & Hrows).
  destruct (Hrows 1%nat [(1 # 2)%Q; (1 # 2)%Q] eq_refl) as (a & Ha & Hlt & _);
    [discriminate |].
  exists a. split; [exact Ha | exact Hlt].
Defined.

(** A checkpoint of the demo classifier. *)
Lemma save_writes_what_info_dict_reports_witness :
  let w := world_with checkpointing_classifier in
  exists w' record,
    save None w = (Ok tt, w') /\
    info_dict w' = (Ok ("demo", record), w') /\
    files w' !! "demo.pkl" = Some (Pickle record) /\
    save None (world_with demo_classifier)
    = (Raised TypeError, world_with demo_classifier).
Proof.
  cbv zeta.
  destruct (save_writes_what_info_dict_reports None
              (world_with checkpointing_classifier)) as (_ & Hsaved).
  destruct (Hsaved
              (snd (save None (world_with checkpointing_classifier)))
              eq_refl)
    as (p & record & Hp & Hinfo & Hfile & _).
  injection Hp as <-.
  exists (snd (save None (world_with checkpointing_classifier))), record.
  split; [reflexivity |]. split; [exact Hinfo |]. split; [exact Hfile |].
  apply (proj1 (save_writes_what_info_dict_reports None
                  (world_with demo_classifier))).
  reflexivity.
Defined.

(** The tenth callback of a call writes the checkpoint; the ninth does
    not. *)
Lemma callback_checkpoints_every_tenth_witness :
  let w9 := in_training checkpointing_classifier 9 in
  let w8 := in_training checkpointing_classifier 8 in
  (exists w',
      __callback__ [(1 # 2)%Q] false false w9 = (Ok tt, w') /\
      __n_iter__ (self w') = Some 10 /\
      files w' = <["demo.pkl" := Pickle (reported (self w'))]> (files w9)) /\
  (exists w',
      __callback__ [(1 # 2)%Q] false false w8 = (Ok tt, w') /\
      files w' = files w8).
Proof.
  cbv zeta. split.
  - eexists.
    lazymatch goal with
    | |- _ = (Ok tt, ?w') /\ _ =>
        split; [vm_compute; reflexivity |];
        assert (__callback__ [(1 # 2)%Q] false false
                  (in_training checkpointing_classifier 9) = (Ok tt, w'))
          as Hrun by (vm_compute; reflexivity);
        destruct (callback_checkpoints_every_tenth _ _ _ _ _ Hrun)
          as (k & Hk & Hk' & Hten & _)
    end.
    injection Hk as <-.
    split; [exact Hk' |].
    destruct (Hten eq_refl eq_refl) as (path & Hpath & Hfiles).
    injection Hpath as <-. exact Hfiles.
  - eexists.
    lazymatch goal with
    | |- _ = (Ok tt, ?w') /\ _ =>
        split; [vm_compute; reflexivity |];
        assert (__callback__ [(1 # 2)%Q] false false
                  (in_training checkpointing_classifier 8) = (Ok tt, w'))
          as Hrun by (vm_compute; reflexivity);
        destruct (callback_checkpoints_every_tenth _ _ _ _ _ Hrun)
          as (k & Hk & _ & _ & Hother)
    end.
    injection Hk as <-.
    apply Hother. right. discriminate.
Defined.

End ClassifierRuns.

Section TrainingRuns.

Import QC ClassifierTerms Demo Checkpoints.

Local Abbreviation quarter := [(1 # 4)%Q].
Local Abbreviation half := [(1 # 2)%Q].
Local Abbreviation plain := (demo_fit_kwargs "BFGS" false None).
Local Abbreviation traced :=
  (demo_fit_kwargs "COBYLA" true (Some "trace.json")).
Local Abbreviation fresh := (world_with demo_classifier).
Local Abbreviation trained kw := (demo_fit [quarter; half] half kw fresh).

Lemma plain_fit_returns : trained plain = (Ok tt, snd (trained plain)).
Proof. vm_compute. reflexivity. Qed.

Lemma traced_fit_returns : trained traced = (Ok tt, snd (trained traced)).
Proof. vm_compute. reflexivity. Qed.

(** Two probes of the optimizer, two circuit runs. *)
Lemma fit_counts_one_run_per_evaluation_witness :
  exists w' r,
    trained plain = (Ok tt, w') /\
    nfev (self w') = nfev (self fresh) + Z.of_nat (res_nfev r) /\
    nfev (self w') = 2 /\
    info_nfev (__info__ (self w')) = Some (nfev (self w')).
Proof.
  destruct (fit_counts_one_run_per_evaluation demo_seed demo_choice
              (demo_minimize [quarter; half] half) demo_X demo_y None
              plain fresh _ plain_fit_returns)
    as (L & w1 & r & w2 & _ & _ & Hnfev & Hinfo & _).
  eexists. exists r.
  split; [exact plain_fit_returns |].
  split; [exact Hnfev |]. split; [reflexivity | exact Hinfo].
Defined.

(** A training call of the demo, and one that ends on the label check. *)
Lemma fit_leaves_configuration_and_files_witness :
  (exists w',
      trained plain = (Ok tt, w') /\
      same_configuration (self fresh) (self w') /\
      files w' = files fresh) /\
  (exists w',
      fit demo_seed demo_choice (demo_minimize [quarter] half) demo_X
        [0; 1; 2] None plain fresh = (Raised ValueError, w') /\
      same_configuration (self fresh) (self w') /\
      files w' = files fresh).
Proof.
  split.
  - destruct (fit_leaves_configuration_and_files demo_seed demo_choice
                (demo_minimize [quarter; half] half) demo_X demo_y None
                plain fresh _ _ plain_fit_returns) as (Hconf & Hfiles).
    eexists. split; [exact plain_fit_returns |].
    split; [exact Hconf |]. apply Hfiles; reflexivity.
  - assert (fit demo_seed demo_choice (demo_minimize [quarter] half) demo_X
              [0; 1; 2] None plain fresh
            = (Raised ValueError,
               snd (fit demo_seed demo_choice (demo_minimize [quarter] half)
                      demo_X [0; 1; 2] None plain fresh))) as Hraised
      by (vm_compute; reflexivity).
    destruct (fit_leaves_configuration_and_files demo_seed demo_choice
                (demo_minimize [quarter] half) demo_X [0; 1; 2] None
                plain fresh _ _ Hraised) as (Hconf & Hfiles).
    eexists. split; [exact Hraised |].
    split; [exact Hconf |]. apply Hfiles; reflexivity.
Defined.

(** The minimum loss goes from infinity to 1/4. *)
Lemma min_loss_never_increases_witness :
  exists w',
    trained plain = (Ok tt, w') /\
    __min_loss__ (self w') = Fin (1 # 4) /\
    xle (__min_loss__ (self w')) (__min_loss__ (self fresh)).
Proof.
  eexists. split; [exact plain_fit_returns |].
  split; [reflexivity |].
  exact (min_loss_never_increases demo_seed demo_choice
           (demo_minimize [quarter; half] half) demo_X demo_y None
           plain fresh _ _ plain_fit_returns).
Defined.

(** Exact probabilities with an additive increment of 10 every 3
    callbacks: the first evaluation of a call raises. *)
Lemma numeric_increment_needs_a_shot_budget_witness :
  let c := built (demo_construct PyNone (PyInt 10) (PyInt 3)) in
  let w := in_training c 0 in
  let L :=
    {| method := "BFGS";
       save_loss_progress := false;
       save_output_progress := None;
       _nbshots := None;
       batch_size := 1;
       _labels := [0];
       indices := [0%nat] |} in
  to_optimize demo_choice demo_X demo_y L quarter w
  = (Raised TypeError, w).
Proof.
  cbv zeta.
  destruct (numeric_increment_needs_a_shot_budget demo_choice demo_X demo_y
              {| method := "BFGS";
                 save_loss_progress := false;
                 save_output_progress := None;
                 _nbshots := None;
                 batch_size := 1;
                 _labels := [0];
                 indices := [0%nat] |}
              quarter
              (in_training
                 (built (demo_construct PyNone (PyInt 10) (PyInt 3))) 0)
              [0%nat] tt 0 eq_refl eq_refl I) as (_ & Hraise).
  apply Hraise; [discriminate | reflexivity | reflexivity].
Defined.


(** The trace of a COBYLA call with two evaluations. *)
Lemma traced_fit_writes_an_aligned_trace_witness :
  exists w' t,
    trained traced = (Ok tt, w') /\
    files w' !! "trace.json" = Some (Json t) /\
    tr_labels t = demo_y /\
    exists added,
      length (tr_output t) = (0 + added)%nat /\
      length (tr_loss_value t) = (0 + added)%nat /\
      length (tr_params t) = (0 + added)%nat.
Proof.
  destruct (traced_fit_writes_an_aligned_trace demo_seed demo_choice
              (demo_minimize [quarter; half] half) demo_X demo_y None
              traced fresh _ eq_refl traced_fit_returns)
    as (path & t & Hpath & Hfile & Hlabels & _ & added & Hlen).
  injection Hpath as <-.
  eexists. exists t. split; [exact traced_fit_returns |].
  split; [exact Hfile |]. split; [exact Hlabels |].
  exists added. exact Hlen.
Defined.

(** Three labels for the two bitstrings of the demo classifier. *)
Lemma fit_rejects_too_many_labels_witness :
  exists w',
    fit demo_seed demo_choice (demo_minimize [quarter] half) demo_X
      [0; 1; 2] None plain fresh = (Raised ValueError, w') /\
    nfev (self w') = 0 /\
    __n_iter__ (self w') = Some 0.
Proof.
  destruct (fit_rejects_too_many_labels demo_seed demo_choice
              (demo_minimize [quarter] half) demo_X [0; 1; 2] None
              plain fresh) as (Hmany & _).
  destruct (Hmany [0; 1; 2]) as (e & w' & Hfit & Hnfev & _ & _ & Hseedless).
  - repeat (constructor; [simpl; intuition lia |]). constructor.
  - auto.
  - simpl; lia.
  - destruct (Hseedless eq_refl) as (-> & Hn & _).
    exists w'. split; [exact Hfit |]. split; [exact Hnfev | exact Hn].
Defined.

End TrainingRuns.
